(** * Trusty Yellow Cab Account Manager: derived totals, report filter, persistence

    A shallow embedding of the numeric-input parser ([getVal]), the derived
    totals of report creation and edit, the report filter of the two
    dashboards and the persistence adapter (storageService), with the
    properties the specification states about them; and of the login, the
    settings screen, the events of the report form, the figures and charts
    of the dashboards, the summary statement of the PDF report and the
    display of the time of day, with further properties of the code.

    JavaScript numbers are IEEE 754 binary64 values, modelled by
    [spec_float] at precision 53 and maximal exponent 1024.  JavaScript
    strings are modelled by [string]; every place where the code inspects
    characters only distinguishes ASCII characters from the rest. *)

From Stdlib Require Import ZArith Lia List Bool Ascii String.
From Stdlib Require Import Sorting.Sorted Relations.Relation_Definitions.
From Stdlib Require Import Sorting.Permutation.
From Stdlib Require Import Floats.SpecFloat.
Import ListNotations.
Open Scope Z_scope.

(** ** JavaScript numbers *)

Module JsNumber.

Definition number := spec_float.

Definition prec : Z := 53.
Definition emax : Z := 1024.

Definition NaN : number := S754_nan.
Definition posZero : number := S754_zero false.
Definition posInfinity : number := S754_infinity false.

Definition add (x y : number) : number := SFadd prec emax x y.
Definition sub (x y : number) : number := SFsub prec emax x y.
Definition neg (x : number) : number := SFopp x.

(** The comparison operators [<=], [>=], [<], [>] and [===] of the
    language on numbers: all of them are false when an operand is NaN. *)
Definition leb (x y : number) : bool := SFleb x y.
Definition geb (x y : number) : bool := SFleb y x.
Definition ltb (x y : number) : bool := SFltb x y.
Definition strictEq (x y : number) : bool := SFeqb x y.



(** ToBoolean on a number: NaN, +0 and -0 are falsy. *)
Definition truthy (x : number) : bool :=
  match x with
  | S754_nan | S754_zero _ => false
  | _ => true
  end.

(** [x || 0] on a number [x]. *)
Definition orZero (x : number) : number :=
  if truthy x then x else posZero.

(** The Number value of the non-negative rational [n / d] ([0 <= n],
    [0 < d]): round to nearest, ties to even.  The quotient is computed
    with 64 significant bits at least and a sticky last bit, and
    [binary_normalize] rounds it to precision 53 (to a subnormal, to zero
    or to infinity where the exponent range requires it). *)
Definition ofRatio (n d : Z) : number :=
  if n <=? 0 then posZero
  else
    let s := Z.max 0 (64 + Z.log2 d - Z.log2 n) in
    let q := (n * 2 ^ s) / d in
    let r := (n * 2 ^ s) mod d in
    let sticky := if r =? 0 then 0 else 1 in
    binary_normalize prec emax (2 * q + sticky) (- s - 1) false.

(** The Number value of [m * 10 ^ e] for a non-negative integer [m]. *)
Definition ofDecimal (m e : Z) : number :=
  if 0 <=? e then ofRatio (m * 10 ^ e) 1 else ofRatio m (10 ^ (- e)).

(** The Number value of the integer [z]. *)
Definition ofZ (z : Z) : number :=
  if z <? 0 then neg (ofDecimal (- z) 0) else ofDecimal z 0.

(** [n % d] (Number::remainder): what is left of [n] by the division by [d]
    with the quotient truncated; it has the sign of [n] and is exact. *)
Definition rem (n d : number) : number :=
  match n, d with
  | S754_nan, _ => NaN
  | _, S754_nan => NaN
  | S754_infinity _, _ => NaN
  | _, S754_infinity _ => n
  | _, S754_zero _ => NaN
  | S754_zero _, _ => n
  | S754_finite sn mn en, S754_finite _ md ed =>
      let e := Z.min en ed in
      let r := Z.rem (Z.pos mn * 2 ^ (en - e)) (Z.pos md * 2 ^ (ed - e)) in
      if r =? 0 then S754_zero sn
      else binary_normalize prec emax (if sn then - r else r) e sn
  end.

End JsNumber.
Import JsNumber.

(** ** Strings: the character classes, [replace], [split] and [parseFloat] *)

Module JsString.

Open Scope char_scope.

Definition isDigit (c : ascii) : bool :=
  let n := nat_of_ascii c in (48 <=? n)%nat && (n <=? 57)%nat.

Definition isDot (c : ascii) : bool := Ascii.eqb c ".".

(** The characters kept by [replace(/[^0-9.]/g, '')]. *)
Definition isNumericChar (c : ascii) : bool := isDigit c || isDot c.

Definition digitValue (c : ascii) : Z := Z.of_nat (nat_of_ascii c) - 48.

(** White space and line terminators skipped at the start of the
    argument of [parseFloat] (the ASCII ones). *)
Definition isWhiteSpace (c : ascii) : bool :=
  let n := nat_of_ascii c in
  ((9 <=? n)%nat && (n <=? 13)%nat) || (n =? 32)%nat.

Fixpoint filter (p : ascii -> bool) (s : string) : string :=
  match s with
  | EmptyString => EmptyString
  | String c r => if p c then String c (filter p r) else filter p r
  end.

Fixpoint forallb (p : ascii -> bool) (s : string) : bool :=
  match s with
  | EmptyString => true
  | String c r => p c && forallb p r
  end.

(** [takeWhile p s] and [dropWhile p s]: the longest prefix of [s] whose
    characters satisfy [p], and what follows it. *)
Fixpoint takeWhile (p : ascii -> bool) (s : string) : string :=
  match s with
  | EmptyString => EmptyString
  | String c r => if p c then String c (takeWhile p r) else EmptyString
  end.

Fixpoint dropWhile (p : ascii -> bool) (s : string) : string :=
  match s with
  | EmptyString => EmptyString
  | String c r => if p c then dropWhile p r else s
  end.

(** [s.split('.')]: the pieces between the decimal points; the result is
    never empty. *)
Fixpoint splitDot (s : string) : list string :=
  match s with
  | EmptyString => [EmptyString]
  | String c r =>
      if isDot c then EmptyString :: splitDot r
      else match splitDot r with
           | p :: ps => String c p :: ps
           | [] => [String c EmptyString]
           end
  end.

(** The value of a run of decimal digits, read from the left. *)
Fixpoint digitsValue (acc : Z) (s : string) : Z :=
  match s with
  | EmptyString => acc
  | String c r => digitsValue (10 * acc + digitValue c) r
  end.

Definition strlen (s : string) : Z := Z.of_nat (String.length s).

Definition isEmpty (s : string) : bool :=
  match s with EmptyString => true | _ => false end.

(** [startsWith p s]: [p] is a prefix of [s]. *)
Fixpoint startsWith (p s : string) : bool :=
  match p, s with
  | EmptyString, _ => true
  | String _ _, EmptyString => false
  | String a p', String b s' => Ascii.eqb a b && startsWith p' s'
  end.

(** The ExponentPart of a StrDecimalLiteral at the head of [s], when there
    is a well-formed one: [e] or [E], an optional sign, one digit at
    least.  A malformed exponent is not part of the longest prefix. *)
Definition exponentPart (s : string) : Z :=
  match s with
  | String c r =>
      if Ascii.eqb c "e" || Ascii.eqb c "E" then
        match r with
        | String "-" d =>
            if isEmpty (takeWhile isDigit d) then 0
            else - digitsValue 0 (takeWhile isDigit d)
        | String "+" d => digitsValue 0 (takeWhile isDigit d)
        | _ => digitsValue 0 (takeWhile isDigit r)
        end
      else 0
  | EmptyString => 0
  end.

(** The longest prefix of [s] that is a StrUnsignedDecimalLiteral, and
    its Number value; NaN when no prefix is one. *)
Definition parseUnsigned (s : string) : number :=
  if startsWith "Infinity" s then posInfinity
  else
    let ip := takeWhile isDigit s in
    let r1 := dropWhile isDigit s in
    match r1 with
    | String "." r2 =>
        let fp := takeWhile isDigit r2 in
        if isEmpty ip && isEmpty fp then NaN
        else ofDecimal (digitsValue 0 (ip ++ fp))
                       (exponentPart (dropWhile isDigit r2) - strlen fp)
    | _ =>
        if isEmpty ip then NaN
        else ofDecimal (digitsValue 0 ip) (exponentPart r1)
    end.

(** The global function [parseFloat] on a string. *)
Definition parseFloat (s : string) : number :=
  match dropWhile isWhiteSpace s with
  | String "-" r => neg (parseUnsigned r)
  | String "+" r => parseUnsigned r
  | t => parseUnsigned t
  end.

(** [s.split(sep)] for a separator of one character: the pieces between
    the separators; the result is never empty. *)
Fixpoint split (sep : ascii) (s : string) : list string :=
  match s with
  | EmptyString => [EmptyString]
  | String c r =>
      if Ascii.eqb c sep then EmptyString :: split sep r
      else match split sep r with
           | p :: ps => String c p :: ps
           | [] => [String c EmptyString]
           end
  end.

Definition isHexDigit (c : ascii) : bool :=
  let n := nat_of_ascii c in
  isDigit c || ((65 <=? n)%nat && (n <=? 70)%nat)
            || ((97 <=? n)%nat && (n <=? 102)%nat).

Definition hexDigitValue (c : ascii) : Z :=
  let n := Z.of_nat (nat_of_ascii c) in
  (if isDigit c then n - 48 else if n <=? 70 then n - 55 else n - 87)%Z.

(** The value of a run of hexadecimal digits, read from the left. *)
Fixpoint hexDigitsValue (acc : Z) (s : string) : Z :=
  match s with
  | EmptyString => acc
  | String c r => hexDigitsValue (16 * acc + hexDigitValue c) r
  end.

(** The global function [parseInt] on a string, without a radix: leading
    white space, an optional sign, then a hexadecimal integer after [0x]
    or [0X], a decimal one otherwise; NaN when no digit is there.  The
    digits are read exactly (the language lets an implementation read a
    decimal digit after the 20th as 0). *)
Definition parseInt (s : string) : number :=
  let t := dropWhile isWhiteSpace s in
  let negative := match t with String "-" _ => true | _ => false end in
  let u := match t with
           | String "-" r => r
           | String "+" r => r
           | _ => t
           end in
  let hex := match u with
             | String "0" (String c _) => Ascii.eqb c "x" || Ascii.eqb c "X"
             | _ => false
             end in
  let v := match u with
           | String _ (String _ r) => if hex then r else u
           | _ => u
           end in
  let z := takeWhile (if hex then isHexDigit else isDigit) v in
  if isEmpty z then NaN
  else
    let mathInt := if hex then hexDigitsValue 0 z else digitsValue 0 z in
    if (mathInt =? 0)%Z then S754_zero negative
    else ofZ (if negative then - mathInt else mathInt).

End JsString.
Import JsString.

Open Scope string_scope.

(** ** Values of type [any] reaching the numeric-input parser *)

Inductive JsVal : Type :=
| JsUndefined
| JsNull
| JsNum (n : number)
| JsStr (s : string).

(** ToBoolean: [undefined], [null], NaN, the zeros and the empty string
    are falsy. *)
Definition toBoolean (v : JsVal) : bool :=
  match v with
  | JsUndefined | JsNull => false
  | JsNum n => truthy n
  | JsStr s => negb (isEmpty s)
  end.

(** ** The data model (types.ts) *)

Module Driver.
Record t : Type := mk {
  id : string;
  name : string;
  vehicle : string;
  pin : string;
  (** optional; [None] stands for an absent ([undefined] or [null]) field *)
  dailySalary : option number
}.
End Driver.

Module IncomeBreakdown.
Record t : Type := mk {
  local : number;
  outstation : number;
  mixed : number
}.
End IncomeBreakdown.

Module ExpenseBreakdown.
Record t : Type := mk {
  fuel : number;
  maintenance : number;
  toll : number;
  other : number
}.
End ExpenseBreakdown.

Module DailyReport.
Record t : Type := mk {
  id : string;
  driverId : string;
  driverName : string;
  date : string;             (* YYYY-MM-DD *)
  (** declared a number; the edit dialogs can leave the typed string here *)
  kmsDriven : JsVal;
  loginTime : string;
  logoutTime : string;
  income : IncomeBreakdown.t;
  expenses : ExpenseBreakdown.t;
  totalIncome : number;
  totalExpenses : number;
  driverSalary : number;
  netProfit : number;
  notes : string;
  timestamp : number
}.
End DailyReport.

(** ** Report creation (components/ReportForm.tsx) *)

Module ReportForm.

(** The form state: every field is the string the user typed. *)
Record IncomeInput : Type := mkIncomeInput {
  local : string;
  outstation : string;
  mixed : string
}.

Record ExpensesInput : Type := mkExpensesInput {
  fuel : string;
  maintenance : string;
  toll : string;
  other : string;
  salary : string
}.

Record State : Type := mkState {
  date : string;
  kmsDriven : string;
  loginTime : string;
  logoutTime : string;
  income : IncomeInput;
  expenses : ExpensesInput;
  notes : string
}.

(** [getVal]: a number is returned as it is, a falsy value gives 0, any
    other value is cleaned of every character outside [0-9.] and cut at
    its second decimal point before [parseFloat]. *)
Definition getVal (val : JsVal) : number :=
  match val with
  | JsNum n => n
  | JsUndefined | JsNull => posZero
  | JsStr s =>
      if negb (toBoolean val) then posZero
      else
        let cleaned := filter isNumericChar s in
        let parts := splitDot cleaned in
        if (2 <? List.length parts)%nat then
          orZero (parseFloat (nth 0 parts "" ++ "." ++ nth 1 parts ""))
        else orZero (parseFloat cleaned)
  end.

Definition totalIncome (st : State) : number :=
  add (add (getVal (JsStr (local (income st))))
           (getVal (JsStr (outstation (income st)))))
      (getVal (JsStr (mixed (income st)))).

Definition totalExpenses (st : State) : number :=
  add (add (add (add (getVal (JsStr (fuel (expenses st))))
                     (getVal (JsStr (maintenance (expenses st)))))
                (getVal (JsStr (toll (expenses st)))))
           (getVal (JsStr (other (expenses st)))))
      (getVal (JsStr (salary (expenses st)))).

Definition driverSalary (st : State) : number :=
  getVal (JsStr (salary (expenses st))).

Definition netProfit (st : State) : number :=
  sub (totalIncome st) (totalExpenses st).

Definition orDefault (s d : string) : string :=
  if isEmpty s then d else s.

(** [handleSubmit]: the report handed to [onSubmit].  [uuid] is the
    result of [uuidv4()] and [now] that of [Date.now()]. *)
Definition handleSubmit (driver : Driver.t) (uuid : string) (now : number)
    (st : State) : DailyReport.t :=
  let finalIncome :=
    IncomeBreakdown.mk (getVal (JsStr (local (income st))))
                       (getVal (JsStr (outstation (income st))))
                       (getVal (JsStr (mixed (income st)))) in
  let finalExpenses :=
    ExpenseBreakdown.mk (getVal (JsStr (fuel (expenses st))))
                        (getVal (JsStr (maintenance (expenses st))))
                        (getVal (JsStr (toll (expenses st))))
                        (getVal (JsStr (other (expenses st)))) in
  {| DailyReport.id := uuid;
     DailyReport.driverId := Driver.id driver;
     DailyReport.driverName := Driver.name driver;
     DailyReport.date := date st;
     DailyReport.kmsDriven := JsNum (getVal (JsStr (kmsDriven st)));
     DailyReport.loginTime := orDefault (loginTime st) "00:00";
     DailyReport.logoutTime := orDefault (logoutTime st) "00:00";
     DailyReport.income := finalIncome;
     DailyReport.expenses := finalExpenses;
     DailyReport.totalIncome := totalIncome st;
     DailyReport.totalExpenses := totalExpenses st;
     DailyReport.driverSalary := driverSalary st;
     DailyReport.netProfit := netProfit st;
     DailyReport.notes := notes st;
     DailyReport.timestamp := now |}.

(** *** The events of the form

    The amount inputs ([InputGroup]) and the input of the distance pass a
    typed value on only when it passes [val === '' || /^[0-9.]*$/.test(val)];
    the other inputs pass every value on. *)

Definition accepted (val : string) : bool :=
  isEmpty val || forallb isNumericChar val.

Inductive IncomeField : Type := Local | Outstation | Mixed.
Inductive ExpenseField : Type := Fuel | Maintenance | Toll | Other | Salary.

Inductive Event : Type :=
| ChangeDate (val : string)
| ChangeKms (val : string)
| ChangeLoginTime (val : string)
| ChangeLogoutTime (val : string)
| ChangeIncome (f : IncomeField) (val : string)
| ChangeExpense (f : ExpenseField) (val : string)
| ChangeNotes (val : string).

Definition setIncomeField (f : IncomeField) (val : string)
    (i : IncomeInput) : IncomeInput :=
  match f with
  | Local => mkIncomeInput val (outstation i) (mixed i)
  | Outstation => mkIncomeInput (local i) val (mixed i)
  | Mixed => mkIncomeInput (local i) (outstation i) val
  end.

Definition setExpenseField (f : ExpenseField) (val : string)
    (e : ExpensesInput) : ExpensesInput :=
  match f with
  | Fuel => mkExpensesInput val (maintenance e) (toll e) (other e) (salary e)
  | Maintenance => mkExpensesInput (fuel e) val (toll e) (other e) (salary e)
  | Toll => mkExpensesInput (fuel e) (maintenance e) val (other e) (salary e)
  | Other => mkExpensesInput (fuel e) (maintenance e) (toll e) val (salary e)
  | Salary => mkExpensesInput (fuel e) (maintenance e) (toll e) (other e) val
  end.

(** The state after an [onChange] event. *)
Definition onChange (st : State) (ev : Event) : State :=
  match ev with
  | ChangeDate val =>
      mkState val (kmsDriven st) (loginTime st) (logoutTime st)
              (income st) (expenses st) (notes st)
  | ChangeKms val =>
      if accepted val then
        mkState (date st) val (loginTime st) (logoutTime st)
                (income st) (expenses st) (notes st)
      else st
  | ChangeLoginTime val =>
      mkState (date st) (kmsDriven st) val (logoutTime st)
              (income st) (expenses st) (notes st)
  | ChangeLogoutTime val =>
      mkState (date st) (kmsDriven st) (loginTime st) val
              (income st) (expenses st) (notes st)
  | ChangeIncome f val =>
      if accepted val then
        mkState (date st) (kmsDriven st) (loginTime st) (logoutTime st)
                (setIncomeField f val (income st)) (expenses st) (notes st)
      else st
  | ChangeExpense f val =>
      if accepted val then
        mkState (date st) (kmsDriven st) (loginTime st) (logoutTime st)
                (income st) (setExpenseField f val (expenses st)) (notes st)
      else st
  | ChangeNotes val =>
      mkState (date st) (kmsDriven st) (loginTime st) (logoutTime st)
              (income st) (expenses st) val
  end.

(** The state of a form just opened; [today] is
    [new Date().toISOString().split('T')[0]]. *)
Definition initialState (today : string) : State :=
  mkState today "" "" "" (mkIncomeInput "" "" "")
          (mkExpensesInput "" "" "" "" "") "".

End ReportForm.

(** ** The edit dialog of the dashboards *)

(** The report under edit ([editingReport], of type [any]): a stored report
    whose numeric fields are replaced, one by one, by the strings typed in
    the dialog. *)
Module EditingReport.
Record IncomeInput : Type := mkIncomeInput {
  local : JsVal;
  outstation : JsVal;
  mixed : JsVal
}.

Record ExpensesInput : Type := mkExpensesInput {
  fuel : JsVal;
  maintenance : JsVal;
  toll : JsVal;
  other : JsVal
}.

Record t : Type := mk {
  id : string;
  driverId : string;
  driverName : string;
  date : string;
  kmsDriven : JsVal;
  loginTime : string;
  logoutTime : string;
  income : IncomeInput;
  expenses : ExpensesInput;
  totalIncome : number;
  totalExpenses : number;
  driverSalary : JsVal;
  netProfit : number;
  notes : string;
  timestamp : number
}.

(** [setEditingReport(report)]: the dialog opens on a stored report. *)
Definition ofReport (r : DailyReport.t) : t :=
  {| id := DailyReport.id r;
     driverId := DailyReport.driverId r;
     driverName := DailyReport.driverName r;
     date := DailyReport.date r;
     kmsDriven := DailyReport.kmsDriven r;
     loginTime := DailyReport.loginTime r;
     logoutTime := DailyReport.logoutTime r;
     income :=
       mkIncomeInput (JsNum (IncomeBreakdown.local (DailyReport.income r)))
                     (JsNum (IncomeBreakdown.outstation (DailyReport.income r)))
                     (JsNum (IncomeBreakdown.mixed (DailyReport.income r)));
     expenses :=
       mkExpensesInput
         (JsNum (ExpenseBreakdown.fuel (DailyReport.expenses r)))
         (JsNum (ExpenseBreakdown.maintenance (DailyReport.expenses r)))
         (JsNum (ExpenseBreakdown.toll (DailyReport.expenses r)))
         (JsNum (ExpenseBreakdown.other (DailyReport.expenses r)));
     totalIncome := DailyReport.totalIncome r;
     totalExpenses := DailyReport.totalExpenses r;
     driverSalary := JsNum (DailyReport.driverSalary r);
     netProfit := DailyReport.netProfit r;
     notes := DailyReport.notes r;
     timestamp := DailyReport.timestamp r |}.
End EditingReport.

(** [getVal] and [handleUpdateReport] are the same text in
    AdminDashboard.tsx and in DriverDashboard.tsx.  [numberToString] is
    Number.prototype.toString, which the code applies to a field the user
    did not retype; nothing below depends on what it prints. *)
Module Dashboard.
Section WithNumberToString.

Variable numberToString : number -> string.

(** [val ? val.toString() : ''] *)
Definition toStr (val : JsVal) : string :=
if toBoolean val then
  match val with
  | JsStr s => s
  | JsNum n => numberToString n
  | JsUndefined | JsNull => ""
  end
else "".

Definition getVal (val : JsVal) : number :=
let str := toStr val in
let cleaned := filter isNumericChar str in
orZero (parseFloat cleaned).

Definition handleUpdateReport (editingReport : EditingReport.t)
  : DailyReport.t :=
let incLocal := getVal (EditingReport.local (EditingReport.income editingReport)) in
let incOut := getVal (EditingReport.outstation (EditingReport.income editingReport)) in
let incMixed := getVal (EditingReport.mixed (EditingReport.income editingReport)) in
let expFuel := getVal (EditingReport.fuel (EditingReport.expenses editingReport)) in
let expMaint := getVal (EditingReport.maintenance (EditingReport.expenses editingReport)) in
let expToll := getVal (EditingReport.toll (EditingReport.expenses editingReport)) in
let expOther := getVal (EditingReport.other (EditingReport.expenses editingReport)) in
let salary := getVal (EditingReport.driverSalary editingReport) in
let newTotalIncome := add (add incLocal incOut) incMixed in
let newTotalExpenses :=
  add (add (add (add expFuel expMaint) expToll) expOther) salary in
let newNetProfit := sub newTotalIncome newTotalExpenses in
{| DailyReport.id := EditingReport.id editingReport;
   DailyReport.driverId := EditingReport.driverId editingReport;
   DailyReport.driverName := EditingReport.driverName editingReport;
   DailyReport.date := EditingReport.date editingReport;
   DailyReport.kmsDriven := EditingReport.kmsDriven editingReport;
   DailyReport.loginTime := EditingReport.loginTime editingReport;
   DailyReport.logoutTime := EditingReport.logoutTime editingReport;
   DailyReport.income := IncomeBreakdown.mk incLocal incOut incMixed;
   DailyReport.expenses :=
     ExpenseBreakdown.mk expFuel expMaint expToll expOther;
   DailyReport.totalIncome := newTotalIncome;
   DailyReport.totalExpenses := newTotalExpenses;
   DailyReport.driverSalary := salary;
   DailyReport.netProfit := newNetProfit;
   DailyReport.notes := EditingReport.notes editingReport;
   DailyReport.timestamp := EditingReport.timestamp editingReport |}.

(** [formatTime] of the two dashboards (the same code in both): the
    12-hour reading of a time of day written [HH:MM].  [h] and [m] are
    the first two pieces of [time.split(':')]; a missing [m] is
    [undefined], which the template literal prints as such. *)
Definition formatTime (time : string) : string :=
if isEmpty time then "--"
else
  let parts := split ":" time in
  let h := match parts with h :: _ => JsStr h | [] => JsUndefined end in
  let m := match parts with _ :: m :: _ => m | _ => "undefined" end in
  let hours := match h with JsStr h => parseInt h | _ => NaN end in
  let ampm := if geb hours (ofZ 12) then "PM" else "AM" in
  let hours := rem hours (ofZ 12) in
  let hours := if truthy hours then hours else ofZ 12 in
  (numberToString hours ++ ":" ++ m ++ " " ++ ampm)%string.

End WithNumberToString.
End Dashboard.

(** ** Dates (the Date built-in object)

    A time value is a number of milliseconds since the epoch, or NaN for an
    invalid Date; it is modelled by [option Z], [None] being NaN.  The day
    arithmetic is that of the language specification (Day, DayFromYear,
    YearFromTime, MonthFromTime, DateFromTime, MakeDay).  Local time is UTC
    shifted by a fixed offset [tza], in milliseconds (no daylight saving
    change).  Time values are integers far below 2^53, on which the
    subtraction and the comparisons of the code are exact; the range limit
    of time values (TimeClip) is left out. *)

Module JsDate.

Local Open Scope Z_scope.

Definition timeValue := option Z.

Definition msPerDay : Z := 86400000.

Definition Day (t : Z) : Z := t / msPerDay.

Definition isLeapYear (y : Z) : bool :=
  (y mod 4 =? 0) && (negb (y mod 100 =? 0) || (y mod 400 =? 0)).

Definition DayFromYear (y : Z) : Z :=
  365 * (y - 1970) + (y - 1969) / 4 - (y - 1901) / 100 + (y - 1601) / 400.

(** The largest year whose first day is not after day [n]: one of the
    three years around the estimate by the mean year length. *)
Definition YearFromDay (n : Z) : Z :=
  let y := 1970 + (n * 400) / 146097 in
  if DayFromYear (y + 1) <=? n then y + 1
  else if DayFromYear y <=? n then y
  else y - 1.

Definition DayWithinYear (n : Z) : Z := n - DayFromYear (YearFromDay n).

(** The day within the year on which month [m] (0 to 11) starts. *)
Definition monthStart (leap : bool) (m : Z) : Z :=
  let l := if leap then 1 else 0 in
  if m <=? 0 then 0
  else if m =? 1 then 31
  else if m =? 2 then 59 + l
  else if m =? 3 then 90 + l
  else if m =? 4 then 120 + l
  else if m =? 5 then 151 + l
  else if m =? 6 then 181 + l
  else if m =? 7 then 212 + l
  else if m =? 8 then 243 + l
  else if m =? 9 then 273 + l
  else if m =? 10 then 304 + l
  else 334 + l.

(** The month (0 to 11) of day [d] within a year. *)
Definition monthOfDayWithinYear (leap : bool) (d : Z) : Z :=
  let l := if leap then 1 else 0 in
  if d <? 31 then 0
  else if d <? 59 + l then 1
  else if d <? 90 + l then 2
  else if d <? 120 + l then 3
  else if d <? 151 + l then 4
  else if d <? 181 + l then 5
  else if d <? 212 + l then 6
  else if d <? 243 + l then 7
  else if d <? 273 + l then 8
  else if d <? 304 + l then 9
  else if d <? 334 + l then 10
  else 11.

Definition MonthFromDay (n : Z) : Z :=
  monthOfDayWithinYear (isLeapYear (YearFromDay n)) (DayWithinYear n).

Definition DateFromDay (n : Z) : Z :=
  DayWithinYear n - monthStart (isLeapYear (YearFromDay n)) (MonthFromDay n) + 1.

(** MakeDay(year, month, date), the month counted from 0. *)
Definition MakeDay (year month date : Z) : Z :=
  let ym := year + month / 12 in
  let mn := month mod 12 in
  DayFromYear ym + monthStart (isLeapYear ym) mn + date - 1.

Definition daysInMonth (y m : Z) : Z :=
  MakeDay y (m + 1) 1 - MakeDay y m 1.

Section LocalTime.

(** The offset of local time from UTC, in milliseconds. *)
Variable tza : Z.

Definition localDay (t : Z) : Z := Day (t + tza).

Definition getFullYear (d : timeValue) : option Z :=
  option_map (fun t => YearFromDay (localDay t)) d.

Definition getMonth (d : timeValue) : option Z :=
  option_map (fun t => MonthFromDay (localDay t)) d.

Definition getDate (d : timeValue) : option Z :=
  option_map (fun t => DateFromDay (localDay t)) d.

(** [new Date(year, month, date)]: local midnight of that day; a year
    from 0 to 99 stands for 1900 + year. *)
Definition newDate3 (year month date : option Z) : timeValue :=
  match year, month, date with
  | Some y, Some m, Some d =>
      let yr := if (0 <=? y) && (y <=? 99) then 1900 + y else y in
      Some (MakeDay yr m d * msPerDay - tza)
  | _, _, _ => None
  end.

End LocalTime.

(** The comparisons of the language on time values: false on NaN. *)
Definition geb (a b : timeValue) : bool :=
  match a, b with Some x, Some y => y <=? x | _, _ => false end.

Definition leb (a b : timeValue) : bool :=
  match a, b with Some x, Some y => x <=? y | _, _ => false end.

Definition strictEq (a b : timeValue) : bool :=
  match a, b with Some x, Some y => x =? y | _, _ => false end.

Definition minus (a : timeValue) (k : Z) : timeValue :=
  option_map (fun x => x - k) a.

(** The date-only form [YYYY-MM-DD] of the date-time string format, for
    a day that exists in the calendar: midnight UTC of that day. *)
Definition twoDigits (a b : ascii) : option Z :=
  if isDigit a && isDigit b then Some (10 * digitValue a + digitValue b)
  else None.

(** The year, the month (1 to 12) and the day of a string of that form. *)
Definition isoFields (s : string) : option (Z * Z * Z) :=
  match s with
  | String y1 (String y2 (String y3 (String y4 (String h1
      (String m1 (String m2 (String h2 (String d1 (String d2
         EmptyString))))))))) =>
      match twoDigits y1 y2, twoDigits y3 y4,
            twoDigits m1 m2, twoDigits d1 d2 with
      | Some yh, Some yl, Some m, Some d =>
          let y := 100 * yh + yl in
          if Ascii.eqb h1 "-" && Ascii.eqb h2 "-"
             && (1 <=? m) && (m <=? 12) && (1 <=? d)
             && (d <=? daysInMonth y (m - 1))
          then Some (y, m, d)
          else None
      | _, _, _, _ => None
      end
  | _ => None
  end.

Definition parseIsoDate (s : string) : option Z :=
  match isoFields s with
  | Some (y, m, d) => Some (MakeDay y (m - 1) d * msPerDay)
  | None => None
  end.

Section Parse.

(** What the engine makes of a string that is not a calendar day in the
    form above (other forms of the format, the engine's own fallback
    formats, NaN for what it does not recognise). *)
Variable otherParse : string -> timeValue.

(** [new Date(s)] for a string [s]. *)
Definition newDate (s : string) : timeValue :=
  match parseIsoDate s with
  | Some t => Some t
  | None => otherParse s
  end.

End Parse.

End JsDate.

(** ** Array.prototype.sort

    The sort is stable; a comparator result of NaN counts as 0.  It is
    modelled by the stable insertion sort: with a consistent comparator
    every stable sort returns the same array. *)

Module JsArray.
Section Sort.

Context {A : Type}.
Variable comparefn : A -> A -> option Z.

Definition sortCompare (x y : A) : Z :=
match comparefn x y with
| Some v => v
| None => 0
end.

Fixpoint insert (x : A) (l : list A) : list A :=
match l with
| [] => [x]
| y :: l' => if (0 <? sortCompare x y)%Z then y :: insert x l' else x :: l
end.

Fixpoint sort (l : list A) : list A :=
match l with
| [] => []
| x :: l' => insert x (sort l')
end.

End Sort.

(** [findIndex]: the index of the first element satisfying [p]. *)
Fixpoint findIndex {A : Type} (p : A -> bool) (l : list A) : option nat :=
  match l with
  | [] => None
  | x :: l' =>
      if p x then Some O
      else option_map S (findIndex p l')
  end.

(** [l[i] = v] for an index [i] within the array. *)
Fixpoint setAt {A : Type} (i : nat) (v : A) (l : list A) : list A :=
  match l, i with
  | [], _ => []
  | _ :: l', O => v :: l'
  | x :: l', S j => x :: setAt j v l'
  end.

End JsArray.

(** ** The report filter of the dashboards *)

Module ReportFilter.
Section Filter.

Variable otherParse : string -> JsDate.timeValue.
(** The offset of local time and the time of the rendering ([new Date()]). *)
Variable tza : Z.
Variable now : Z.

Definition newDate := JsDate.newDate otherParse.

(** [new Date(d.getFullYear(), d.getMonth(), d.getDate()).getTime()] *)
Definition dayStart (d : JsDate.timeValue) : JsDate.timeValue :=
JsDate.newDate3 tza (JsDate.getFullYear tza d) (JsDate.getMonth tza d)
                (JsDate.getDate tza d).

(** The date part of the filter callback: AdminDashboard.tsx lines 47 to
  76, DriverDashboard.tsx lines 37 to 66 (the same text). *)
Definition dateTest (dateFilter customStart customEnd : string)
  (r : DailyReport.t) : bool :=
let reportDate := newDate (DailyReport.date r) in
let today : JsDate.timeValue := Some now in
let current := dayStart today in
let rTime := dayStart reportDate in
if dateFilter =? "today" then JsDate.strictEq rTime current
else if dateFilter =? "week" then
  let sevenDaysAgo := JsDate.minus current (7 * 24 * 60 * 60 * 1000) in
  JsDate.geb rTime sevenDaysAgo
else if dateFilter =? "month" then
  JsDate.strictEq (JsDate.getMonth tza reportDate) (JsDate.getMonth tza today)
  && JsDate.strictEq (JsDate.getFullYear tza reportDate)
                     (JsDate.getFullYear tza today)
else if dateFilter =? "year" then
  JsDate.strictEq (JsDate.getFullYear tza reportDate)
                  (JsDate.getFullYear tza today)
else if dateFilter =? "custom" then
  if isEmpty customStart || isEmpty customEnd then true
  else
    let start := newDate customStart in
    let end_ := newDate customEnd in
    let startTime := dayStart start in
    let endTime := dayStart end_ in
    JsDate.geb rTime startTime && JsDate.leb rTime endTime
else true.

(** [(a, b) => new Date(b.date).getTime() - new Date(a.date).getTime()] *)
Definition byDateDesc (a b : DailyReport.t) : option Z :=
match newDate (DailyReport.date b), newDate (DailyReport.date a) with
| Some tb, Some ta => Some (tb - ta)%Z
| _, _ => None
end.

End Filter.
End ReportFilter.

Module AdminDashboard.
Section Filter.

Variable otherParse : string -> JsDate.timeValue.
Variable tza : Z.
Variable now : Z.

(** The component state the filter reads. *)
Variables filterDriver dateFilter customStart customEnd : string.

Definition keep (r : DailyReport.t) : bool :=
if negb (filterDriver =? "all")
   && negb (DailyReport.driverId r =? filterDriver)
then false
else ReportFilter.dateTest otherParse tza now
       dateFilter customStart customEnd r.

Definition filteredReports (reports : list DailyReport.t)
  : list DailyReport.t :=
JsArray.sort (ReportFilter.byDateDesc otherParse)
             (List.filter keep reports).

End Filter.
(** *** The aggregates of the dashboard and the data of the trend chart *)

Section Aggregates.

(** The filtered reports. *)
Variable shown : list DailyReport.t.

Definition totalIncome : number :=
  fold_left (fun acc r => add acc (DailyReport.totalIncome r)) shown posZero.

Definition totalTripExpenses : number :=
  fold_left (fun acc r => add acc (DailyReport.totalExpenses r)) shown posZero.

Definition totalSalary : number :=
  fold_left (fun acc r => add acc (orZero (DailyReport.driverSalary r)))
            shown posZero.

Definition rawFuel : number :=
  fold_left (fun acc r => add acc (ExpenseBreakdown.fuel (DailyReport.expenses r)))
            shown posZero.

Definition rawMaint : number :=
  fold_left
    (fun acc r => add acc (ExpenseBreakdown.maintenance (DailyReport.expenses r)))
    shown posZero.

Definition rawToll : number :=
  fold_left (fun acc r => add acc (ExpenseBreakdown.toll (DailyReport.expenses r)))
            shown posZero.

Definition rawOther : number :=
  fold_left (fun acc r => add acc (ExpenseBreakdown.other (DailyReport.expenses r)))
            shown posZero.

Definition calculatedTripExpensesOnly : number :=
  add (add (add rawFuel rawMaint) rawToll) rawOther.

Definition calculatedNetProfit : number :=
  sub (sub totalIncome calculatedTripExpensesOnly) totalSalary.

(** The figures of the summary statement of [handleGeneratePDF]. *)
Definition incomeLocal : number :=
  fold_left (fun s r => add s (IncomeBreakdown.local (DailyReport.income r)))
            shown posZero.

Definition incomeOutstation : number :=
  fold_left
    (fun s r => add s (IncomeBreakdown.outstation (DailyReport.income r)))
    shown posZero.

Definition incomeOther : number :=
  fold_left (fun s r => add s (IncomeBreakdown.mixed (DailyReport.income r)))
            shown posZero.

Definition expFuel : number :=
  fold_left (fun s r => add s (ExpenseBreakdown.fuel (DailyReport.expenses r)))
            shown posZero.

Definition expMaint : number :=
  fold_left
    (fun s r => add s (ExpenseBreakdown.maintenance (DailyReport.expenses r)))
    shown posZero.

(** [s + r.expenses.toll + r.expenses.other] *)
Definition expOther : number :=
  fold_left
    (fun s r => add (add s (ExpenseBreakdown.toll (DailyReport.expenses r)))
                    (ExpenseBreakdown.other (DailyReport.expenses r)))
    shown posZero.

Definition expSalary : number :=
  fold_left (fun s r => add s (orZero (DailyReport.driverSalary r)))
            shown posZero.

Definition totalOpsExpenses : number :=
  add (add (add expFuel expMaint) expOther) expSalary.

End Aggregates.

Section Trend.

Variable otherParse : string -> JsDate.timeValue.

(** [(a, b) => new Date(a.date).getTime() - new Date(b.date).getTime()] *)
Definition byDateAsc (a b : DailyReport.t) : option Z :=
  match JsDate.newDate otherParse (DailyReport.date a),
        JsDate.newDate otherParse (DailyReport.date b) with
  | Some ta, Some tb => Some (ta - tb)%Z
  | _, _ => None
  end.

(** [l.slice(-14)]: the last 14 elements. *)
Definition lastFourteen {A : Type} (l : list A) : list A :=
  skipn (List.length l - 14) l.

(** The reports behind [trendData], before they are mapped to the points
    of the chart. *)
Definition trendReports (shown : list DailyReport.t) : list DailyReport.t :=
  lastFourteen (JsArray.sort byDateAsc shown).

(** [dateLabel] is [toLocaleDateString('en-US', ...)] of the date. *)
Variable dateLabel : JsDate.timeValue -> string.

Record TrendPoint : Type := mkTrendPoint {
  trend_date : string;
  Profit : number;
  Income : number
}.

Definition trendData (shown : list DailyReport.t) : list TrendPoint :=
  List.map
    (fun r =>
       mkTrendPoint (dateLabel (JsDate.newDate otherParse (DailyReport.date r)))
                    (DailyReport.netProfit r) (DailyReport.totalIncome r))
    (trendReports shown).

End Trend.

End AdminDashboard.

Module DriverDashboard.
Section Filter.

Variable otherParse : string -> JsDate.timeValue.
Variable tza : Z.
Variable now : Z.

Variable driver : Driver.t.
Variables dateFilter customStart customEnd : string.

Definition keep (r : DailyReport.t) : bool :=
if negb (DailyReport.driverId r =? Driver.id driver) then false
else ReportFilter.dateTest otherParse tza now
       dateFilter customStart customEnd r.

Definition myReports (reports : list DailyReport.t) : list DailyReport.t :=
JsArray.sort (ReportFilter.byDateDesc otherParse)
             (List.filter keep reports).

End Filter.
(** *** The totals of the dashboard and the data of its chart *)

Section Totals.

Variable listed : list DailyReport.t.

Definition totalIncome : number :=
  fold_left (fun sum r => add sum (DailyReport.totalIncome r))
            listed posZero.

Definition totalExpenses : number :=
  fold_left (fun sum r => add sum (DailyReport.totalExpenses r))
            listed posZero.

Definition totalSalary : number :=
  fold_left (fun sum r => add sum (orZero (DailyReport.driverSalary r)))
            listed posZero.

(** The reports behind [chartData]: [[...myReports].reverse()]. *)
Definition chartReports : list DailyReport.t := List.rev listed.

End Totals.

End DriverDashboard.

(** ** The persistence adapter (services/storageService.ts) *)

Module StorageService.

(** A row of the remote [drivers] table: the four columns the adapter
    writes and reads. *)
Record DriverRow : Type := mkRow {
  row_id : string;
  row_name : string;
  row_vehicle : string;
  row_pin : string
}.

(** Modelled from the spec: the remote table service (the [supabase]
    client is not part of the sources).  It either fails every call, or
    holds the rows of the table; [upsert] is insert-or-replace keyed by
    the identifier. *)
Inductive RemoteTable : Type :=
| Failing
| Rows (rows : list DriverRow).

Definition remoteUpsert (rows : list DriverRow) (r : DriverRow)
    : list DriverRow :=
  match JsArray.findIndex (fun x => row_id x =? row_id r) rows with
  | Some i => JsArray.setAt i r rows
  | None => rows ++ [r]
  end.

(** The answer of [from('app_settings').select('value').eq('key',
    'admin_pwd').single()]: the call throws or answers with an error; or
    it answers with neither an error nor data; or it answers with the row. *)
Inductive SettingAnswer : Type :=
| AnswerError
| AnswerNoData
| AnswerRow (value : string).

(** The state the adapter works on: the remote service, the entries of
    localStorage under [tyc_drivers] and [tyc_admin_pwd] ([None] when
    [getItem] returns [null]), and the module-level array MOCK_DRIVERS,
    which [getDrivers] hands out itself and [saveDriver] then updates in
    place. *)
Record State : Type := mkState {
  remoteDrivers : RemoteTable;
  remoteAdminPwd : SettingAnswer;
  lsDrivers : option (list Driver.t);
  lsAdminPwd : option string;
  mockDrivers : list Driver.t
}.

Definition MOCK_DRIVERS : list Driver.t :=
  [ Driver.mk "1" "Ramesh Kumar" "TN 38 BR 1234" "1234" None;
    Driver.mk "2" "Suresh Raj" "TN 38 CS 5678" "5678" None ].

(** What [JSON.parse(JSON.stringify(x))] makes of a number: NaN and the
    infinities become [null], -0 becomes 0. *)
Definition jsonNumber (x : number) : option number :=
  match x with
  | S754_zero _ => Some posZero
  | S754_finite _ _ _ => Some x
  | _ => None
  end.

Definition jsonDriver (d : Driver.t) : Driver.t :=
  Driver.mk (Driver.id d) (Driver.name d) (Driver.vehicle d) (Driver.pin d)
    (match Driver.dailySalary d with
     | Some x => jsonNumber x
     | None => None
     end).

Definition ofRow (r : DriverRow) : Driver.t :=
  Driver.mk (row_id r) (row_name r) (row_vehicle r) (row_pin r) None.

Definition toRow (d : Driver.t) : DriverRow :=
  mkRow (Driver.id d) (Driver.name d) (Driver.vehicle d) (Driver.pin d).

(** The array [getDrivers] returns: MOCK_DRIVERS itself, or a new array. *)
Inductive DriversRef : Type :=
| TheMockArray
| Fresh (l : list Driver.t).

Definition getDriversRef (st : State) : DriversRef * State :=
  match remoteDrivers st with
  | Rows rows => (Fresh (List.map ofRow rows), st)
  | Failing =>
      match lsDrivers st with
      | None =>
          (TheMockArray,
           mkState (remoteDrivers st) (remoteAdminPwd st)
                   (Some (List.map jsonDriver (mockDrivers st)))
                   (lsAdminPwd st) (mockDrivers st))
      | Some l => (Fresh l, st)
      end
  end.

Definition deref (st : State) (r : DriversRef) : list Driver.t :=
  match r with
  | TheMockArray => mockDrivers st
  | Fresh l => l
  end.

Definition getDrivers (st : State) : list Driver.t * State :=
  let (r, st') := getDriversRef st in (deref st' r, st').

(** [drivers[index] = driver] when [findIndex] finds the identifier,
    [drivers.push(driver)] otherwise. *)
Definition putDriver (drivers : list Driver.t) (driver : Driver.t)
    : list Driver.t :=
  match JsArray.findIndex (fun d => Driver.id d =? Driver.id driver) drivers with
  | Some index => JsArray.setAt index driver drivers
  | None => drivers ++ [driver]
  end.

Definition saveDriver (driver : Driver.t) (st : State) : State :=
  match remoteDrivers st with
  | Rows rows =>
      mkState (Rows (remoteUpsert rows (toRow driver))) (remoteAdminPwd st)
              (lsDrivers st) (lsAdminPwd st) (mockDrivers st)
  | Failing =>
      let (r, st1) := getDriversRef st in
      match r with
      | TheMockArray =>
          let drivers := putDriver (mockDrivers st1) driver in
          mkState (remoteDrivers st1) (remoteAdminPwd st1)
                  (Some (List.map jsonDriver drivers))
                  (lsAdminPwd st1) drivers
      | Fresh l =>
          let drivers := putDriver l driver in
          mkState (remoteDrivers st1) (remoteAdminPwd st1)
                  (Some (List.map jsonDriver drivers))
                  (lsAdminPwd st1) (mockDrivers st1)
      end
  end.

(** [stored || 'admin'] *)
Definition storedOrAdmin (stored : option string) : string :=
  match stored with
  | Some s => if isEmpty s then "admin" else s
  | None => "admin"
  end.

Definition getAdminPassword (st : State) : string :=
  match remoteAdminPwd st with
  | AnswerError => storedOrAdmin (lsAdminPwd st)
  | AnswerNoData => "admin"
  | AnswerRow value => value
  end.

(** The collection a fetch would return in state [st]. *)
Definition currentDrivers (st : State) : list Driver.t :=
  fst (getDrivers st).

(** [deleteDriver]: the remote table drops the rows of that identifier
    (modelled from the spec, as [upsert] above); when the service fails,
    the array read by [getDrivers] is filtered into a new array, which is
    stored. *)
Definition deleteDriver (id : string) (st : State) : State :=
  match remoteDrivers st with
  | Rows rows =>
      mkState (Rows (List.filter (fun r => negb (row_id r =? id)) rows))
              (remoteAdminPwd st) (lsDrivers st) (lsAdminPwd st)
              (mockDrivers st)
  | Failing =>
      let (r, st1) := getDriversRef st in
      let drivers := deref st1 r in
      let filtered := List.filter (fun d => negb (Driver.id d =? id)) drivers in
      mkState (remoteDrivers st1) (remoteAdminPwd st1)
              (Some (List.map jsonDriver filtered))
              (lsAdminPwd st1) (mockDrivers st1)
  end.

(** [setAdminPassword]: the remote [upsert] of the row of key [admin_pwd]
    (after it, the read answers with that row); when it throws, the entry
    of localStorage is written. *)
Definition setAdminPassword (password : string) (st : State) : State :=
  match remoteAdminPwd st with
  | AnswerError =>
      mkState (remoteDrivers st) (remoteAdminPwd st) (lsDrivers st)
              (Some password) (mockDrivers st)
  | AnswerNoData | AnswerRow _ =>
      mkState (remoteDrivers st) (AnswerRow password) (lsDrivers st)
              (lsAdminPwd st) (mockDrivers st)
  end.

End StorageService.

(** ** Users and the login screen (types.ts, components/Login.tsx) *)

Inductive UserRole : Type := ADMIN | DRIVER.

Module User.
Record t : Type := mk {
  id : string;
  name : string;
  role : UserRole;
  vehicle : option string
}.
End User.

Module Login.

(** What [handleLogin] does: it calls [onLogin] with a user, or sets the
    error message. *)
Inductive Outcome : Type :=
| LoggedIn (user : User.t)
| Rejected (error : string).

(** [handleLogin], from the state of the screen ([role],
    [selectedDriverId], [pin]), the [drivers] given to the screen and the
    state of the persistence adapter. *)
Definition handleLogin (role : UserRole) (selectedDriverId pin : string)
    (drivers : list Driver.t) (st : StorageService.State) : Outcome :=
  match role with
  | ADMIN =>
      let storedAdminPin := StorageService.getAdminPassword st in
      if pin =? storedAdminPin
      then LoggedIn (User.mk "admin" "Administrator" ADMIN None)
      else Rejected "Invalid Admin Password."
  | DRIVER =>
      match List.find (fun d => Driver.id d =? selectedDriverId) drivers with
      | Some driver =>
          if Driver.pin driver =? pin
          then LoggedIn (User.mk (Driver.id driver) (Driver.name driver)
                           DRIVER (Some (Driver.vehicle driver)))
          else Rejected "Invalid Driver PIN."
      | None => Rejected "Invalid Driver PIN."
      end
  end.

End Login.

(** ** The settings screen (components/AdminManagement.tsx)

    A character of a [string] stands for one code unit, so that [length]
    is the [length] of the language. *)

Module AdminManagement.





(** The message shown after [handlePasswordChange]. *)
Inductive PwdMessage : Type :=
| PwdError (text : string)
| PwdSuccess (text : string).

Definition handlePasswordChange (newAdminPassword confirmAdminPassword : string)
    (st : StorageService.State) : StorageService.State * PwdMessage :=
  if negb (newAdminPassword =? confirmAdminPassword) then
    (st, PwdError "Passwords do not match")
  else if (String.length newAdminPassword <? 4)%nat then
    (st, PwdError "Password must be at least 4 characters")
  else
    (StorageService.setAdminPassword newAdminPassword st,
     PwdSuccess "Admin password updated successfully").

End AdminManagement.

(** ** The application shell (App.tsx) *)

Module App.

Record State : Type := mkState {
  user : option User.t;
  drivers : list Driver.t;
  reports : list DailyReport.t;
  currentView : string;
  isLoading : bool
}.

(** The component a rendering shows, with the properties it is given.
    The dashboard of a driver is given [drivers.find(...)!], which is
    absent when no driver has the identifier of the user. *)
Inductive View : Type :=
| LoadingScreen
| LoginScreen (drivers : list Driver.t)
| ErrorLoadingDriver
| ReportFormView (driver : Driver.t)
| DriverDashboardView (driver : option Driver.t) (reports : list DailyReport.t)
| AdminManagementView (drivers : list Driver.t)
| AdminDashboardView (reports : list DailyReport.t) (drivers : list Driver.t).

Definition handleLogin (loggedInUser : User.t) (s : State) : State :=
  mkState (Some loggedInUser) (drivers s) (reports s) "dashboard" (isLoading s).

Definition handleLogout (s : State) : State :=
  mkState None (drivers s) (reports s) "login" (isLoading s).

(** The rendering; the two roles are all the roles, so the last case of
    the source ("Unknown Role") has no counterpart. *)
Definition render (s : State) : View :=
  if isLoading s then LoadingScreen
  else
    match user s with
    | None => LoginScreen (drivers s)
    | Some u =>
        match User.role u with
        | DRIVER =>
            let currentDriver :=
              List.find (fun d => Driver.id d =? User.id u) (drivers s) in
            if currentView s =? "new-report" then
              match currentDriver with
              | None => ErrorLoadingDriver
              | Some d => ReportFormView d
              end
            else DriverDashboardView currentDriver (reports s)
        | ADMIN =>
            if currentView s =? "management"
            then AdminManagementView (drivers s)
            else AdminDashboardView (reports s) (drivers s)
        end
    end.

End App.

(** ** Notions the statements use *)

Open Scope Z_scope.

Definition notDot (c : ascii) : bool := negb (isDot c).

(** The text of [s] before its second decimal point ([s] itself when it has
    one decimal point at most). *)
Definition beforeSecondDot (s : string) : string :=
  match dropWhile notDot s with
  | EmptyString => s
  | String _ r => takeWhile notDot s ++ "." ++ takeWhile notDot r
  end.

(** [x >= 0] as the language evaluates it: false on NaN. *)
Definition nonNegative (x : number) : bool := leb posZero x.

(** The number literals [1234.56], [1.2] and [-5]. *)
Definition lit_1234_56 : number := ofDecimal 123456 (-2).
Definition lit_1_2 : number := ofDecimal 12 (-1).

(** What [parseFloat] computes on a string of digits and decimal points:
    the digits before the first point and those between the first and the
    second. *)
Definition parseDigitsDot (s : string) : number :=
  let ip := takeWhile isDigit s in
  match dropWhile isDigit s with
  | String _ r2 =>
      let fp := takeWhile isDigit r2 in
      if isEmpty ip && isEmpty fp then NaN
      else ofDecimal (digitsValue 0 (ip ++ fp)) (0 - strlen fp)
  | EmptyString =>
      if isEmpty ip then NaN else ofDecimal (digitsValue 0 ip) 0
  end.

(** The report under edit with other stored totals. *)
Definition withStoredTotals (er : EditingReport.t) (ti te np : number)
    : EditingReport.t :=
  EditingReport.mk (EditingReport.id er) (EditingReport.driverId er)
    (EditingReport.driverName er) (EditingReport.date er)
    (EditingReport.kmsDriven er) (EditingReport.loginTime er)
    (EditingReport.logoutTime er) (EditingReport.income er)
    (EditingReport.expenses er) ti te (EditingReport.driverSalary er) np
    (EditingReport.notes er) (EditingReport.timestamp er).

(** The invariant of the derived fields of a report. *)
Definition totalsConsistent (r : DailyReport.t) : Prop :=
  DailyReport.totalIncome r =
    add (add (IncomeBreakdown.local (DailyReport.income r))
             (IncomeBreakdown.outstation (DailyReport.income r)))
        (IncomeBreakdown.mixed (DailyReport.income r))
  /\ DailyReport.totalExpenses r =
    add (add (add (add (ExpenseBreakdown.fuel (DailyReport.expenses r))
                       (ExpenseBreakdown.maintenance (DailyReport.expenses r)))
                  (ExpenseBreakdown.toll (DailyReport.expenses r)))
             (ExpenseBreakdown.other (DailyReport.expenses r)))
        (DailyReport.driverSalary r)
  /\ DailyReport.netProfit r =
    sub (DailyReport.totalIncome r) (DailyReport.totalExpenses r).

(** The numeric fields of a report that come from the breakdown inputs. *)
Definition amounts (r : DailyReport.t) : list number :=
  [ IncomeBreakdown.local (DailyReport.income r);
    IncomeBreakdown.outstation (DailyReport.income r);
    IncomeBreakdown.mixed (DailyReport.income r);
    ExpenseBreakdown.fuel (DailyReport.expenses r);
    ExpenseBreakdown.maintenance (DailyReport.expenses r);
    ExpenseBreakdown.toll (DailyReport.expenses r);
    ExpenseBreakdown.other (DailyReport.expenses r);
    DailyReport.driverSalary r;
    DailyReport.totalIncome r;
    DailyReport.totalExpenses r ].


(** A report of the given identifier, driver and date, all amounts 0. *)
Definition reportOn (id driverId date : string) : DailyReport.t :=
  DailyReport.mk id driverId "" date (JsNum posZero) "00:00" "00:00"
    (IncomeBreakdown.mk posZero posZero posZero)
    (ExpenseBreakdown.mk posZero posZero posZero posZero)
    posZero posZero posZero posZero "" posZero.

(** The year of the local day of [t] is not one of 0 to 99, which
    [new Date(year, month, date)] reads as 1900 to 1999. *)
Definition plainYear (tza t : Z) : bool :=
  let y := JsDate.YearFromDay (JsDate.localDay tza t) in
  negb ((0 <=? y) && (y <=? 99)).

(** Indian Standard Time, UTC+05:30, and 10:00 on 15 March 2024 there. *)
Definition IST : Z := 19800000.
Definition morning_2024_03_15 : Z := 1710477000000.

(** An engine that recognises no other string. *)
Definition noOtherParse : string -> JsDate.timeValue := fun _ => None.

(** The date of a report is a valid date. *)
Definition validDate (otherParse : string -> JsDate.timeValue)
    (r : DailyReport.t) : Prop :=
  JsDate.newDate otherParse (DailyReport.date r) <> None.

(** Report [a] is dated no earlier than report [b] (both dates valid). *)
Definition notBefore (otherParse : string -> JsDate.timeValue)
    (a b : DailyReport.t) : Prop :=
  exists ta tb,
    JsDate.newDate otherParse (DailyReport.date a) = Some ta
    /\ JsDate.newDate otherParse (DailyReport.date b) = Some tb
    /\ tb <= ta.

(** The entries of a collection of drivers with the identifier of [d]. *)
Definition withIdOf (d : Driver.t) (l : list Driver.t) : list Driver.t :=
  List.filter (fun x => (Driver.id x =? Driver.id d)%string) l.

(** Same identifier, name, vehicle and PIN. *)
Definition sameProfile (a b : Driver.t) : Prop :=
  Driver.id a = Driver.id b /\ Driver.name a = Driver.name b
  /\ Driver.vehicle a = Driver.vehicle b /\ Driver.pin a = Driver.pin b.

(** The inputs of the report form that are read as numbers. *)
Definition amountFields (st : ReportForm.State) : list string :=
  [ ReportForm.kmsDriven st;
    ReportForm.local (ReportForm.income st);
    ReportForm.outstation (ReportForm.income st);
    ReportForm.mixed (ReportForm.income st);
    ReportForm.fuel (ReportForm.expenses st);
    ReportForm.maintenance (ReportForm.expenses st);
    ReportForm.toll (ReportForm.expenses st);
    ReportForm.other (ReportForm.expenses st);
    ReportForm.salary (ReportForm.expenses st) ].

(** Report [a] is dated no later than report [b] (both dates valid). *)
Definition notAfter (otherParse : string -> JsDate.timeValue)
    (a b : DailyReport.t) : Prop :=
  notBefore otherParse b a.

(** What the form needs to create a report: the driver, the new
    identifier, the time of the submission and the state of the form. *)
Definition Submission : Type :=
  (Driver.t * string * number * ReportForm.State)%type.

Definition submit (x : Submission) : DailyReport.t :=
  let '(driver, uuid, now, st) := x in ReportForm.handleSubmit driver uuid now st.


(** Insert-or-replace: [x] takes the place of the first element that
    satisfies [p], or goes last when there is none. *)
Definition putAt {A : Type} (p : A -> bool) (x : A) (l : list A) : list A :=
  match JsArray.findIndex p l with
  | Some i => JsArray.setAt i x l
  | None => (l ++ [x])%list
  end.

Definition notColon (c : ascii) : bool := negb (Ascii.eqb c ":").

(** The hour of the 12-hour clock at the hour [h] of the day: 12 at
    midnight and at noon. *)
Definition clockHour (h : Z) : Z := if h mod 12 =? 0 then 12 else h mod 12.



(** The Number that is the integer [z], for [z] below 2^53 in absolute
    value: a mantissa of 53 bits and its exponent. *)
Definition whole (z : Z) : number :=
  match z with
  | 0 => S754_zero false
  | _ => S754_finite (z <? 0)
           (Z.to_pos (Z.abs z * 2 ^ (52 - Z.log2 (Z.abs z))))
           (Z.log2 (Z.abs z) - 52)
  end.

(** An amount typed as a whole number: digits only (or nothing), below
    2^50; and the whole number it is. *)
Definition wholeAmount (s : string) : bool :=
  forallb isDigit s && (digitsValue 0 s <? 2 ^ 50).

Definition amount (s : string) : Z := digitsValue 0 s.

(** The inputs of the report form that are amounts of money. *)
Definition moneyFields (st : ReportForm.State) : list string :=
  [ ReportForm.local (ReportForm.income st);
    ReportForm.outstation (ReportForm.income st);
    ReportForm.mixed (ReportForm.income st);
    ReportForm.fuel (ReportForm.expenses st);
    ReportForm.maintenance (ReportForm.expenses st);
    ReportForm.toll (ReportForm.expenses st);
    ReportForm.other (ReportForm.expenses st);
    ReportForm.salary (ReportForm.expenses st) ].

Definition incomeOf (st : ReportForm.State) : Z :=
  amount (ReportForm.local (ReportForm.income st))
  + amount (ReportForm.outstation (ReportForm.income st))
  + amount (ReportForm.mixed (ReportForm.income st)).

Definition tripExpensesOf (st : ReportForm.State) : Z :=
  amount (ReportForm.fuel (ReportForm.expenses st))
  + amount (ReportForm.maintenance (ReportForm.expenses st))
  + amount (ReportForm.toll (ReportForm.expenses st))
  + amount (ReportForm.other (ReportForm.expenses st)).

Definition salaryOf (st : ReportForm.State) : Z :=
  amount (ReportForm.salary (ReportForm.expenses st)).

Definition sumOver {A : Type} (f : A -> Z) (l : list A) : Z :=
  fold_right (fun x acc => f x + acc) 0 l.

(** All the money of one form: what bounds every sum taken over it. *)
Definition moneyOf (st : ReportForm.State) : Z :=
  incomeOf st + tripExpensesOf st + salaryOf st.



(** ** The numeric-input parser *)

Section TakeDrop.

Variable p : ascii -> bool.

Lemma takeWhile_dropWhile (s : string) :
  takeWhile p s ++ dropWhile p s = s.
Proof.
  induction s as [|c r IH]; simpl; [reflexivity|].
  destruct (p c); simpl; [now rewrite IH | reflexivity].
Qed.

Lemma forallb_takeWhile (s : string) : forallb p (takeWhile p s) = true.
Proof.
  induction s as [|c r IH]; simpl; [reflexivity|].
  destruct (p c) eqn:E; simpl; [now rewrite E | reflexivity].
Qed.

Lemma dropWhile_head (s : string) (c : ascii) (r : string) :
  dropWhile p s = String c r -> p c = false.
Proof.
  induction s as [|a t IH]; simpl; [discriminate|].
  destruct (p a) eqn:E; [exact IH|].
  intros H; injection H as -> _; exact E.
Qed.

Lemma takeWhile_all (s : string) :
  forallb p s = true -> takeWhile p s = s /\ dropWhile p s = "".
Proof.
  induction s as [|c r IH]; simpl; [now split|].
  destruct (p c); simpl; [|discriminate].
  intros H; destruct (IH H) as [-> ->]; now split.
Qed.

Lemma takeWhile_app_stop (a : string) (x : ascii) (r : string) :
  forallb p a = true -> p x = false ->
  takeWhile p (a ++ String x r) = a /\
  dropWhile p (a ++ String x r) = String x r.
Proof.
  intros Ha Hx; induction a as [|c t IH]; simpl in *.
  - now rewrite Hx.
  - destruct (p c); simpl in *; [|discriminate].
    destruct (IH Ha) as [-> ->]; now split.
Qed.

End TakeDrop.

Lemma splitDot_unfold (s : string) :
  splitDot s =
  takeWhile notDot s ::
    match dropWhile notDot s with
    | EmptyString => []
    | String _ r => splitDot r
    end.
Proof.
  induction s as [|c r IH]; simpl; [reflexivity|].
  unfold notDot at 1 3; destruct (isDot c); simpl; [reflexivity|].
  now rewrite IH.
Qed.

Lemma dropWhile_notDot_head (s : string) (c : ascii) (r : string) :
  dropWhile notDot s = String c r -> c = "."%char.
Proof.
  intros H; apply dropWhile_head in H.
  unfold notDot, isDot in H; apply negb_false_iff in H.
  now apply Ascii.eqb_eq in H.
Qed.

Lemma beforeSecondDot_short (s : string) :
  (List.length (splitDot s) <= 2)%nat -> beforeSecondDot s = s.
Proof.
  unfold beforeSecondDot; rewrite splitDot_unfold.
  destruct (dropWhile notDot s) as [|c r] eqn:E; [reflexivity|].
  rewrite splitDot_unfold; simpl.
  destruct (dropWhile notDot r) as [|c' r'] eqn:E'.
  - intros _.
    pose proof (takeWhile_dropWhile notDot r) as Hr; rewrite E' in Hr.
    rewrite <- (takeWhile_dropWhile notDot s) at 2; rewrite E.
    rewrite (dropWhile_notDot_head _ _ _ E).
    assert (Hr' : takeWhile notDot r = r).
    { rewrite <- Hr at 2. clear. induction (takeWhile notDot r); simpl; congruence. }
    now rewrite Hr'.
  - rewrite splitDot_unfold; simpl; lia.
Qed.

Lemma beforeSecondDot_long (s : string) :
  (2 < List.length (splitDot s))%nat ->
  nth 0 (splitDot s) "" ++ "." ++ nth 1 (splitDot s) "" = beforeSecondDot s.
Proof.
  unfold beforeSecondDot; rewrite splitDot_unfold.
  destruct (dropWhile notDot s) as [|c r] eqn:E; simpl; [lia|].
  rewrite splitDot_unfold; reflexivity.
Qed.

Lemma ReportForm_getVal_string (s : string) :
  ReportForm.getVal (JsStr s) =
  orZero (parseFloat (beforeSecondDot (filter isNumericChar s))).
Proof.
  unfold ReportForm.getVal.
  destruct s as [|c r]; [reflexivity|].
  cbv beta iota delta [toBoolean isEmpty negb].
  generalize (filter isNumericChar (String c r)); intros cleaned.
  destruct (2 <? List.length (splitDot cleaned))%nat eqn:E.
  - apply Nat.ltb_lt in E. now rewrite beforeSecondDot_long.
  - apply Nat.ltb_ge in E. now rewrite beforeSecondDot_short.
Qed.

Lemma forallb_filter (p : ascii -> bool) (s : string) :
  forallb p (filter p s) = true.
Proof.
  induction s as [|c r IH]; simpl; [reflexivity|].
  destruct (p c) eqn:E; simpl; [now rewrite E | exact IH].
Qed.

Lemma forallb_dropWhile (p q : ascii -> bool) (s : string) :
  forallb p s = true -> forallb p (dropWhile q s) = true.
Proof.
  induction s as [|c r IH]; simpl; [reflexivity|].
  intros H; apply andb_prop in H as [Hc Hr].
  destruct (q c); simpl; [auto | now rewrite Hc, Hr].
Qed.

Lemma numeric_not_digit (c : ascii) :
  isNumericChar c = true -> isDigit c = false -> c = "."%char.
Proof.
  unfold isNumericChar; intros H D; rewrite D in H; simpl in H.
  now apply Ascii.eqb_eq.
Qed.

(** On a string of digits and points, what follows the leading digits is
    empty or starts with a point. *)
Lemma numeric_after_digits (s : string) :
  forallb isNumericChar s = true ->
  dropWhile isDigit s = "" \/
  exists r, dropWhile isDigit s = String "." r /\ forallb isNumericChar r = true.
Proof.
  intros H.
  pose proof (forallb_dropWhile isNumericChar isDigit s H) as Hd.
  destruct (dropWhile isDigit s) as [|c r] eqn:E; [now left|].
  right; exists r. simpl in Hd; apply andb_prop in Hd as [Hc Hr].
  apply dropWhile_head in E. now rewrite (numeric_not_digit c Hc E).
Qed.

Lemma exponentPart_numeric (s : string) :
  forallb isNumericChar s = true -> exponentPart (dropWhile isDigit s) = 0.
Proof.
  intros H; destruct (numeric_after_digits s H) as [-> | [r [-> _]]];
    reflexivity.
Qed.

Lemma numeric_head_cases (c : ascii) :
  isNumericChar c = true ->
  isWhiteSpace c = false /\ c <> "-"%char /\ c <> "+"%char /\ c <> "I"%char.
Proof.
  destruct c as [b0 b1 b2 b3 b4 b5 b6 b7].
  destruct b0, b1, b2, b3, b4, b5, b6, b7; vm_compute; intros H;
    try discriminate H; repeat split; discriminate.
Qed.

Lemma parseFloat_numeric (s : string) :
  forallb isNumericChar s = true -> parseFloat s = parseDigitsDot s.
Proof.
  intros H.
  assert (E : parseFloat s = parseUnsigned s /\ startsWith "Infinity" s = false).
  { destruct s as [|c r]; [now split|].
    simpl in H; apply andb_prop in H as [Hc _].
    destruct (numeric_head_cases c Hc) as (W & M & P & I).
    split.
    - unfold parseFloat; cbn [dropWhile]; rewrite W.
      destruct c as [b0 b1 b2 b3 b4 b5 b6 b7].
      destruct b0, b1, b2, b3, b4, b5, b6, b7; try reflexivity; congruence.
    - change (startsWith "Infinity" (String c r))
        with (Ascii.eqb "I" c && startsWith "nfinity" r).
      destruct (Ascii.eqb_spec "I"%char c) as [<- | N]; [congruence|reflexivity]. }
  destruct E as [-> E]; unfold parseUnsigned, parseDigitsDot; rewrite E.
  destruct (numeric_after_digits s H) as [-> | [r [-> Hr]]].
  - reflexivity.
  - now rewrite (exponentPart_numeric r Hr).
Qed.

Lemma isDot_not_digit (c : ascii) : isDot c = true -> isDigit c = false.
Proof.
  unfold isDot; intros H; apply Ascii.eqb_eq in H; now subst c.
Qed.

Lemma numeric_notDot (s : string) :
  forallb isNumericChar s = true ->
  takeWhile notDot s = takeWhile isDigit s /\
  dropWhile notDot s = dropWhile isDigit s.
Proof.
  induction s as [|c r IH]; simpl; [now split|].
  intros H; apply andb_prop in H as [Hc Hr].
  destruct (IH Hr) as [E1 E2]; unfold notDot at 1 3.
  destruct (isDot c) eqn:D; simpl.
  - now rewrite (isDot_not_digit c D).
  - unfold isNumericChar in Hc; rewrite D, orb_false_r in Hc.
    now rewrite Hc, E1, E2.
Qed.

Lemma forallb_app (p : ascii -> bool) (a b : string) :
  forallb p a = true -> forallb p b = true -> forallb p (a ++ b) = true.
Proof.
  induction a as [|c r IH]; simpl; [auto|].
  intros H Hb; apply andb_prop in H as [-> Hr]; simpl; auto.
Qed.

Lemma digits_numeric (s : string) :
  forallb isDigit s = true -> forallb isNumericChar s = true.
Proof.
  induction s as [|c r IH]; simpl; [reflexivity|].
  intros H; apply andb_prop in H as [Hc Hr].
  unfold isNumericChar; rewrite Hc; simpl; auto.
Qed.

Lemma beforeSecondDot_numeric (s : string) :
  forallb isNumericChar s = true ->
  forallb isNumericChar (beforeSecondDot s) = true /\
  parseDigitsDot (beforeSecondDot s) = parseDigitsDot s.
Proof.
  intros H; unfold beforeSecondDot.
  destruct (numeric_notDot s H) as [E1 E2]; rewrite E1, E2.
  destruct (numeric_after_digits s H) as [E | [r [E Hr]]]; rewrite E;
    [now split|].
  destruct (numeric_notDot r Hr) as [E3 _]; rewrite E3.
  pose proof (forallb_takeWhile isDigit s) as Ha.
  pose proof (forallb_takeWhile isDigit r) as Hf.
  split.
  - apply forallb_app; [now apply digits_numeric|].
    simpl; now apply digits_numeric.
  - unfold parseDigitsDot at 1.
    change (takeWhile isDigit s ++ "." ++ takeWhile isDigit r)
      with (takeWhile isDigit s ++ String "." (takeWhile isDigit r)).
    destruct (takeWhile_app_stop isDigit (takeWhile isDigit s) "."
                (takeWhile isDigit r) Ha eq_refl) as [-> ->].
    destruct (takeWhile_all isDigit _ Hf) as [-> _].
    unfold parseDigitsDot; now rewrite E.
Qed.

Lemma getVal_string_digits (s : string) :
  ReportForm.getVal (JsStr s) =
  orZero (parseDigitsDot (filter isNumericChar s)).
Proof.
  rewrite ReportForm_getVal_string.
  pose proof (forallb_filter isNumericChar s) as H.
  destruct (beforeSecondDot_numeric _ H) as [Hn <-].
  now rewrite (parseFloat_numeric _ Hn).
Qed.

Lemma Dashboard_toStr_string (nts : number -> string) (s : string) :
  Dashboard.toStr nts (JsStr s) = s.
Proof. now destruct s. Qed.

Lemma Dashboard_getVal_string (nts : number -> string) (s : string) :
  Dashboard.getVal nts (JsStr s) = ReportForm.getVal (JsStr s).
Proof.
  unfold Dashboard.getVal; rewrite Dashboard_toStr_string.
  rewrite getVal_string_digits.
  now rewrite (parseFloat_numeric _ (forallb_filter isNumericChar s)).
Qed.

(** C1, as the code has it: on a string, both parsers drop every character
    that is not a digit or a decimal point, keep the text before the second
    decimal point, parse it with [parseFloat] and return 0 when the result
    is NaN (empty or unparseable text); they agree on every string.
    [getVal("1,234.56abc")] is 1234.56, [getVal("")] is 0 and
    [getVal("..1.2.3")] is 0, the text before the second point being ["."]. *)
Theorem getVal_contract (numberToString : number -> string) :
  (forall s : string,
     ReportForm.getVal (JsStr s) =
       orZero (parseFloat (beforeSecondDot (filter isNumericChar s)))
     /\ Dashboard.getVal numberToString (JsStr s) = ReportForm.getVal (JsStr s))
  /\ ReportForm.getVal (JsStr "1,234.56abc") = lit_1234_56
  /\ ReportForm.getVal (JsStr "") = posZero
  /\ beforeSecondDot (filter isNumericChar "..1.2.3") = "."
  /\ ReportForm.getVal (JsStr "..1.2.3") = posZero.
Proof.
  split; [|repeat split; vm_compute; reflexivity].
  intros s; split;
    [apply ReportForm_getVal_string | apply Dashboard_getVal_string].
Qed.

(** C1, counterexample: on ["..1.2.3"] both parsers return 0, which is not
    the number 1.2. *)
Lemma getVal_leading_dots_not_1_2 :
  strictEq (ReportForm.getVal (JsStr "..1.2.3")) lit_1_2 = false
  /\ strictEq (Dashboard.getVal (fun _ => "") (JsStr "..1.2.3")) lit_1_2 = false
  /\ ReportForm.getVal (JsStr "..1.2.3") <> lit_1_2.
Proof.
  split; [|split]; vm_compute; try reflexivity; discriminate.
Qed.

(** ** Signs of rounded values *)

Lemma nonNegative_cases (x : number) :
  nonNegative x = true <->
  match x with
  | S754_zero _ | S754_finite false _ _ | S754_infinity false => True
  | _ => False
  end.
Proof.
  destruct x as [s|s| |s m e]; try destruct s; vm_compute; intuition congruence.
Qed.

Lemma shr_1_nonneg (mrs : shr_record) :
  0 <= shr_m mrs -> 0 <= shr_m (shr_1 mrs).
Proof.
  destruct mrs as [m r s]; simpl.
  destruct m as [|p|p]; [| destruct p | ]; simpl; lia.
Qed.

Lemma iter_shr_1_nonneg (p : positive) (mrs : shr_record) :
  0 <= shr_m mrs -> 0 <= shr_m (iter_pos shr_1 p mrs).
Proof.
  revert mrs; induction p as [p IH|p IH|]; intros mrs H; simpl.
  - apply IH, IH, shr_1_nonneg, H.
  - apply IH, IH, H.
  - apply shr_1_nonneg, H.
Qed.

Lemma shr_fexp_nonneg (m e : Z) (l : location) :
  0 <= m -> 0 <= shr_m (fst (shr_fexp prec emax m e l)).
Proof.
  intros H; unfold shr_fexp, shr.
  assert (H0 : 0 <= shr_m (shr_record_of_loc m l))
    by (destruct l as [|[]]; exact H).
  destruct (fexp prec emax (Zdigits2 m + e) - e); simpl; auto.
  now apply iter_shr_1_nonneg.
Qed.

Lemma round_nearest_even_nonneg (m : Z) (l : location) :
  0 <= m -> 0 <= round_nearest_even m l.
Proof.
  intros H; destruct l as [|[]]; simpl; try lia.
  destruct (Z.even m); lia.
Qed.

(** A rounded non-negative mantissa is a zero, a finite number or an
    infinity of the sign given. *)
Lemma binary_round_aux_sign (sx : bool) (mx ex : Z) (lx : location) :
  0 <= mx ->
  match binary_round_aux prec emax sx mx ex lx with
  | S754_zero s | S754_finite s _ _ | S754_infinity s => s = sx
  | S754_nan => False
  end.
Proof.
  intros H; unfold binary_round_aux.
  pose proof (shr_fexp_nonneg mx ex lx H) as H1.
  destruct (shr_fexp prec emax mx ex lx) as [mrs' e']; simpl in H1.
  pose proof (shr_fexp_nonneg _ e' loc_Exact
                (round_nearest_even_nonneg _ (loc_of_shr_record mrs') H1)) as H2.
  destruct (shr_fexp prec emax _ e' loc_Exact) as [mrs'' e'']; simpl in H2.
  destruct (shr_m mrs'') as [|p|p]; [reflexivity | | lia].
  destruct (e'' <=? emax - prec); reflexivity.
Qed.

Lemma binary_normalize_nonneg (m e : Z) :
  0 <= m -> nonNegative (binary_normalize prec emax m e false) = true.
Proof.
  intros H; apply nonNegative_cases.
  destruct m as [|p|p]; simpl; [exact I | | lia].
  unfold binary_round.
  destruct (shl_align p e _) as [mz ez].
  pose proof (binary_round_aux_sign false (Zpos mz) ez loc_Exact
                ltac:(lia)) as H1.
  destruct (binary_round_aux prec emax false (Z.pos mz) ez loc_Exact)
    as [s|s| |s m' e']; try subst s; auto.
Qed.

Lemma ofRatio_nonneg (n d : Z) : 0 < d -> nonNegative (ofRatio n d) = true.
Proof.
  intros Hd; unfold ofRatio.
  destruct (n <=? 0) eqn:E; [reflexivity|].
  apply Z.leb_gt in E.
  apply binary_normalize_nonneg.
  assert (0 <= n * 2 ^ Z.max 0 (64 + Z.log2 d - Z.log2 n) / d).
  { apply Z.div_pos; [|exact Hd]. apply Z.mul_nonneg_nonneg; [lia|].
    apply Z.pow_nonneg; lia. }
  destruct (_ =? 0); lia.
Qed.

Lemma ofDecimal_nonneg (m e : Z) : nonNegative (ofDecimal m e) = true.
Proof.
  unfold ofDecimal; destruct (0 <=? e) eqn:E.
  - apply ofRatio_nonneg; lia.
  - apply ofRatio_nonneg. apply Z.leb_gt in E.
    apply Z.pow_pos_nonneg; lia.
Qed.

Lemma orZero_nonneg (x : number) :
  x = NaN \/ nonNegative x = true -> nonNegative (orZero x) = true.
Proof.
  intros [-> | H]; [reflexivity|].
  unfold orZero; destruct (truthy x); [exact H | reflexivity].
Qed.

Lemma parseDigitsDot_nonneg (s : string) :
  parseDigitsDot s = NaN \/ nonNegative (parseDigitsDot s) = true.
Proof.
  unfold parseDigitsDot.
  destruct (dropWhile isDigit s) as [|c r].
  - destruct (isEmpty _); [now left | right; apply ofDecimal_nonneg].
  - destruct (_ && _); [now left | right; apply ofDecimal_nonneg].
Qed.

Lemma add_nonneg (x y : number) :
  nonNegative x = true -> nonNegative y = true ->
  nonNegative (add x y) = true.
Proof.
  intros Hx Hy; apply nonNegative_cases in Hx, Hy.
  destruct x as [sx|sx| |sx mx ex], y as [sy|sy| |sy my ey];
    try destruct sx; try destruct sy; try contradiction;
    try reflexivity.
  unfold add, SFadd; apply binary_normalize_nonneg.
  unfold cond_Zopp; lia.
Qed.

Lemma ReportForm_getVal_nonneg (s : string) :
  nonNegative (ReportForm.getVal (JsStr s)) = true.
Proof.
  rewrite getVal_string_digits. apply orZero_nonneg, parseDigitsDot_nonneg.
Qed.

Lemma Dashboard_getVal_nonneg (nts : number -> string) (v : JsVal) :
  nonNegative (Dashboard.getVal nts v) = true.
Proof.
  unfold Dashboard.getVal.
  rewrite (parseFloat_numeric _ (forallb_filter isNumericChar _)).
  apply orZero_nonneg, parseDigitsDot_nonneg.
Qed.



(** ** Derived totals *)

(** C2: the report built by the report form and the report built by the
    edit dialog of a dashboard satisfy totalIncome = local + outstation +
    mixed, totalExpenses = fuel + maintenance + toll + other + driverSalary
    and netProfit = totalIncome - totalExpenses; their breakdown fields are
    the parsed inputs; and the edit does not read the stored totals. *)
Theorem derived_totals_recomputed (numberToString : number -> string) :
  (forall driver uuid now st,
     let r := ReportForm.handleSubmit driver uuid now st in
     totalsConsistent r
     /\ DailyReport.income r =
          IncomeBreakdown.mk
            (ReportForm.getVal (JsStr (ReportForm.local (ReportForm.income st))))
            (ReportForm.getVal (JsStr (ReportForm.outstation (ReportForm.income st))))
            (ReportForm.getVal (JsStr (ReportForm.mixed (ReportForm.income st))))
     /\ DailyReport.expenses r =
          ExpenseBreakdown.mk
            (ReportForm.getVal (JsStr (ReportForm.fuel (ReportForm.expenses st))))
            (ReportForm.getVal (JsStr (ReportForm.maintenance (ReportForm.expenses st))))
            (ReportForm.getVal (JsStr (ReportForm.toll (ReportForm.expenses st))))
            (ReportForm.getVal (JsStr (ReportForm.other (ReportForm.expenses st))))
     /\ DailyReport.driverSalary r =
          ReportForm.getVal (JsStr (ReportForm.salary (ReportForm.expenses st))))
  /\ (forall er,
        let r := Dashboard.handleUpdateReport numberToString er in
        totalsConsistent r
        /\ DailyReport.income r =
             IncomeBreakdown.mk
               (Dashboard.getVal numberToString
                  (EditingReport.local (EditingReport.income er)))
               (Dashboard.getVal numberToString
                  (EditingReport.outstation (EditingReport.income er)))
               (Dashboard.getVal numberToString
                  (EditingReport.mixed (EditingReport.income er)))
        /\ DailyReport.expenses r =
             ExpenseBreakdown.mk
               (Dashboard.getVal numberToString
                  (EditingReport.fuel (EditingReport.expenses er)))
               (Dashboard.getVal numberToString
                  (EditingReport.maintenance (EditingReport.expenses er)))
               (Dashboard.getVal numberToString
                  (EditingReport.toll (EditingReport.expenses er)))
               (Dashboard.getVal numberToString
                  (EditingReport.other (EditingReport.expenses er)))
        /\ DailyReport.driverSalary r =
             Dashboard.getVal numberToString (EditingReport.driverSalary er))
  /\ (forall er ti te np,
        Dashboard.handleUpdateReport numberToString
          (withStoredTotals er ti te np) =
        Dashboard.handleUpdateReport numberToString er).
Proof.
  split; [|split].
  - intros driver uuid now st r; unfold totalsConsistent; subst r; simpl.
    repeat split; reflexivity.
  - intros er r; unfold totalsConsistent; subst r; simpl.
    repeat split; reflexivity.
  - intros er ti te np; reflexivity.
Qed.

(** ** The calendar *)

Module Calendar.
Import JsDate.



Lemma MonthFromDay_range (n : Z) : 0 <= MonthFromDay n <= 11.
Proof.
  unfold MonthFromDay, monthOfDayWithinYear.
  repeat match goal with
         | |- context [if ?b then _ else _] => destruct b
         end; lia.
Qed.

(** The day number of the fields of a day is that day. *)
Lemma MakeDay_fields (n : Z) :
  MakeDay (YearFromDay n) (MonthFromDay n) (DateFromDay n) = n.
Proof.
  pose proof (MonthFromDay_range n) as R.
  unfold MakeDay.
  rewrite (Z.div_small (MonthFromDay n) 12), (Z.mod_small (MonthFromDay n) 12)
    by lia.
  rewrite Z.add_0_r. unfold DateFromDay, DayWithinYear. lia.
Qed.







End Calendar.

(** ** The date part of the report filter *)

Section DateTest.

Variable otherParse : string -> JsDate.timeValue.
Variable tza : Z.

Lemma dayStart_plain (t : Z) :
  plainYear tza t = true ->
  ReportFilter.dayStart tza (Some t) =
  Some (JsDate.localDay tza t * JsDate.msPerDay - tza).
Proof.
  unfold plainYear, ReportFilter.dayStart; cbn [JsDate.getFullYear
    JsDate.getMonth JsDate.getDate option_map JsDate.newDate3].
  intros H; apply negb_true_iff in H; rewrite H.
  now rewrite Calendar.MakeDay_fields.
Qed.



Variable now : Z.
Variables customStart customEnd : string.

Lemma dateTest_week (r : DailyReport.t) :
  ReportFilter.dateTest otherParse tza now "week" customStart customEnd r =
  JsDate.geb (ReportFilter.dayStart tza (JsDate.newDate otherParse (DailyReport.date r)))
    (JsDate.minus (ReportFilter.dayStart tza (Some now)) 604800000).
Proof. reflexivity. Qed.

Lemma dateTest_month (r : DailyReport.t) :
  ReportFilter.dateTest otherParse tza now "month" customStart customEnd r =
  JsDate.strictEq (JsDate.getMonth tza (JsDate.newDate otherParse (DailyReport.date r)))
                  (JsDate.getMonth tza (Some now))
  && JsDate.strictEq (JsDate.getFullYear tza (JsDate.newDate otherParse (DailyReport.date r)))
                     (JsDate.getFullYear tza (Some now)).
Proof. reflexivity. Qed.


End DateTest.

Lemma geb_dayStart (tza a b k : Z) :
  JsDate.geb (Some (a * JsDate.msPerDay - tza))
             (JsDate.minus (Some (b * JsDate.msPerDay - tza))
                           (k * JsDate.msPerDay)) = true
  <-> b - k <= a.
Proof.
  unfold JsDate.geb, JsDate.minus, option_map, JsDate.msPerDay.
  rewrite Z.leb_le; lia.
Qed.

(** What the test of mode "week" computes: it keeps a report exactly when
    its date is a valid date whose local calendar day is no earlier than 7
    days before today; it has no upper bound.  The years of today and of
    the report are taken outside 0 to 99, which the Date constructor reads
    as 1900 to 1999. *)
Theorem week_filter_lower_bound
    (otherParse : string -> JsDate.timeValue) (tza now : Z)
    (customStart customEnd : string) (r : DailyReport.t) :
  plainYear tza now = true ->
  (forall t, JsDate.newDate otherParse (DailyReport.date r) = Some t ->
             plainYear tza t = true) ->
  (ReportFilter.dateTest otherParse tza now "week" customStart customEnd r
     = true
   <-> exists t,
         JsDate.newDate otherParse (DailyReport.date r) = Some t
         /\ JsDate.localDay tza now - 7 <= JsDate.localDay tza t).
Proof.
  intros Hn Hr; rewrite dateTest_week.
  rewrite (dayStart_plain tza now Hn).
  destruct (JsDate.newDate otherParse (DailyReport.date r)) as [t|] eqn:E.
  - rewrite (dayStart_plain tza t (Hr t eq_refl)).
    change 604800000 with (7 * JsDate.msPerDay).
    rewrite geb_dayStart; split.
    + intros H; exists t; now split.
    + intros [t' [[= <-] H]]; exact H.
  - split; [discriminate|]. intros [t [H _]]; discriminate.
Qed.

Lemma week_filter_lower_bound_witness :
  ReportFilter.dateTest noOtherParse IST morning_2024_03_15 "week" "" ""
    (reportOn "r1" "1" "2024-03-08") = true
  <-> exists t,
        JsDate.newDate noOtherParse
          (DailyReport.date (reportOn "r1" "1" "2024-03-08")) = Some t
        /\ JsDate.localDay IST morning_2024_03_15 - 7 <= JsDate.localDay IST t.
Proof.
  apply (week_filter_lower_bound noOtherParse IST morning_2024_03_15 "" ""
           (reportOn "r1" "1" "2024-03-08")).
  - vm_compute; reflexivity.
  - intros t H; vm_compute in H; injection H as <-; vm_compute; reflexivity.
Defined.

(** C3 fails on the code: on the morning of 15 March 2024 (Indian time)
    the filter in mode "week", labelled "Last 7 Days", keeps a report dated
    16 March 2024, whose calendar day is later than today and so outside
    the trailing 7 days. *)
Lemma week_filter_keeps_tomorrow :
  ReportFilter.dateTest noOtherParse IST morning_2024_03_15 "week" "" ""
    (reportOn "r1" "1" "2024-03-16") = true
  /\ JsDate.newDate noOtherParse "2024-03-16" = Some 1710547200000
  /\ JsDate.localDay IST 1710547200000 = 19798
  /\ JsDate.localDay IST morning_2024_03_15 = 19797
  /\ ~ (19797 - 7 <= 19798 <= 19797).
Proof.
  repeat split; try (vm_compute; reflexivity). lia.
Qed.







(** The month filter on the morning of 15 March 2024, Indian time. *)
Example month_filter_march_2024 :
  ReportFilter.dateTest noOtherParse IST morning_2024_03_15 "month" "" ""
    (reportOn "r1" "1" "2024-03-01") = true
  /\ ReportFilter.dateTest noOtherParse IST morning_2024_03_15 "month" "" ""
       (reportOn "r2" "1" "2024-03-31") = true
  /\ ReportFilter.dateTest noOtherParse IST morning_2024_03_15 "month" "" ""
       (reportOn "r3" "1" "2024-04-01") = false.
Proof. repeat split; vm_compute; reflexivity. Qed.

(** ** Sorting by date *)

Section SortFacts.

Context {A : Type}.
Variable comparefn : A -> A -> option Z.

Lemma insert_In (x z : A) (l : list A) :
  In z (JsArray.insert comparefn x l) <-> z = x \/ In z l.
Proof.
  induction l as [|y l IH]; simpl; [intuition|].
  destruct (0 <? JsArray.sortCompare comparefn x y); simpl;
    rewrite ?IH; intuition.
Qed.

Lemma sort_In (z : A) (l : list A) :
  In z (JsArray.sort comparefn l) <-> In z l.
Proof.
  induction l as [|x l IH]; simpl; [reflexivity|].
  rewrite insert_In, IH; intuition.
Qed.

Lemma sort_Forall (P : A -> Prop) (l : list A) :
  Forall P l -> Forall P (JsArray.sort comparefn l).
Proof.
  rewrite !Forall_forall; intros H z Hz; apply H, sort_In, Hz.
Qed.

End SortFacts.

Section ByDate.

Variable otherParse : string -> JsDate.timeValue.

Lemma notBefore_trans : transitive _ (notBefore otherParse).
Proof.
  intros a b c (ta & tb & Ha & Hb & H1) (tb' & tc & Hb' & Hc & H2).
  exists ta, tc; repeat split; auto.
  rewrite Hb in Hb'; injection Hb' as <-; lia.
Qed.

Lemma sortCompare_valid (x y : DailyReport.t) :
  (validDate otherParse) x -> (validDate otherParse) y ->
  exists tx ty,
    JsDate.newDate otherParse (DailyReport.date x) = Some tx
    /\ JsDate.newDate otherParse (DailyReport.date y) = Some ty
    /\ JsArray.sortCompare (ReportFilter.byDateDesc otherParse) x y = ty - tx.
Proof.
  unfold validDate, JsArray.sortCompare, ReportFilter.byDateDesc,
    ReportFilter.newDate.
  intros Hx Hy.
  destruct (JsDate.newDate otherParse (DailyReport.date x)) as [tx|];
    [|congruence].
  destruct (JsDate.newDate otherParse (DailyReport.date y)) as [ty|];
    [|congruence].
  now exists tx, ty.
Qed.

Lemma insert_HdRel (x y : DailyReport.t) (l : list DailyReport.t) :
  (notBefore otherParse) y x -> HdRel (notBefore otherParse) y l -> HdRel (notBefore otherParse) y (JsArray.insert (ReportFilter.byDateDesc otherParse) x l).
Proof.
  intros Hyx H; destruct l as [|z l]; simpl; [now constructor|].
  inversion H; subst.
  destruct (0 <? JsArray.sortCompare (ReportFilter.byDateDesc otherParse) x z); now constructor.
Qed.

Lemma insert_Sorted (x : DailyReport.t) (l : list DailyReport.t) :
  (validDate otherParse) x -> Forall (validDate otherParse) l -> Sorted (notBefore otherParse) l ->
  Sorted (notBefore otherParse) (JsArray.insert (ReportFilter.byDateDesc otherParse) x l).
Proof.
  intros Hx Hl Hs; induction l as [|y l IH]; simpl.
  - constructor; constructor.
  - inversion Hl as [|? ? Hy Hl']; inversion Hs as [|? ? Hs' Hd]; subst.
    destruct (sortCompare_valid x y Hx Hy) as (tx & ty & Ex & Ey & ->).
    destruct (Z.ltb_spec 0 (ty - tx)).
    + constructor; [now apply IH|].
      apply insert_HdRel; [|exact Hd].
      exists ty, tx; repeat split; auto; lia.
    + constructor; [exact Hs|]. constructor.
      exists tx, ty; repeat split; auto; lia.
Qed.

Lemma sort_Sorted (l : list DailyReport.t) :
  Forall (validDate otherParse) l -> Sorted (notBefore otherParse) (JsArray.sort (ReportFilter.byDateDesc otherParse) l).
Proof.
  induction l as [|x l IH]; intros H; simpl; [constructor|].
  inversion H; subst.
  apply insert_Sorted; auto. now apply sort_Forall.
Qed.

Lemma sort_StronglySorted (l : list DailyReport.t) :
  Forall (validDate otherParse) l -> StronglySorted (notBefore otherParse) (JsArray.sort (ReportFilter.byDateDesc otherParse) l).
Proof.
  intros H; apply Sorted_StronglySorted;
    [exact notBefore_trans | now apply sort_Sorted].
Qed.

End ByDate.

Lemma Forall_filter {A : Type} (P : A -> Prop) (f : A -> bool) (l : list A) :
  Forall P l -> Forall P (List.filter f l).
Proof.
  rewrite !Forall_forall; intros H x Hx; apply filter_In in Hx; apply H, Hx.
Qed.



(** The filter of the admin dashboard on four reports, in March 2024. *)
Example filteredReports_march_2024 :
  List.map DailyReport.id
    (AdminDashboard.filteredReports noOtherParse IST morning_2024_03_15
       "all" "month" "" ""
       [reportOn "a" "1" "2024-03-02"; reportOn "b" "2" "2024-03-14";
        reportOn "c" "1" "2024-02-28"; reportOn "d" "1" "2024-03-09"])
  = ["b"; "d"; "a"].
Proof. vm_compute; reflexivity. Qed.

(** C10: whatever the date mode and the custom range, every report in the
    filtered collection of the driver dashboard carries the identifier of
    the logged-in driver, and is one of the reports given to the dashboard. *)
Theorem myReports_only_own
    (otherParse : string -> JsDate.timeValue) (tza now : Z)
    (driver : Driver.t) (dateFilter customStart customEnd : string)
    (reports : list DailyReport.t) :
  Forall (fun r => DailyReport.driverId r = Driver.id driver /\ In r reports)
    (DriverDashboard.myReports otherParse tza now driver
       dateFilter customStart customEnd reports).
Proof.
  apply Forall_forall; intros r Hr.
  apply sort_In, filter_In in Hr; destruct Hr as [Hin Hk].
  split; [|exact Hin].
  unfold DriverDashboard.keep in Hk.
  destruct (DailyReport.driverId r =? Driver.id driver)%string eqn:E;
    [now apply String.eqb_eq | discriminate].
Qed.

(** ** Insert-or-replace by identifier *)

Section Upsert.

Context {A : Type}.
Variable p : A -> bool.
Variable x : A.
Hypothesis p_x : p x = true.

Lemma put_cons (y : A) (l : list A) :
  putAt p x (y :: l) = if p y then x :: l else y :: putAt p x l.
Proof.
  unfold putAt; simpl; destruct (p y); [reflexivity|].
  now destruct (JsArray.findIndex p l).
Qed.

Lemma put_filter (l : list A) :
  (List.length (List.filter p l) <= 1)%nat -> List.filter p (putAt p x l) = [x].
Proof.
  induction l as [|y l IH].
  - intros _; unfold putAt; simpl; now rewrite p_x.
  - rewrite put_cons; simpl; destruct (p y) eqn:E; simpl.
    + rewrite p_x; intros H.
      destruct (List.filter p l); [reflexivity | simpl in H; lia].
    + rewrite E; exact IH.
Qed.

Lemma put_keys {K : Type} (key : A -> K) (l : list A) :
  (forall y, p y = true -> key y = key x) ->
  List.map key (putAt p x l) =
  if existsb p l then List.map key l else (List.map key l ++ [key x])%list.
Proof.
  intros Hk; induction l as [|y l IH]; [reflexivity|].
  rewrite put_cons; simpl; destruct (p y) eqn:E; simpl.
  - now rewrite (Hk y E).
  - rewrite IH; now destruct (existsb p l).
Qed.

End Upsert.

Lemma filter_key_unique {A : Type} (key : A -> string) (k : string)
    (l : list A) :
  NoDup (List.map key l) ->
  (List.length (List.filter (fun y => (key y =? k)%string) l) <= 1)%nat.
Proof.
  induction l as [|y l IH]; simpl; [lia|].
  intros H; inversion H as [|? ? Hn Hd]; subst.
  destruct (String.eqb_spec (key y) k) as [E|E]; simpl; [|auto].
  assert (Z : List.filter (fun y => (key y =? k)%string) l = []).
  { destruct (List.filter _ l) as [|z t] eqn:F; [reflexivity|].
    assert (Hz : In z (List.filter (fun y => (key y =? k)%string) l))
      by (rewrite F; now left).
    apply filter_In in Hz; destruct Hz as [Hz Ez].
    apply String.eqb_eq in Ez. exfalso; apply Hn.
    rewrite E, <- Ez. now apply in_map. }
  rewrite Z; simpl; lia.
Qed.

Lemma filter_map_comm {A B : Type} (f : A -> B) (q : B -> bool)
    (l : list A) :
  List.filter q (List.map f l) =
  List.map f (List.filter (fun a => q (f a)) l).
Proof.
  induction l as [|a l IH]; simpl; [reflexivity|].
  destruct (q (f a)); simpl; now rewrite IH.
Qed.

(** ** The persistence adapter *)

Module StorageFacts.
Import StorageService.

Lemma ids_ofRow (rows : list DriverRow) :
  List.map Driver.id (List.map ofRow rows) = List.map row_id rows.
Proof. rewrite map_map; reflexivity. Qed.

Lemma ids_json (l : list Driver.t) :
  List.map Driver.id (List.map jsonDriver l) = List.map Driver.id l.
Proof. rewrite map_map; reflexivity. Qed.

Lemma existsb_ofRow (k : string) (rows : list DriverRow) :
  existsb (fun x => (Driver.id x =? k)%string) (List.map ofRow rows) =
  existsb (fun r => (row_id r =? k)%string) rows.
Proof. induction rows as [|r l IH]; simpl; [reflexivity | now rewrite IH]. Qed.

(** The remote path. *)
Lemma save_fetch_remote (d : Driver.t) (st : State) (rows : list DriverRow) :
  remoteDrivers st = Rows rows ->
  NoDup (List.map row_id rows) ->
  let fetched := fst (getDrivers (saveDriver d st)) in
  withIdOf d fetched = [ofRow (toRow d)]
  /\ List.map Driver.id fetched =
     if existsb (fun r => (row_id r =? Driver.id d)%string) rows
     then List.map row_id rows
     else (List.map row_id rows ++ [Driver.id d])%list.
Proof.
  intros R N fetched; subst fetched.
  unfold saveDriver, getDrivers, getDriversRef; rewrite R.
  cbn [remoteDrivers fst deref]; unfold withIdOf.
  change (remoteUpsert rows (toRow d))
    with (putAt (fun r => (row_id r =? Driver.id d)%string) (toRow d) rows).
  split.
  - rewrite filter_map_comm; cbn [Driver.id ofRow].
    rewrite (put_filter (fun r => (row_id r =? Driver.id d)%string));
      [reflexivity | apply String.eqb_refl |].
    now apply filter_key_unique.
  - rewrite ids_ofRow.
    rewrite (put_keys (fun r => (row_id r =? Driver.id d)%string)
               (toRow d) row_id); [reflexivity|].
    intros y Hy; now apply String.eqb_eq in Hy.
Qed.

(** What the fallback path stores for a drivers array [l]. *)
Lemma stored_after_put (d : Driver.t) (l : list Driver.t) :
  NoDup (List.map Driver.id l) ->
  let stored := List.map jsonDriver (putDriver l d) in
  withIdOf d stored = [jsonDriver d]
  /\ List.map Driver.id stored =
     if existsb (fun x => (Driver.id x =? Driver.id d)%string) l
     then List.map Driver.id l
     else (List.map Driver.id l ++ [Driver.id d])%list.
Proof.
  intros N stored; subst stored; unfold withIdOf.
  change (putDriver l d)
    with (putAt (fun x => (Driver.id x =? Driver.id d)%string) d l).
  split.
  - rewrite filter_map_comm; cbn [Driver.id jsonDriver].
    rewrite (put_filter (fun x => (Driver.id x =? Driver.id d)%string));
      [reflexivity | apply String.eqb_refl |].
    now apply filter_key_unique.
  - rewrite ids_json.
    rewrite (put_keys (fun x => (Driver.id x =? Driver.id d)%string)
               d Driver.id); [reflexivity|].
    intros y Hy; now apply String.eqb_eq in Hy.
Qed.

End StorageFacts.

(** C6: in a state whose collection of drivers has no two entries with the
    same identifier, after [saveDriver d] a fetch returns a collection with
    exactly one entry of that identifier, carrying the name, the vehicle
    and the PIN of [d]; the identifiers are those of the collection before,
    in the same order, when the identifier was there (replaced in place),
    and those followed by the new one otherwise (appended).  This holds
    when the remote service answers and when it fails and localStorage is
    used, whether localStorage holds an entry or not. *)
Theorem saveDriver_then_getDrivers (d : Driver.t) (st : StorageService.State) :
  NoDup (List.map Driver.id (StorageService.currentDrivers st)) ->
  let old := StorageService.currentDrivers st in
  let fetched :=
    fst (StorageService.getDrivers (StorageService.saveDriver d st)) in
  (exists d', withIdOf d fetched = [d'] /\ sameProfile d' d)
  /\ List.map Driver.id fetched =
     if existsb (fun x => (Driver.id x =? Driver.id d)%string) old
     then List.map Driver.id old
     else (List.map Driver.id old ++ [Driver.id d])%list.
Proof.
  intros N old fetched; subst old fetched.
  unfold StorageService.currentDrivers in *.
  destruct st as [remote pwd ls lspwd mock].
  destruct remote as [|rows].
  - (* the remote service fails: localStorage *)
    destruct ls as [l|].
    + destruct (StorageFacts.stored_after_put d l N) as [F K].
      split; [|exact K].
      exists (StorageService.jsonDriver d); split; [exact F|].
      repeat split.
    + cbn in N.
      destruct (StorageFacts.stored_after_put d mock N) as [F K].
      split; [|exact K].
      exists (StorageService.jsonDriver d); split; [exact F|].
      repeat split.
  - (* the remote service answers *)
    cbn in N; rewrite StorageFacts.ids_ofRow in N.
    destruct (StorageFacts.save_fetch_remote d
                (StorageService.mkState (StorageService.Rows rows) pwd ls
                   lspwd mock) rows eq_refl N) as [F K].
    split.
    + exists (StorageService.ofRow (StorageService.toRow d));
        split; [exact F | repeat split].
    + cbn [StorageService.getDrivers StorageService.getDriversRef
             StorageService.remoteDrivers fst StorageService.deref].
      rewrite StorageFacts.existsb_ofRow, StorageFacts.ids_ofRow.
      exact K.
Qed.

Lemma saveDriver_then_getDrivers_witness :
  (exists d',
     withIdOf (Driver.mk "3" "Anil" "TN 38 AA 0001" "4321" None)
       (fst (StorageService.getDrivers
               (StorageService.saveDriver
                  (Driver.mk "3" "Anil" "TN 38 AA 0001" "4321" None)
                  (StorageService.mkState StorageService.Failing
                     StorageService.AnswerError None None
                     StorageService.MOCK_DRIVERS)))) = [d']
     /\ sameProfile d' (Driver.mk "3" "Anil" "TN 38 AA 0001" "4321" None))
  /\ List.map Driver.id
       (fst (StorageService.getDrivers
               (StorageService.saveDriver
                  (Driver.mk "3" "Anil" "TN 38 AA 0001" "4321" None)
                  (StorageService.mkState StorageService.Failing
                     StorageService.AnswerError None None
                     StorageService.MOCK_DRIVERS)))) =
     if existsb
          (fun x =>
             (Driver.id x =?
              Driver.id (Driver.mk "3" "Anil" "TN 38 AA 0001" "4321" None))%string)
          (StorageService.currentDrivers
             (StorageService.mkState StorageService.Failing
                StorageService.AnswerError None None
                StorageService.MOCK_DRIVERS))
     then List.map Driver.id
            (StorageService.currentDrivers
               (StorageService.mkState StorageService.Failing
                  StorageService.AnswerError None None
                  StorageService.MOCK_DRIVERS))
     else (List.map Driver.id
             (StorageService.currentDrivers
                (StorageService.mkState StorageService.Failing
                   StorageService.AnswerError None None
                   StorageService.MOCK_DRIVERS))
           ++ [Driver.id (Driver.mk "3" "Anil" "TN 38 AA 0001" "4321" None)])%list.
Proof.
  apply (saveDriver_then_getDrivers
           (Driver.mk "3" "Anil" "TN 38 AA 0001" "4321" None)
           (StorageService.mkState StorageService.Failing
              StorageService.AnswerError None None
              StorageService.MOCK_DRIVERS)).
  vm_compute.
  constructor; [simpl; intuition discriminate|].
  constructor; [simpl; intuition|constructor].
Defined.

(** Saving on both paths: an edited driver replaces the old entry, a new
    one goes last; MOCK_DRIVERS itself is updated when localStorage was
    empty. *)
Example saveDriver_paths :
  List.map Driver.name
    (fst (StorageService.getDrivers
            (StorageService.saveDriver
               (Driver.mk "1" "Ramesh K" "TN 38 BR 1234" "9999" None)
               (StorageService.mkState StorageService.Failing
                  StorageService.AnswerError None None
                  StorageService.MOCK_DRIVERS))))
    = ["Ramesh K"; "Suresh Raj"]
  /\ List.map Driver.name
       (StorageService.mockDrivers
          (StorageService.saveDriver
             (Driver.mk "1" "Ramesh K" "TN 38 BR 1234" "9999" None)
             (StorageService.mkState StorageService.Failing
                StorageService.AnswerError None None
                StorageService.MOCK_DRIVERS)))
     = ["Ramesh K"; "Suresh Raj"]
  /\ List.map Driver.name
       (fst (StorageService.getDrivers
               (StorageService.saveDriver
                  (Driver.mk "7" "Anil" "TN 38 AA 0001" "4321" None)
                  (StorageService.mkState
                     (StorageService.Rows
                        [StorageService.mkRow "5" "Mani" "TN 01" "1111"])
                     StorageService.AnswerError None None
                     StorageService.MOCK_DRIVERS))))
     = ["Mani"; "Anil"].
Proof. repeat split; vm_compute; reflexivity. Qed.



(** The end-to-end scenario of the specification: local income "500",
    fuel "100", salary "50", every other amount "0". *)
Example submit_scenario :
  let st :=
    ReportForm.mkState "2024-03-15" "120" "09:00" "18:00"
      (ReportForm.mkIncomeInput "500" "0" "0")
      (ReportForm.mkExpensesInput "100" "0" "0" "0" "50") "" in
  let r :=
    ReportForm.handleSubmit
      (Driver.mk "1" "Ramesh Kumar" "TN 38 BR 1234" "1234" None)
      "uuid" (ofZ 1710477000000) st in
  DailyReport.totalIncome r = ofZ 500
  /\ DailyReport.totalExpenses r = ofZ 150
  /\ DailyReport.netProfit r = ofZ 350.
Proof. repeat split; vm_compute; reflexivity. Qed.

(** ** Deleting a driver *)

Lemma filter_not_putAt {A : Type} (p : A -> bool) (x : A) (l : list A) :
  p x = true ->
  List.filter (fun y => negb (p y)) (putAt p x l) =
  List.filter (fun y => negb (p y)) l.
Proof.
  intros Hx; induction l as [|y l IH].
  - unfold putAt; simpl; now rewrite Hx.
  - rewrite put_cons; simpl; destruct (p y) eqn:E; simpl.
    + now rewrite Hx.
    + now rewrite E, IH.
Qed.

Lemma filter_Forall_not {A : Type} (p : A -> bool) (l : list A) :
  Forall (fun y => p y = false) (List.filter (fun y => negb (p y)) l).
Proof.
  apply Forall_forall; intros y Hy; apply filter_In in Hy.
  now apply negb_true_iff.
Qed.

Module DeleteFacts.
Import StorageService.

Lemma toRow_ofRow (l : list DriverRow) : List.map toRow (List.map ofRow l) = l.
Proof.
  rewrite map_map; induction l as [|[a b c d] l IH]; simpl; [reflexivity|].
  now rewrite IH.
Qed.

Lemma toRow_json (l : list Driver.t) :
  List.map toRow (List.map jsonDriver l) = List.map toRow l.
Proof. rewrite map_map; reflexivity. Qed.

Lemma filter_rows (id : string) (l : list Driver.t) :
  List.map toRow (List.filter (fun d => negb (Driver.id d =? id)%string) l) =
  List.filter (fun r => negb (row_id r =? id)%string) (List.map toRow l).
Proof.
  induction l as [|d l IH]; simpl; [reflexivity|].
  destruct (Driver.id d =? id)%string; simpl; now rewrite IH.
Qed.

(** The rows of the collection fetched after [deleteDriver]. *)
Lemma rows_after_delete (id : string) (st : State) :
  List.map toRow (fst (getDrivers (deleteDriver id st))) =
  List.filter (fun r => negb (row_id r =? id)%string)
    (List.map toRow (currentDrivers st)).
Proof.
  unfold currentDrivers.
  destruct st as [remote pwd ls lspwd mock]; destruct remote as [|rows].
  - destruct ls as [l|]; cbn; now rewrite toRow_json, filter_rows.
  - cbn; now rewrite !toRow_ofRow.
Qed.

(** The rows of the collection fetched after [saveDriver]. *)
Lemma rows_after_save (d : Driver.t) (st : State) :
  List.map toRow (fst (getDrivers (saveDriver d st))) =
  putAt (fun r => (row_id r =? Driver.id d)%string) (toRow d)
    (List.map toRow (currentDrivers st)).
Proof.
  assert (P : forall l,
             List.map toRow (putDriver l d) =
             putAt (fun r => (row_id r =? Driver.id d)%string) (toRow d)
               (List.map toRow l)).
  { intros l; change (putDriver l d)
      with (putAt (fun x => (Driver.id x =? Driver.id d)%string) d l).
    induction l as [|y l IH]; [reflexivity|].
    rewrite put_cons; cbn [List.map]; rewrite put_cons; cbn [row_id toRow].
    destruct (Driver.id y =? Driver.id d)%string; cbn [List.map];
      [reflexivity | now rewrite IH]. }
  unfold currentDrivers.
  destruct st as [remote pwd ls lspwd mock]; destruct remote as [|rows].
  - destruct ls as [l|]; cbn; now rewrite toRow_json, P.
  - cbn; now rewrite !toRow_ofRow.
Qed.

End DeleteFacts.

(** X1: after [deleteDriver id], a fetch returns the drivers of the
    collection before whose identifier is not [id], in the same order and
    with their name, vehicle and PIN; no fetched driver has the identifier
    [id].  This holds on the remote path and on the localStorage path. *)
Theorem deleteDriver_then_getDrivers (id : string) (st : StorageService.State) :
  let fetched :=
    fst (StorageService.getDrivers (StorageService.deleteDriver id st)) in
  List.map StorageService.toRow fetched =
    List.filter (fun r => negb (StorageService.row_id r =? id)%string)
      (List.map StorageService.toRow (StorageService.currentDrivers st))
  /\ Forall (fun d => Driver.id d <> id) fetched.
Proof.
  intros fetched; subst fetched.
  pose proof (DeleteFacts.rows_after_delete id st) as R.
  split; [exact R|].
  apply Forall_forall; intros d Hd.
  assert (Hr : In (StorageService.toRow d)
                 (List.map StorageService.toRow
                    (fst (StorageService.getDrivers
                            (StorageService.deleteDriver id st)))))
    by now apply in_map.
  rewrite R in Hr; apply filter_In in Hr; destruct Hr as [_ Hn].
  apply negb_true_iff in Hn; cbn in Hn.
  now apply String.eqb_neq.
Qed.

(** X2: saving a driver and then deleting its identifier leaves what
    deleting alone leaves: the other drivers, in their order. *)
Theorem saveDriver_then_deleteDriver (d : Driver.t) (st : StorageService.State) :
  List.map StorageService.toRow
    (fst (StorageService.getDrivers
            (StorageService.deleteDriver (Driver.id d)
               (StorageService.saveDriver d st)))) =
  List.map StorageService.toRow
    (fst (StorageService.getDrivers
            (StorageService.deleteDriver (Driver.id d) st))).
Proof.
  rewrite !DeleteFacts.rows_after_delete.
  unfold StorageService.currentDrivers at 1.
  rewrite DeleteFacts.rows_after_save.
  apply (filter_not_putAt
           (fun r => (StorageService.row_id r =? Driver.id d)%string)).
  apply String.eqb_refl.
Qed.

(** ** The admin password and the login screen *)

(** Reading the admin password after [setAdminPassword p] gives [p], on
    the remote path for every [p] and on the localStorage path for every
    [p] that is not empty (an empty stored string reads as "admin"). *)
Lemma setAdminPassword_then_get (p : string) (st : StorageService.State) :
  StorageService.getAdminPassword (StorageService.setAdminPassword p st) =
  match StorageService.remoteAdminPwd st with
  | StorageService.AnswerError => if isEmpty p then "admin" else p
  | _ => p
  end.
Proof.
  destruct st as [remote pwd ls lspwd mock]; destruct pwd; reflexivity.
Qed.

Lemma length_not_empty (s : string) :
  (4 <= String.length s)%nat -> isEmpty s = false.
Proof. destruct s; simpl; [lia | reflexivity]. Qed.

(** X3: [handlePasswordChange] changes the state of the adapter only when
    the two entries are equal and have 4 characters at least; after such a
    change the new password is the one read back, the admin login accepts
    it and rejects every other entry. *)
Theorem handlePasswordChange_effect
    (newPwd : string) (st : StorageService.State) :
  (4 <= String.length newPwd)%nat ->
  let st' := fst (AdminManagement.handlePasswordChange newPwd newPwd st) in
  StorageService.getAdminPassword st' = newPwd
  /\ (forall (sel pin : string) (drivers : list Driver.t),
        Login.handleLogin ADMIN sel pin drivers st' =
        if (pin =? newPwd)%string
        then Login.LoggedIn (User.mk "admin" "Administrator" ADMIN None)
        else Login.Rejected "Invalid Admin Password.")
  /\ (forall (entry confirm : string) (st0 : StorageService.State),
        fst (AdminManagement.handlePasswordChange entry confirm st0) = st0
        \/ (entry = confirm /\ (4 <= String.length entry)%nat)).
Proof.
  intros L st'; subst st'; unfold AdminManagement.handlePasswordChange.
  rewrite String.eqb_refl; cbn [negb].
  destruct (Nat.ltb_spec (String.length newPwd) 4) as [L'|_]; [lia|].
  cbn [fst].
  assert (G : StorageService.getAdminPassword
                (StorageService.setAdminPassword newPwd st) = newPwd).
  { rewrite setAdminPassword_then_get, (length_not_empty newPwd L).
    now destruct (StorageService.remoteAdminPwd st). }
  split; [exact G|]. split.
  - intros sel pin drivers; unfold Login.handleLogin; now rewrite G.
  - intros entry confirm st0.
    destruct (String.eqb_spec entry confirm) as [E|E]; cbn [negb];
      [|now left].
    destruct (Nat.ltb_spec (String.length entry) 4) as [K|K];
      [now left | right; now split].
Qed.

Lemma handlePasswordChange_effect_witness :
  StorageService.getAdminPassword
    (fst (AdminManagement.handlePasswordChange "taxi2024" "taxi2024"
            (StorageService.mkState StorageService.Failing
               StorageService.AnswerError None None
               StorageService.MOCK_DRIVERS))) = "taxi2024"
  /\ (forall (sel pin : string) (drivers : list Driver.t),
        Login.handleLogin ADMIN sel pin drivers
          (fst (AdminManagement.handlePasswordChange "taxi2024" "taxi2024"
                  (StorageService.mkState StorageService.Failing
                     StorageService.AnswerError None None
                     StorageService.MOCK_DRIVERS))) =
        if (pin =? "taxi2024")%string
        then Login.LoggedIn (User.mk "admin" "Administrator" ADMIN None)
        else Login.Rejected "Invalid Admin Password.")
  /\ (forall (entry confirm : string) (st0 : StorageService.State),
        fst (AdminManagement.handlePasswordChange entry confirm st0) = st0
        \/ (entry = confirm /\ (4 <= String.length entry)%nat)).
Proof.
  apply (handlePasswordChange_effect "taxi2024"
           (StorageService.mkState StorageService.Failing
              StorageService.AnswerError None None
              StorageService.MOCK_DRIVERS)).
  simpl; lia.
Defined.

Lemma find_first_of_unique {A : Type} (key : A -> string) (k : string)
    (l : list A) (d : A) :
  NoDup (List.map key l) -> In d l -> key d = k ->
  List.find (fun x => (key x =? k)%string) l = Some d.
Proof.
  induction l as [|y l IH]; simpl; [contradiction|].
  intros N Hin Hk; inversion N as [|? ? Hn Hd]; subst.
  destruct Hin as [-> | Hin].
  - now rewrite String.eqb_refl.
  - destruct (String.eqb_spec (key y) (key d)) as [E|E]; [|now apply IH].
    exfalso; apply Hn; rewrite E; now apply in_map.
Qed.

(** X4: the login of a driver succeeds exactly when a driver of the list
    has the selected identifier and the entered PIN (identifiers being
    distinct), and the user it opens the session for carries the
    identifier, the name and the vehicle of that driver and the role
    DRIVER; the state of the persistence adapter plays no part. *)
Theorem driver_login_sound_complete
    (sel pin : string) (drivers : list Driver.t)
    (st : StorageService.State) (u : User.t) :
  NoDup (List.map Driver.id drivers) ->
  (Login.handleLogin DRIVER sel pin drivers st = Login.LoggedIn u
   <-> exists d,
         In d drivers /\ Driver.id d = sel /\ Driver.pin d = pin
         /\ u = User.mk (Driver.id d) (Driver.name d) DRIVER
                  (Some (Driver.vehicle d))).
Proof.
  intros N; unfold Login.handleLogin; split.
  - destruct (List.find _ drivers) as [d|] eqn:F; [|discriminate].
    apply find_some in F; destruct F as [Hin Hid].
    apply String.eqb_eq in Hid.
    destruct (String.eqb_spec (Driver.pin d) pin) as [P|P]; [|discriminate].
    intros [= <-]; exists d; repeat split; auto.
  - intros (d & Hin & Hid & Hp & ->).
    rewrite (find_first_of_unique Driver.id sel drivers d N Hin Hid).
    now rewrite Hp, String.eqb_refl.
Qed.

Lemma driver_login_sound_complete_witness :
  Login.handleLogin DRIVER "2" "5678" StorageService.MOCK_DRIVERS
    (StorageService.mkState StorageService.Failing
       StorageService.AnswerError None None StorageService.MOCK_DRIVERS)
  = Login.LoggedIn (User.mk "2" "Suresh Raj" DRIVER (Some "TN 38 CS 5678"))
  <-> exists d,
        In d StorageService.MOCK_DRIVERS /\ Driver.id d = "2"
        /\ Driver.pin d = "5678"
        /\ User.mk "2" "Suresh Raj" DRIVER (Some "TN 38 CS 5678") =
           User.mk (Driver.id d) (Driver.name d) DRIVER
             (Some (Driver.vehicle d)).
Proof.
  apply (driver_login_sound_complete "2" "5678" StorageService.MOCK_DRIVERS
           (StorageService.mkState StorageService.Failing
              StorageService.AnswerError None None StorageService.MOCK_DRIVERS)
           (User.mk "2" "Suresh Raj" DRIVER (Some "TN 38 CS 5678"))).
  repeat constructor; simpl; intuition discriminate.
Defined.






(** X7: what the application shows after a login.  When the login screen
    (given the drivers of the application) opens a session, the next
    rendering is the admin dashboard, and then the role chosen was ADMIN
    and the entry is the admin password, or it is the dashboard of a
    driver, and then the role chosen was DRIVER, the driver handed to the
    dashboard has the selected identifier and the entered PIN, and every
    report the dashboard lists under any date filter carries that
    identifier. *)
Theorem view_after_login
    (role : UserRole) (sel pin : string) (st : StorageService.State)
    (s : App.State) (u : User.t) :
  App.isLoading s = false ->
  Login.handleLogin role sel pin (App.drivers s) st = Login.LoggedIn u ->
  match App.render (App.handleLogin u s) with
  | App.AdminDashboardView reports drivers =>
      role = ADMIN /\ pin = StorageService.getAdminPassword st
      /\ reports = App.reports s
  | App.DriverDashboardView (Some d) reports =>
      role = DRIVER /\ Driver.id d = sel /\ Driver.pin d = pin
      /\ reports = App.reports s
      /\ forall otherParse tza now dateFilter customStart customEnd,
           Forall (fun r => DailyReport.driverId r = sel)
             (DriverDashboard.myReports otherParse tza now d
                dateFilter customStart customEnd reports)
  | _ => False
  end.
Proof.
  intros L H; unfold App.render, App.handleLogin; cbn; rewrite L.
  destruct role; unfold Login.handleLogin in H.
  - destruct (String.eqb_spec pin (StorageService.getAdminPassword st))
      as [E|E]; [|discriminate].
    injection H as <-; cbn; repeat split; exact E.
  - destruct (List.find _ (App.drivers s)) as [d|] eqn:F; [|discriminate].
    destruct (String.eqb_spec (Driver.pin d) pin) as [P|P]; [|discriminate].
    injection H as <-; cbn.
    pose proof F as F'; apply find_some in F'; destruct F' as [_ Hid].
    apply String.eqb_eq in Hid.
    rewrite Hid, F.
    repeat split; auto.
    intros otherParse tza now dateFilter customStart customEnd.
    apply Forall_forall; intros r Hr.
    apply sort_In, filter_In in Hr; destruct Hr as [_ Hk].
    unfold DriverDashboard.keep in Hk.
    destruct (String.eqb_spec (DailyReport.driverId r) (Driver.id d));
      [congruence | discriminate].
Qed.

Lemma view_after_login_witness :
  match
    App.render
      (App.handleLogin
         (User.mk "2" "Suresh Raj" DRIVER (Some "TN 38 CS 5678"))
         (App.mkState None StorageService.MOCK_DRIVERS
            [reportOn "a" "1" "2024-03-02"; reportOn "b" "2" "2024-03-14"]
            "login" false))
  with
  | App.AdminDashboardView reports drivers =>
      DRIVER = ADMIN
      /\ "5678" =
         StorageService.getAdminPassword
           (StorageService.mkState StorageService.Failing
              StorageService.AnswerError None None
              StorageService.MOCK_DRIVERS)
      /\ reports =
         App.reports
           (App.mkState None StorageService.MOCK_DRIVERS
              [reportOn "a" "1" "2024-03-02"; reportOn "b" "2" "2024-03-14"]
              "login" false)
  | App.DriverDashboardView (Some d) reports =>
      DRIVER = DRIVER /\ Driver.id d = "2" /\ Driver.pin d = "5678"
      /\ reports =
         App.reports
           (App.mkState None StorageService.MOCK_DRIVERS
              [reportOn "a" "1" "2024-03-02"; reportOn "b" "2" "2024-03-14"]
              "login" false)
      /\ forall otherParse tza now dateFilter customStart customEnd,
           Forall (fun r => DailyReport.driverId r = "2")
             (DriverDashboard.myReports otherParse tza now d
                dateFilter customStart customEnd reports)
  | _ => False
  end.
Proof.
  apply (view_after_login DRIVER "2" "5678"
           (StorageService.mkState StorageService.Failing
              StorageService.AnswerError None None
              StorageService.MOCK_DRIVERS)
           (App.mkState None StorageService.MOCK_DRIVERS
              [reportOn "a" "1" "2024-03-02"; reportOn "b" "2" "2024-03-14"]
              "login" false)
           (User.mk "2" "Suresh Raj" DRIVER (Some "TN 38 CS 5678"))).
  - reflexivity.
  - reflexivity.
Defined.

(** ** The other date modes, and what the filter keeps *)

Lemma dateTest_today
    (otherParse : string -> JsDate.timeValue) (tza now : Z)
    (customStart customEnd : string) (r : DailyReport.t) :
  ReportFilter.dateTest otherParse tza now "today" customStart customEnd r =
  JsDate.strictEq
    (ReportFilter.dayStart tza (JsDate.newDate otherParse (DailyReport.date r)))
    (ReportFilter.dayStart tza (Some now)).
Proof. reflexivity. Qed.

Lemma dateTest_year
    (otherParse : string -> JsDate.timeValue) (tza now : Z)
    (customStart customEnd : string) (r : DailyReport.t) :
  ReportFilter.dateTest otherParse tza now "year" customStart customEnd r =
  JsDate.strictEq
    (JsDate.getFullYear tza (JsDate.newDate otherParse (DailyReport.date r)))
    (JsDate.getFullYear tza (Some now)).
Proof. reflexivity. Qed.

Lemma strictEq_dayStart (tza a b : Z) :
  JsDate.strictEq (Some (a * JsDate.msPerDay - tza))
                  (Some (b * JsDate.msPerDay - tza)) = true
  <-> a = b.
Proof.
  unfold JsDate.strictEq, JsDate.msPerDay; rewrite Z.eqb_eq; lia.
Qed.

(** X8: in mode "today" the filter keeps a report exactly when its date is
    a valid date that falls on the local calendar day of today; such a
    report is also kept in the modes "week", "month" and "year".  The years
    of today and of the report are taken outside 0 to 99. *)
Theorem today_filter_same_day
    (otherParse : string -> JsDate.timeValue) (tza now : Z)
    (customStart customEnd : string) (r : DailyReport.t) :
  plainYear tza now = true ->
  (forall t, JsDate.newDate otherParse (DailyReport.date r) = Some t ->
             plainYear tza t = true) ->
  (ReportFilter.dateTest otherParse tza now "today" customStart customEnd r
     = true
   <-> exists t,
         JsDate.newDate otherParse (DailyReport.date r) = Some t
         /\ JsDate.localDay tza t = JsDate.localDay tza now)
  /\ (ReportFilter.dateTest otherParse tza now "today" customStart customEnd r
        = true ->
      ReportFilter.dateTest otherParse tza now "week" customStart customEnd r
        = true
      /\ ReportFilter.dateTest otherParse tza now "month" customStart customEnd r
           = true
      /\ ReportFilter.dateTest otherParse tza now "year" customStart customEnd r
           = true).
Proof.
  intros Hn Hr.
  assert (I : ReportFilter.dateTest otherParse tza now "today"
                customStart customEnd r = true
              <-> exists t,
                    JsDate.newDate otherParse (DailyReport.date r) = Some t
                    /\ JsDate.localDay tza t = JsDate.localDay tza now).
  { rewrite dateTest_today, (dayStart_plain tza now Hn).
    destruct (JsDate.newDate otherParse (DailyReport.date r)) as [t|] eqn:E.
    - rewrite (dayStart_plain tza t (Hr t eq_refl)), strictEq_dayStart; split.
      + intros H; exists t; now split.
      + intros [t' [[= <-] H]]; exact H.
    - split; [discriminate|]. intros [t [H _]]; discriminate. }
  split; [exact I|].
  intros H; apply I in H; destruct H as (t & E & D).
  rewrite dateTest_week, dateTest_month, dateTest_year, E.
  rewrite (dayStart_plain tza now Hn), (dayStart_plain tza t (Hr t E)), D.
  cbn [JsDate.getMonth JsDate.getFullYear option_map JsDate.strictEq].
  rewrite D, !Z.eqb_refl; repeat split.
  change 604800000 with (7 * JsDate.msPerDay).
  apply geb_dayStart; lia.
Qed.

Lemma today_filter_same_day_witness :
  (ReportFilter.dateTest noOtherParse IST morning_2024_03_15 "today" "" ""
     (reportOn "r1" "1" "2024-03-15") = true
   <-> exists t,
         JsDate.newDate noOtherParse
           (DailyReport.date (reportOn "r1" "1" "2024-03-15")) = Some t
         /\ JsDate.localDay IST t = JsDate.localDay IST morning_2024_03_15)
  /\ (ReportFilter.dateTest noOtherParse IST morning_2024_03_15 "today" "" ""
        (reportOn "r1" "1" "2024-03-15") = true ->
      ReportFilter.dateTest noOtherParse IST morning_2024_03_15 "week" "" ""
        (reportOn "r1" "1" "2024-03-15") = true
      /\ ReportFilter.dateTest noOtherParse IST morning_2024_03_15 "month" "" ""
           (reportOn "r1" "1" "2024-03-15") = true
      /\ ReportFilter.dateTest noOtherParse IST morning_2024_03_15 "year" "" ""
           (reportOn "r1" "1" "2024-03-15") = true).
Proof.
  apply (today_filter_same_day noOtherParse IST morning_2024_03_15 "" ""
           (reportOn "r1" "1" "2024-03-15")).
  - vm_compute; reflexivity.
  - intros t H; vm_compute in H; injection H as <-; vm_compute; reflexivity.
Defined.

(** X9: in mode "year" the filter keeps a report exactly when its date is
    a valid date in the local calendar year of today; every report kept in
    mode "month" is kept in mode "year"; and a mode that is none of
    "today", "week", "month", "year" and "custom" (such as "all") keeps
    every report, a report with an invalid date included. *)
Theorem year_and_all_modes
    (otherParse : string -> JsDate.timeValue) (tza now : Z)
    (dateFilter customStart customEnd : string) (r : DailyReport.t) :
  (ReportFilter.dateTest otherParse tza now "year" customStart customEnd r
     = true
   <-> exists t,
         JsDate.newDate otherParse (DailyReport.date r) = Some t
         /\ JsDate.YearFromDay (JsDate.localDay tza t) =
            JsDate.YearFromDay (JsDate.localDay tza now))
  /\ (ReportFilter.dateTest otherParse tza now "month" customStart customEnd r
        = false
      \/ ReportFilter.dateTest otherParse tza now "year" customStart customEnd r
           = true)
  /\ ReportFilter.dateTest otherParse tza now "all" customStart customEnd r
       = true
  /\ (ReportFilter.dateTest otherParse tza now dateFilter customStart customEnd r
        = true
      \/ In dateFilter ["today"; "week"; "month"; "year"; "custom"]).
Proof.
  split; [|split; [|split; [reflexivity|]]].
  - rewrite dateTest_year.
    destruct (JsDate.newDate otherParse (DailyReport.date r)) as [t|] eqn:E;
      cbn [JsDate.getFullYear option_map JsDate.strictEq].
    + rewrite Z.eqb_eq; split.
      * intros H; exists t; now split.
      * intros [t' [[= <-] H]]; exact H.
    + split; [discriminate|]. intros [t [H _]]; discriminate.
  - rewrite dateTest_month, dateTest_year.
    destruct (JsDate.strictEq (JsDate.getFullYear tza _) _);
      [now right | left; apply andb_false_r].
  - unfold ReportFilter.dateTest.
    destruct (String.eqb_spec dateFilter "today") as [->|]; [right; simpl; tauto|].
    destruct (String.eqb_spec dateFilter "week") as [->|]; [right; simpl; tauto|].
    destruct (String.eqb_spec dateFilter "month") as [->|]; [right; simpl; tauto|].
    destruct (String.eqb_spec dateFilter "year") as [->|]; [right; simpl; tauto|].
    destruct (String.eqb_spec dateFilter "custom") as [->|]; [right; simpl; tauto|].
    now left.
Qed.

Section SortPermutation.

Context {A : Type}.
Variable comparefn : A -> A -> option Z.

Lemma insert_Permutation (x : A) (l : list A) :
  Permutation (JsArray.insert comparefn x l) (x :: l).
Proof.
  induction l as [|y l IH]; simpl; [reflexivity|].
  destruct (0 <? JsArray.sortCompare comparefn x y); [|reflexivity].
  rewrite IH; apply perm_swap.
Qed.

Lemma sort_Permutation (l : list A) :
  Permutation (JsArray.sort comparefn l) l.
Proof.
  induction l as [|x l IH]; simpl; [reflexivity|].
  rewrite insert_Permutation; now constructor.
Qed.

End SortPermutation.

(** X10: the filter of the admin dashboard returns, in another order, the
    reports it was given that pass the driver selection ("all", or the
    identifier of the report's driver) and the date test: none is lost,
    none is repeated, none is added.  With "all" drivers and the date mode
    "all" these are all the reports.  The filter of the driver dashboard
    returns likewise the reports of the driver that pass the date test. *)
Theorem filters_keep_exactly
    (otherParse : string -> JsDate.timeValue) (tza now : Z)
    (driver : Driver.t)
    (filterDriver dateFilter customStart customEnd : string)
    (reports : list DailyReport.t) :
  Permutation
    (AdminDashboard.filteredReports otherParse tza now filterDriver
       dateFilter customStart customEnd reports)
    (List.filter
       (fun r =>
          ((filterDriver =? "all")%string
           || (DailyReport.driverId r =? filterDriver)%string)
          && ReportFilter.dateTest otherParse tza now
               dateFilter customStart customEnd r)
       reports)
  /\ Permutation
       (AdminDashboard.filteredReports otherParse tza now "all"
          "all" customStart customEnd reports)
       reports
  /\ Permutation
       (DriverDashboard.myReports otherParse tza now driver
          dateFilter customStart customEnd reports)
       (List.filter
          (fun r =>
             (DailyReport.driverId r =? Driver.id driver)%string
             && ReportFilter.dateTest otherParse tza now
                  dateFilter customStart customEnd r)
          reports).
Proof.
  split; [|split].
  - unfold AdminDashboard.filteredReports; rewrite sort_Permutation.
    erewrite filter_ext; [reflexivity|].
    intros r; unfold AdminDashboard.keep.
    destruct (filterDriver =? "all")%string,
      (DailyReport.driverId r =? filterDriver)%string; reflexivity.
  - unfold AdminDashboard.filteredReports; rewrite sort_Permutation.
    erewrite filter_ext with (g := fun _ => true); [|reflexivity].
    induction reports as [|r l IH]; simpl; [reflexivity | now constructor].
  - unfold DriverDashboard.myReports; rewrite sort_Permutation.
    erewrite filter_ext; [reflexivity|].
    intros r; unfold DriverDashboard.keep.
    destruct (DailyReport.driverId r =? Driver.id driver)%string; reflexivity.
Qed.

(** ** The inputs of the report form *)

Lemma filter_numeric_id (s : string) :
  forallb isNumericChar s = true -> filter isNumericChar s = s.
Proof.
  induction s as [|c r IH]; simpl; [reflexivity|].
  intros H; apply andb_prop in H as [Hc Hr]; now rewrite Hc, IH.
Qed.

Lemma accepted_numeric (val : string) :
  ReportForm.accepted val = true -> forallb isNumericChar val = true.
Proof.
  unfold ReportForm.accepted; destruct val; [reflexivity|].
  cbn [isEmpty orb]; auto.
Qed.

Lemma onChange_numeric (st : ReportForm.State) (ev : ReportForm.Event) :
  List.forallb (forallb isNumericChar) (amountFields st) = true ->
  List.forallb (forallb isNumericChar)
    (amountFields (ReportForm.onChange st ev)) = true.
Proof.
  intros H; unfold amountFields in *; cbn [List.forallb] in *.
  repeat (apply andb_prop in H; destruct H as [? H]).
  destruct ev as [v|v|v|v|f v|f v|v]; cbn [ReportForm.onChange];
    try (destruct (ReportForm.accepted v) eqn:Acc;
         [apply accepted_numeric in Acc|]);
    try destruct f; cbn;
    repeat (apply andb_true_intro; split); auto.
Qed.

(** X11: whatever is typed, in whatever order, the distance and the eight
    amounts of the report form only ever hold digits and decimal points (a
    value with another character is not taken); on such a field the parser
    has nothing to strip, and returns what [parseFloat] reads in the text
    before its second point, or 0. *)
Theorem form_amounts_stay_numeric
    (today : string) (events : list ReportForm.Event) :
  let st := fold_left ReportForm.onChange events
              (ReportForm.initialState today) in
  List.forallb (forallb isNumericChar) (amountFields st) = true
  /\ Forall (fun s => ReportForm.getVal (JsStr s) =
                      orZero (parseFloat (beforeSecondDot s)))
       (amountFields st).
Proof.
  intros st.
  assert (N : List.forallb (forallb isNumericChar) (amountFields st) = true).
  { subst st; generalize (ReportForm.initialState today) (eq_refl :
      List.forallb (forallb isNumericChar)
        (amountFields (ReportForm.initialState today)) = true).
    induction events as [|ev l IH]; intros s0 H0; [exact H0|].
    cbn [fold_left]; apply IH, onChange_numeric, H0. }
  split; [exact N|].
  apply Forall_forall; intros s Hs.
  rewrite forallb_forall in N; specialize (N s Hs).
  now rewrite ReportForm_getVal_string, (filter_numeric_id s N).
Qed.

(** ** The totals of the dashboards *)

Lemma fold_add_nonneg {A : Type} (f : A -> number) (l : list A) (acc : number) :
  nonNegative acc = true ->
  Forall (fun r => nonNegative (f r) = true) l ->
  nonNegative (fold_left (fun a r => add a (f r)) l acc) = true.
Proof.
  revert acc; induction l as [|r l IH]; intros acc Ha Hl; [exact Ha|].
  inversion Hl; subst; cbn [fold_left].
  apply IH; [now apply add_nonneg | assumption].
Qed.

Lemma handleSubmit_amounts (x : Submission) :
  List.forallb nonNegative (amounts (submit x)) = true.
Proof.
  destruct x as [[[driver uuid] now] st].
  unfold submit, amounts, ReportForm.handleSubmit, ReportForm.totalIncome,
    ReportForm.totalExpenses, ReportForm.driverSalary; simpl.
  repeat (apply andb_true_intro; split); try reflexivity;
    repeat apply add_nonneg; apply ReportForm_getVal_nonneg.
Qed.

Lemma handleUpdateReport_amounts (nts : number -> string)
    (er : EditingReport.t) :
  List.forallb nonNegative (amounts (Dashboard.handleUpdateReport nts er)) = true.
Proof.
  unfold amounts, Dashboard.handleUpdateReport; simpl.
  repeat (apply andb_true_intro; split); try reflexivity;
    repeat apply add_nonneg; apply Dashboard_getVal_nonneg.
Qed.

Lemma amounts_fields (r : DailyReport.t) :
  List.forallb nonNegative (amounts r) = true ->
  nonNegative (DailyReport.totalIncome r) = true
  /\ nonNegative (DailyReport.totalExpenses r) = true
  /\ nonNegative (orZero (DailyReport.driverSalary r)) = true
  /\ nonNegative (ExpenseBreakdown.fuel (DailyReport.expenses r)) = true
  /\ nonNegative (ExpenseBreakdown.maintenance (DailyReport.expenses r)) = true
  /\ nonNegative (ExpenseBreakdown.toll (DailyReport.expenses r)) = true
  /\ nonNegative (ExpenseBreakdown.other (DailyReport.expenses r)) = true.
Proof.
  unfold amounts; cbn [List.forallb]; intros H.
  repeat (apply andb_prop in H; destruct H as [? H]).
  repeat split; auto. apply orZero_nonneg; now right.
Qed.

(** X12: over any reports that come from the report form or from the edit
    dialog of a dashboard, the totals of both dashboards (revenue, trip
    expenses, salary, and the sums of fuel, maintenance, toll and other
    expenses) are at least 0, never NaN. *)
Theorem dashboard_totals_nonNegative
    (numberToString : number -> string)
    (created : list Submission) (edited : list EditingReport.t) :
  let shown :=
    (List.map submit created
     ++ List.map (Dashboard.handleUpdateReport numberToString) edited)%list in
  List.forallb nonNegative
    [ AdminDashboard.totalIncome shown;
      AdminDashboard.totalTripExpenses shown;
      AdminDashboard.totalSalary shown;
      AdminDashboard.rawFuel shown;
      AdminDashboard.rawMaint shown;
      AdminDashboard.rawToll shown;
      AdminDashboard.rawOther shown;
      AdminDashboard.calculatedTripExpensesOnly shown;
      DriverDashboard.totalIncome shown;
      DriverDashboard.totalExpenses shown;
      DriverDashboard.totalSalary shown ] = true.
Proof.
  intros shown.
  assert (H : Forall (fun r => List.forallb nonNegative (amounts r) = true)
                shown).
  { subst shown; apply Forall_app; split; apply Forall_forall; intros r Hr;
      apply in_map_iff in Hr; destruct Hr as [x [<- _]].
    - apply handleSubmit_amounts.
    - apply handleUpdateReport_amounts. }
  assert (F : forall f : DailyReport.t -> number,
             (forall r, List.forallb nonNegative (amounts r) = true ->
                        nonNegative (f r) = true) ->
             nonNegative (fold_left (fun a r => add a (f r)) shown posZero)
               = true).
  { intros f Hf; apply fold_add_nonneg; [reflexivity|].
    eapply Forall_impl; [|exact H]. exact Hf. }
  cbn [List.forallb].
  unfold AdminDashboard.calculatedTripExpensesOnly.
  repeat (apply andb_true_intro; split); try reflexivity;
    repeat apply add_nonneg;
    apply F; intros r Hr; apply amounts_fields in Hr; tauto.
Qed.

(** ** The data of the charts *)

Section SortGeneric.

Context {A : Type}.
Variable comparefn : A -> A -> option Z.
Variable P : A -> Prop.
Variable R : A -> A -> Prop.

Hypothesis after_when_positive :
  forall x y, P x -> P y -> 0 < JsArray.sortCompare comparefn x y -> R y x.
Hypothesis before_otherwise :
  forall x y, P x -> P y -> JsArray.sortCompare comparefn x y <= 0 -> R x y.

Lemma insert_HdRel_gen (x y : A) (l : list A) :
  R y x -> HdRel R y l -> HdRel R y (JsArray.insert comparefn x l).
Proof.
  intros Hyx H; destruct l as [|z l]; simpl; [now constructor|].
  inversion H; subst.
  destruct (0 <? JsArray.sortCompare comparefn x z); now constructor.
Qed.

Lemma insert_Sorted_gen (x : A) (l : list A) :
  P x -> Forall P l -> Sorted R l -> Sorted R (JsArray.insert comparefn x l).
Proof.
  intros Hx Hl Hs; induction l as [|y l IH]; simpl.
  - constructor; constructor.
  - inversion Hl as [|? ? Hy Hl']; inversion Hs as [|? ? Hs' Hd]; subst.
    destruct (Z.ltb_spec 0 (JsArray.sortCompare comparefn x y)).
    + constructor; [now apply IH|].
      apply insert_HdRel_gen; [|exact Hd]. now apply after_when_positive.
    + constructor; [exact Hs|]. constructor. now apply before_otherwise.
Qed.

Lemma sort_Sorted_gen (l : list A) :
  Forall P l -> Sorted R (JsArray.sort comparefn l).
Proof.
  induction l as [|x l IH]; intros H; simpl; [constructor|].
  inversion H; subst.
  apply insert_Sorted_gen; auto. now apply sort_Forall.
Qed.

End SortGeneric.

Lemma StronglySorted_snoc {A : Type} (R : A -> A -> Prop) (l : list A) (x : A) :
  StronglySorted R l -> Forall (fun y => R y x) l ->
  StronglySorted R (l ++ [x])%list.
Proof.
  induction 1 as [|y l Hs IH Hy]; intros H; simpl.
  - constructor; constructor.
  - inversion H; subst. constructor; [now apply IH|].
    apply Forall_app; split; [exact Hy | now constructor].
Qed.

Lemma StronglySorted_rev {A : Type} (R : A -> A -> Prop) (l : list A) :
  StronglySorted R l -> StronglySorted (fun a b => R b a) (List.rev l).
Proof.
  induction 1 as [|y l Hs IH Hy]; simpl; [constructor|].
  apply StronglySorted_snoc; [exact IH|].
  apply Forall_forall; intros z Hz; apply in_rev in Hz.
  rewrite Forall_forall in Hy; now apply Hy.
Qed.

Lemma StronglySorted_split {A : Type} (R : A -> A -> Prop) (k : nat)
    (l : list A) :
  StronglySorted R l ->
  StronglySorted R (skipn k l)
  /\ forall a b, In a (firstn k l) -> In b (skipn k l) -> R a b.
Proof.
  revert l; induction k as [|k IH]; intros l H.
  - split; [exact H | intros a b []].
  - destruct l as [|x l]; [split; [constructor | intros a b []]|].
    inversion H as [|? ? Hs Hx]; subst.
    destruct (IH l Hs) as [S1 S2]; split; [exact S1|].
    cbn [firstn skipn]; intros a b [<- | Ha] Hb.
    + rewrite Forall_forall in Hx; apply Hx.
      rewrite <- (firstn_skipn k l); apply in_or_app; now right.
    + now apply S2.
Qed.

Lemma notAfter_trans (otherParse : string -> JsDate.timeValue) :
  transitive _ (notAfter otherParse).
Proof.
  intros a b c H1 H2; unfold notAfter in *.
  exact (notBefore_trans otherParse c b a H2 H1).
Qed.

Lemma trend_sorted (otherParse : string -> JsDate.timeValue)
    (shown : list DailyReport.t) :
  Forall (validDate otherParse) shown ->
  StronglySorted (notAfter otherParse)
    (JsArray.sort (AdminDashboard.byDateAsc otherParse) shown).
Proof.
  intros H; apply Sorted_StronglySorted; [apply notAfter_trans|].
  apply (sort_Sorted_gen _ (validDate otherParse)); [| |exact H];
    intros x y Hx Hy; unfold validDate in Hx, Hy;
    unfold JsArray.sortCompare, AdminDashboard.byDateAsc, notAfter, notBefore;
    destruct (JsDate.newDate otherParse (DailyReport.date x)) as [tx|];
    try congruence;
    destruct (JsDate.newDate otherParse (DailyReport.date y)) as [ty|];
    try congruence; intros L.
  - exists tx, ty; repeat split; lia.
  - exists ty, tx; repeat split; lia.
Qed.

(** X13: the trend chart of the admin dashboard shows 14 of the filtered
    reports at most (all of them when there are fewer), from the oldest to
    the most recent, and the reports it leaves out are dated no later than
    every report it shows.  The dates of the reports are taken to be valid
    dates. *)
Theorem trendData_most_recent
    (otherParse : string -> JsDate.timeValue)
    (dateLabel : JsDate.timeValue -> string) (shown : list DailyReport.t) :
  Forall (validDate otherParse) shown ->
  let trend := AdminDashboard.trendReports otherParse shown in
  List.length (AdminDashboard.trendData otherParse dateLabel shown) =
    Nat.min 14 (List.length shown)
  /\ StronglySorted (notAfter otherParse) trend
  /\ incl trend shown
  /\ (forall a b, In a shown -> ~ In a trend -> In b trend ->
                  notAfter otherParse a b).
Proof.
  intros V trend; subst trend.
  unfold AdminDashboard.trendData, AdminDashboard.trendReports,
    AdminDashboard.lastFourteen.
  set (L := JsArray.sort (AdminDashboard.byDateAsc otherParse) shown).
  assert (PL : Permutation L shown) by apply sort_Permutation.
  assert (Len : List.length L = List.length shown)
    by now apply Permutation_length.
  destruct (StronglySorted_split (notAfter otherParse)
              (List.length L - 14) L (trend_sorted otherParse shown V))
    as [S1 S2].
  split; [|split; [exact S1|split]].
  - rewrite length_map, length_skipn, Len; lia.
  - intros r Hr. apply (Permutation_in r PL).
    rewrite <- (firstn_skipn (List.length L - 14) L).
    apply in_or_app; now right.
  - intros a b Ha Hn Hb. apply S2; [|exact Hb].
    apply (Permutation_in a (Permutation_sym PL)) in Ha.
    rewrite <- (firstn_skipn (List.length L - 14) L) in Ha.
    apply in_app_or in Ha; destruct Ha as [Ha|Ha]; [exact Ha | contradiction].
Qed.

Lemma trendData_most_recent_witness :
  List.length
    (AdminDashboard.trendData noOtherParse (fun _ => "")
       [reportOn "a" "1" "2024-03-02"; reportOn "b" "2" "2024-03-14";
        reportOn "c" "1" "2024-02-28"]) =
    Nat.min 14
      (List.length
         [reportOn "a" "1" "2024-03-02"; reportOn "b" "2" "2024-03-14";
          reportOn "c" "1" "2024-02-28"])
  /\ StronglySorted (notAfter noOtherParse)
       (AdminDashboard.trendReports noOtherParse
          [reportOn "a" "1" "2024-03-02"; reportOn "b" "2" "2024-03-14";
           reportOn "c" "1" "2024-02-28"])
  /\ incl
       (AdminDashboard.trendReports noOtherParse
          [reportOn "a" "1" "2024-03-02"; reportOn "b" "2" "2024-03-14";
           reportOn "c" "1" "2024-02-28"])
       [reportOn "a" "1" "2024-03-02"; reportOn "b" "2" "2024-03-14";
        reportOn "c" "1" "2024-02-28"]
  /\ (forall a b,
        In a [reportOn "a" "1" "2024-03-02"; reportOn "b" "2" "2024-03-14";
              reportOn "c" "1" "2024-02-28"] ->
        ~ In a (AdminDashboard.trendReports noOtherParse
                  [reportOn "a" "1" "2024-03-02"; reportOn "b" "2" "2024-03-14";
                   reportOn "c" "1" "2024-02-28"]) ->
        In b (AdminDashboard.trendReports noOtherParse
                [reportOn "a" "1" "2024-03-02"; reportOn "b" "2" "2024-03-14";
                 reportOn "c" "1" "2024-02-28"]) ->
        notAfter noOtherParse a b).
Proof.
  apply (trendData_most_recent noOtherParse (fun _ => "")
           [reportOn "a" "1" "2024-03-02"; reportOn "b" "2" "2024-03-14";
            reportOn "c" "1" "2024-02-28"]).
  repeat constructor; vm_compute; discriminate.
Defined.

(** X14: the chart of the driver dashboard runs from the oldest report to
    the most recent: the reports behind its points are the listed reports
    of the driver in reverse order, each dated no later than every one
    after it.  The dates of the reports are taken to be valid dates. *)
Theorem chartData_oldest_first
    (otherParse : string -> JsDate.timeValue) (tza now : Z)
    (driver : Driver.t) (dateFilter customStart customEnd : string)
    (reports : list DailyReport.t) :
  Forall (validDate otherParse) reports ->
  let listed :=
    DriverDashboard.myReports otherParse tza now driver
      dateFilter customStart customEnd reports in
  StronglySorted (notAfter otherParse) (DriverDashboard.chartReports listed)
  /\ Permutation (DriverDashboard.chartReports listed) listed.
Proof.
  intros V listed; split.
  - apply (StronglySorted_rev (notBefore otherParse)).
    apply sort_StronglySorted, Forall_filter, V.
  - apply Permutation_sym, Permutation_rev.
Qed.

Lemma chartData_oldest_first_witness :
  StronglySorted (notAfter noOtherParse)
    (DriverDashboard.chartReports
       (DriverDashboard.myReports noOtherParse IST morning_2024_03_15
          (Driver.mk "1" "Ramesh Kumar" "TN 38 BR 1234" "1234" None)
          "month" "" ""
          [reportOn "a" "1" "2024-03-02"; reportOn "b" "2" "2024-03-14";
           reportOn "d" "1" "2024-03-09"]))
  /\ Permutation
       (DriverDashboard.chartReports
          (DriverDashboard.myReports noOtherParse IST morning_2024_03_15
             (Driver.mk "1" "Ramesh Kumar" "TN 38 BR 1234" "1234" None)
             "month" "" ""
             [reportOn "a" "1" "2024-03-02"; reportOn "b" "2" "2024-03-14";
              reportOn "d" "1" "2024-03-09"]))
       (DriverDashboard.myReports noOtherParse IST morning_2024_03_15
          (Driver.mk "1" "Ramesh Kumar" "TN 38 BR 1234" "1234" None)
          "month" "" ""
          [reportOn "a" "1" "2024-03-02"; reportOn "b" "2" "2024-03-14";
           reportOn "d" "1" "2024-03-09"]).
Proof.
  apply (chartData_oldest_first noOtherParse IST morning_2024_03_15
           (Driver.mk "1" "Ramesh Kumar" "TN 38 BR 1234" "1234" None)
           "month" "" ""
           [reportOn "a" "1" "2024-03-02"; reportOn "b" "2" "2024-03-14";
            reportOn "d" "1" "2024-03-09"]).
  repeat constructor; vm_compute; discriminate.
Defined.

(** ** The time of day on the dashboards *)

Lemma digit_cases (c : ascii) :
  isDigit c = true ->
  In c ["0"; "1"; "2"; "3"; "4"; "5"; "6"; "7"; "8"; "9"]%char.
Proof.
  destruct c as [b0 b1 b2 b3 b4 b5 b6 b7].
  destruct b0, b1, b2, b3, b4, b5, b6, b7; vm_compute; intros H;
    try discriminate H; tauto.
Qed.

Lemma digit_notColon (c : ascii) : isDigit c = true -> Ascii.eqb c ":" = false.
Proof.
  intros H; apply digit_cases in H; simpl in H.
  repeat (destruct H as [<- | H]; [reflexivity|]); contradiction.
Qed.

Lemma split_after_piece (h rest : string) :
  forallb notColon h = true ->
  split ":" (h ++ String ":" rest) = h :: split ":" rest.
Proof.
  induction h as [|c r IH]; simpl; [reflexivity|].
  intros H; apply andb_prop in H; destruct H as [Hc Hr].
  unfold notColon in Hc; apply negb_true_iff in Hc.
  rewrite Hc, (IH Hr); reflexivity.
Qed.

Lemma digits_notColon (s : string) :
  forallb isDigit s = true -> forallb notColon s = true.
Proof.
  induction s as [|c r IH]; simpl; [reflexivity|].
  intros H; apply andb_prop in H; destruct H as [Hc Hr].
  unfold notColon at 1; rewrite (digit_notColon c Hc); simpl; auto.
Qed.

Lemma split_head (s : string) :
  exists tl, split ":" s = takeWhile notColon s :: tl.
Proof.
  induction s as [|c r [tl IH]]; simpl; [now exists []|].
  unfold notColon at 1; destruct (Ascii.eqb c ":"); simpl.
  - now exists (split ":" r).
  - rewrite IH; now exists tl.
Qed.

Lemma digitsValue_lower (s : string) (acc : Z) :
  forallb isDigit s = true -> 0 <= acc -> acc <= digitsValue acc s.
Proof.
  revert acc; induction s as [|c r IH]; cbn [digitsValue forallb];
    intros acc H Ha; [lia|].
  apply andb_prop in H; destruct H as [Hc Hr].
  assert (0 <= digitValue c).
  { apply digit_cases in Hc; simpl in Hc.
    repeat (destruct Hc as [<- | Hc]; [vm_compute; discriminate|]);
      contradiction. }
  assert (L := IH (10 * acc + digitValue c) Hr ltac:(lia)); lia.
Qed.

Lemma parseInt_digits (hh : string) :
  hh <> "" -> forallb isDigit hh = true ->
  parseInt hh =
    if digitsValue 0 hh =? 0 then S754_zero false else ofZ (digitsValue 0 hh).
Proof.
  destruct hh as [|c r]; [congruence|]; intros _ H.
  assert (T : takeWhile isDigit (String c r) = String c r)
    by now apply takeWhile_all.
  simpl in H; apply andb_prop in H; destruct H as [Hc Hr].
  assert (X : match r with
              | String d _ => Ascii.eqb d "x" || Ascii.eqb d "X"
              | EmptyString => false
              end = false).
  { destruct r as [|d r']; [reflexivity|].
    simpl in Hr; apply andb_prop in Hr; destruct Hr as [Hd _].
    apply digit_cases in Hd; simpl in Hd.
    repeat (destruct Hd as [<- | Hd]; [reflexivity|]); contradiction. }
  apply digit_cases in Hc; simpl in Hc.
  repeat (destruct Hc as [<- | Hc];
          [unfold parseInt;
           match goal with
           | |- context [dropWhile isWhiteSpace (String ?c r)] =>
               change (dropWhile isWhiteSpace (String c r)) with (String c r)
           end;
           cbv beta iota zeta; try rewrite !X;
           destruct r; cbv beta iota; rewrite T; reflexivity|]).
  contradiction.
Qed.

Lemma hour_reading (h : Z) :
  0 < h < 100 ->
  geb (ofZ h) (ofZ 12) = negb (h <? 12)
  /\ (if truthy (rem (ofZ h) (ofZ 12)) then rem (ofZ h) (ofZ 12)
      else ofZ 12) = ofZ (clockHour h).
Proof.
  intros H; destruct h as [|p|p]; try lia.
  do 7 (try (destruct p as [p|p|]; try lia)).
  all: vm_compute; split; reflexivity.
Qed.



(** X15: a time of day written as an hour below 100 in digits, a colon
    and the rest shows as the hour of the 12-hour clock (12 at the hours
    0, 12, 24, ...), a colon, the rest up to its next colon, and AM
    before the hour 12, PM from it on. *)
Theorem formatTime_clock (numberToString : number -> string)
    (hh rest : string) :
  hh <> "" -> forallb isDigit hh = true -> digitsValue 0 hh < 100 ->
  Dashboard.formatTime numberToString (hh ++ ":" ++ rest) =
    (numberToString (ofZ (clockHour (digitsValue 0 hh)))
     ++ ":" ++ takeWhile notColon rest ++ " "
     ++ (if (digitsValue 0 hh <? 12)%Z then "AM" else "PM"))%string.
Proof.
  intros Hne Hd Hlt; unfold Dashboard.formatTime.
  replace (isEmpty (hh ++ ":" ++ rest)) with false
    by (destruct hh; [congruence | reflexivity]).
  change (":" ++ rest)%string with (String ":" rest).
  rewrite (split_after_piece hh rest (digits_notColon hh Hd)).
  destruct (split_head rest) as [tl ->].
  cbv beta iota zeta; rewrite (parseInt_digits hh Hne Hd).
  assert (L := digitsValue_lower hh 0 Hd ltac:(lia)).
  destruct (Z.eqb_spec (digitsValue 0 hh) 0) as [E|E].
  - rewrite E; reflexivity.
  - destruct (hour_reading (digitsValue 0 hh) ltac:(lia)) as [G R].
    rewrite G, R; destruct (digitsValue 0 hh <? 12); reflexivity.
Qed.

Lemma formatTime_clock_witness :
  Dashboard.formatTime (fun _ => "1") ("13" ++ ":" ++ "05") =
    ((fun _ : number => "1") (ofZ (clockHour (digitsValue 0 "13")))
     ++ ":" ++ takeWhile notColon "05" ++ " "
     ++ (if (digitsValue 0 "13" <? 12)%Z then "AM" else "PM"))%string.
Proof.
  apply (formatTime_clock (fun _ => "1") "13" "05");
    [discriminate | reflexivity | vm_compute; reflexivity].
Defined.



(** ** Whole amounts: the arithmetic of the totals is exact *)

Lemma digits2_size (p : positive) : digits2_pos p = Pos.size p.
Proof. induction p; simpl; congruence. Qed.

Lemma digits2_log2 (p : positive) :
  Z.pos (digits2_pos p) = Z.log2 (Z.pos p) + 1.
Proof.
  rewrite digits2_size; destruct p; simpl; lia.
Qed.

Lemma iter_xO_value (m d : positive) :
  Z.pos (Pos.iter xO m d) = Z.pos m * 2 ^ Z.pos d.
Proof.
  revert m; induction d as [d IH|d IH|]; intros m; simpl Pos.iter.
  - replace (Z.pos d~1) with (Z.pos d + Z.pos d + 1) by lia.
    rewrite Pos2Z.inj_xO, !IH, !Z.pow_add_r by lia. lia.
  - replace (Z.pos d~0) with (Z.pos d + Z.pos d) by lia.
    rewrite !IH, !Z.pow_add_r by lia. lia.
  - lia.
Qed.

Lemma iter_shr_exact (d k : positive) :
  iter_pos shr_1 d
    {| shr_m := Z.pos (Pos.iter xO k d); shr_r := false; shr_s := false |} =
  {| shr_m := Z.pos k; shr_r := false; shr_s := false |}.
Proof.
  revert k; induction d as [d IH|d IH|]; intros k; simpl.
  - now rewrite !IH.
  - now rewrite !IH.
  - reflexivity.
Qed.

Lemma round_aux_canonical (sx : bool) (k : positive) (E : Z) :
  Z.log2 (Z.pos k) = 52 -> -1074 <= E <= 971 ->
  binary_round_aux prec emax sx (Z.pos k) E loc_Exact = S754_finite sx k E.
Proof.
  intros Hk HE.
  assert (F : fexp prec emax (Zdigits2 (Z.pos k) + E) - E = 0).
  { unfold fexp, emin, prec, emax, Zdigits2; rewrite digits2_log2, Hk; lia. }
  unfold binary_round_aux, shr_fexp.
  cbn [shr_record_of_loc]; rewrite F; cbn [shr shr_m loc_of_shr_record round_nearest_even].
  rewrite F; cbn [shr shr_m shr_record_of_loc].
  unfold emax, prec.
  destruct (Z.leb_spec E (1024 - 53)); [reflexivity | lia].
Qed.

Lemma binary_round_exact (sx : bool) (m k : positive) (e E : Z) :
  Z.log2 (Z.pos k) = 52 -> -1074 <= E <= 971 ->
  (e <= E -> Z.pos m = Z.pos k * 2 ^ (E - e)) ->
  (E <= e -> Z.pos k = Z.pos m * 2 ^ (e - E)) ->
  binary_round prec emax sx m e = S754_finite sx k E.
Proof.
  intros Hk HE R1 R2.
  assert (D : Z.pos (digits2_pos m) + e = 53 + E).
  { rewrite digits2_log2.
    destruct (Z.le_ge_cases e E) as [L|L].
    - rewrite (R1 L), Z.log2_mul_pow2 by lia. lia.
    - assert (X := R2 L). apply (f_equal Z.log2) in X.
      rewrite Z.log2_mul_pow2 in X by lia. lia. }
  assert (F : fexp prec emax (Z.pos (digits2_pos m) + e) = E).
  { rewrite D; unfold fexp, emin, prec, emax; lia. }
  unfold binary_round, shl_align; rewrite F.
  destruct (E - e) as [|d|d] eqn:Ed.
  - assert (m = k) as ->.
    { assert (X := R1 ltac:(lia)). try rewrite Ed in X. simpl in X. lia. }
    assert (e = E) as -> by lia.
    now apply round_aux_canonical.
  - assert (m = Pos.iter xO k d) as ->.
    { apply Pos2Z.inj. rewrite iter_xO_value, (R1 ltac:(lia)); try rewrite Ed; reflexivity. }
    unfold binary_round_aux at 1, shr_fexp at 1.
    unfold Zdigits2; rewrite F, Ed.
    cbn [shr_record_of_loc shr]; rewrite iter_shr_exact.
    cbn [shr_m loc_of_shr_record round_nearest_even].
    assert (e + Z.pos d = E) as -> by lia.
    assert (F' : fexp prec emax (Zdigits2 (Z.pos k) + E) - E = 0).
    { unfold fexp, emin, prec, emax, Zdigits2; rewrite digits2_log2, Hk; lia. }
    unfold shr_fexp; rewrite F'; cbn [shr shr_m shr_record_of_loc].
    unfold emax, prec.
    destruct (Z.leb_spec E (1024 - 53)); [reflexivity | lia].
  - assert (Pos.iter xO m d = k) as ->.
    { apply Pos2Z.inj. rewrite iter_xO_value, (R2 ltac:(lia)).
      f_equal. f_equal. lia. }
    now apply round_aux_canonical.
Qed.

Lemma whole_nonzero (z : Z) :
  z <> 0 ->
  whole z = S754_finite (z <? 0)
              (Z.to_pos (Z.abs z * 2 ^ (52 - Z.log2 (Z.abs z))))
              (Z.log2 (Z.abs z) - 52).
Proof. destruct z; [congruence | reflexivity | reflexivity]. Qed.

Lemma log2_below (a : Z) : 0 < a < 2 ^ 53 -> 0 <= Z.log2 a <= 52.
Proof.
  intros H; split; [apply Z.log2_nonneg|].
  assert (Z.log2 a < 53) by (apply Z.log2_lt_pow2; lia). lia.
Qed.

Lemma mantissa_value (a : Z) :
  0 < a < 2 ^ 53 ->
  Z.pos (Z.to_pos (a * 2 ^ (52 - Z.log2 a))) = a * 2 ^ (52 - Z.log2 a)
  /\ Z.log2 (a * 2 ^ (52 - Z.log2 a)) = 52.
Proof.
  intros H; pose proof (log2_below a H) as L.
  assert (0 < 2 ^ (52 - Z.log2 a)) by (apply Z.pow_pos_nonneg; lia).
  split; [apply Z2Pos.id; nia|].
  rewrite Z.log2_mul_pow2 by lia. lia.
Qed.

Lemma round_whole (sx : bool) (m : positive) (e a : Z) :
  e <= 0 -> 0 < a < 2 ^ 53 -> Z.pos m = a * 2 ^ (- e) ->
  binary_round prec emax sx m e =
    S754_finite sx (Z.to_pos (a * 2 ^ (52 - Z.log2 a))) (Z.log2 a - 52).
Proof.
  intros He Ha Hm.
  pose proof (log2_below a Ha) as L.
  destruct (mantissa_value a Ha) as [V K].
  apply binary_round_exact.
  - now rewrite V.
  - lia.
  - intros Le; rewrite V, Hm, <- Z.mul_assoc, <- Z.pow_add_r by lia.
    f_equal; f_equal; lia.
  - intros Le; rewrite V, Hm, <- Z.mul_assoc, <- Z.pow_add_r by lia.
    f_equal; f_equal; lia.
Qed.

Lemma normalize_whole (M e z : Z) :
  e <= 0 -> Z.abs z < 2 ^ 53 -> M = z * 2 ^ (- e) ->
  binary_normalize prec emax M e false = whole z.
Proof.
  intros He Hz HM.
  assert (P : 0 < 2 ^ (- e)) by (apply Z.pow_pos_nonneg; lia).
  destruct (Z.eq_dec z 0) as [->|Nz]; [now subst M|].
  rewrite (whole_nonzero z Nz).
  destruct M as [|m|m]; simpl binary_normalize.
  - nia.
  - assert (0 < z) by nia.
    rewrite (proj2 (Z.ltb_ge z 0)) by lia.
    rewrite (Z.abs_eq z) by lia.
    apply round_whole; [lia | lia | exact HM].
  - assert (z < 0) by nia.
    rewrite (proj2 (Z.ltb_lt z 0)) by lia.
    apply round_whole; [lia | lia |].
    rewrite Z.abs_neq by lia. lia.
Qed.

Lemma ofZ_whole (z : Z) : Z.abs z < 2 ^ 53 -> ofZ z = whole z.
Proof.
  assert (P : forall n, 0 < n < 2 ^ 53 -> ofDecimal n 0 = whole n).
  { intros n Hn; pose proof (log2_below n Hn) as L.
    unfold ofDecimal, ofRatio; cbn [Z.leb Z.compare].
    rewrite Z.pow_0_r, Z.mul_1_r.
    rewrite (proj2 (Z.leb_gt n 0)) by lia.
    change (Z.log2 1) with 0.
    rewrite Z.max_r by lia.
    rewrite Z.div_1_r, Z.mod_1_r; cbn [Z.eqb].
    apply normalize_whole; [lia | lia |].
    replace (- (- (64 + 0 - Z.log2 n) - 1)) with ((64 + 0 - Z.log2 n) + 1) by lia.
    rewrite Z.pow_add_r by lia. lia. }
  intros H; unfold ofZ.
  destruct (Z.ltb_spec z 0).
  - rewrite P by lia. unfold neg.
    rewrite (whole_nonzero (- z)), (whole_nonzero z) by lia.
    cbn [SFopp]. rewrite Z.abs_opp.
    rewrite (proj2 (Z.ltb_lt z 0)), (proj2 (Z.ltb_ge (- z) 0)) by lia.
    reflexivity.
  - destruct (Z.eq_dec z 0) as [->|]; [reflexivity|].
    apply P; lia.
Qed.

Lemma shl_align_value (k : positive) (E ez : Z) :
  ez <= E -> Z.pos (fst (shl_align k E ez)) = Z.pos k * 2 ^ (E - ez).
Proof.
  intros H; unfold shl_align.
  destruct (ez - E) as [|d|d] eqn:D; cbn [fst].
  - replace (E - ez) with 0 by lia. lia.
  - lia.
  - rewrite iter_xO_value. f_equal. f_equal. lia.
Qed.

Lemma signed_part (z ez : Z) :
  z <> 0 -> Z.abs z < 2 ^ 53 -> ez <= Z.log2 (Z.abs z) - 52 -> ez <= 0 ->
  cond_Zopp (z <? 0)
    (Z.pos (fst (shl_align
                   (Z.to_pos (Z.abs z * 2 ^ (52 - Z.log2 (Z.abs z))))
                   (Z.log2 (Z.abs z) - 52) ez))) = z * 2 ^ (- ez).
Proof.
  intros Nz Hz He He0.
  assert (Ha : 0 < Z.abs z < 2 ^ 53) by lia.
  pose proof (log2_below _ Ha) as L.
  destruct (mantissa_value _ Ha) as [V _].
  rewrite shl_align_value, V, <- Z.mul_assoc, <- Z.pow_add_r by lia.
  replace (52 - Z.log2 (Z.abs z) + (Z.log2 (Z.abs z) - 52 - ez)) with (- ez)
    by lia.
  unfold cond_Zopp; destruct (Z.ltb_spec z 0).
  - rewrite Z.abs_neq by lia. lia.
  - rewrite Z.abs_eq by lia. lia.
Qed.

Lemma add_whole (a b : Z) :
  Z.abs a < 2 ^ 53 -> Z.abs b < 2 ^ 53 -> Z.abs (a + b) < 2 ^ 53 ->
  add (whole a) (whole b) = whole (a + b).
Proof.
  intros Ha Hb Hs.
  destruct (Z.eq_dec a 0) as [->|Na].
  { destruct (Z.eq_dec b 0) as [->|Nb]; [reflexivity|].
    rewrite Z.add_0_l, (whole_nonzero b Nb); reflexivity. }
  destruct (Z.eq_dec b 0) as [->|Nb].
  { rewrite Z.add_0_r, (whole_nonzero a Na); reflexivity. }
  rewrite (whole_nonzero a Na), (whole_nonzero b Nb).
  unfold add; cbn [SFadd].
  assert (0 <= Z.log2 (Z.abs a) <= 52) by (apply log2_below; lia).
  assert (0 <= Z.log2 (Z.abs b) <= 52) by (apply log2_below; lia).
  apply normalize_whole; [lia | exact Hs |].
  rewrite !signed_part by lia. lia.
Qed.

Lemma sub_whole (a b : Z) :
  Z.abs a < 2 ^ 53 -> Z.abs b < 2 ^ 53 -> Z.abs (a - b) < 2 ^ 53 ->
  sub (whole a) (whole b) = whole (a - b).
Proof.
  intros Ha Hb Hs.
  destruct (Z.eq_dec b 0) as [->|Nb].
  { rewrite Z.sub_0_r. destruct (Z.eq_dec a 0) as [->|Na]; [reflexivity|].
    rewrite (whole_nonzero a Na); reflexivity. }
  destruct (Z.eq_dec a 0) as [->|Na].
  { rewrite Z.sub_0_l, (whole_nonzero b Nb), (whole_nonzero (- b)) by lia.
    unfold sub; cbn [SFsub whole]. rewrite Z.abs_opp.
    destruct (Z.ltb_spec b 0), (Z.ltb_spec (- b) 0); try lia; reflexivity. }
  rewrite (whole_nonzero a Na), (whole_nonzero b Nb).
  unfold sub; cbn [SFsub].
  assert (0 <= Z.log2 (Z.abs a) <= 52) by (apply log2_below; lia).
  assert (0 <= Z.log2 (Z.abs b) <= 52) by (apply log2_below; lia).
  apply normalize_whole; [lia | exact Hs |].
  rewrite !signed_part by lia. lia.
Qed.

Lemma filter_all (p : ascii -> bool) (s : string) :
  forallb p s = true -> filter p s = s.
Proof.
  induction s as [|c r IH]; simpl; [reflexivity|].
  destruct (p c); simpl; [|discriminate].
  intros H; now rewrite IH.
Qed.

Lemma getVal_whole (s : string) :
  forallb isDigit s = true -> digitsValue 0 s < 2 ^ 53 ->
  ReportForm.getVal (JsStr s) = whole (digitsValue 0 s).
Proof.
  intros Hd Hlt.
  pose proof (digitsValue_lower s 0 Hd ltac:(lia)) as L.
  rewrite getVal_string_digits, (filter_all _ _ (digits_numeric s Hd)).
  unfold parseDigitsDot.
  destruct (takeWhile_all isDigit s Hd) as [-> ->].
  destruct s as [|c r]; [reflexivity|].
  cbn [isEmpty].
  destruct (Z.eq_dec (digitsValue 0 (String c r)) 0) as [->|N];
    [reflexivity|].
  replace (ofDecimal (digitsValue 0 (String c r)) 0)
    with (ofZ (digitsValue 0 (String c r)))
    by (unfold ofZ; now rewrite (proj2 (Z.ltb_ge _ 0)) by lia).
  rewrite ofZ_whole, whole_nonzero by lia. reflexivity.
Qed.

Lemma wholeAmount_spec (s : string) :
  wholeAmount s = true ->
  ReportForm.getVal (JsStr s) = whole (amount s) /\ 0 <= amount s < 2 ^ 50.
Proof.
  unfold wholeAmount, amount; intros H.
  apply andb_prop in H; destruct H as [Hd Hlt]; apply Z.ltb_lt in Hlt.
  pose proof (digitsValue_lower s 0 Hd ltac:(lia)) as L.
  split; [apply getVal_whole; [exact Hd | lia] | lia].
Qed.

Lemma whole_truthy (z : Z) : orZero (whole z) = whole z.
Proof. now destruct z. Qed.

Lemma handleSubmit_whole (x : Submission) :
  List.forallb wholeAmount (moneyFields (snd x)) = true ->
  let r := submit x in
  let st := snd x in
  (DailyReport.totalIncome r = whole (incomeOf st)
   /\ DailyReport.totalExpenses r = whole (tripExpensesOf st + salaryOf st)
   /\ DailyReport.driverSalary r = whole (salaryOf st)
   /\ DailyReport.netProfit r =
        whole (incomeOf st - tripExpensesOf st - salaryOf st))
  /\ (ExpenseBreakdown.fuel (DailyReport.expenses r) =
        whole (amount (ReportForm.fuel (ReportForm.expenses st)))
      /\ ExpenseBreakdown.maintenance (DailyReport.expenses r) =
           whole (amount (ReportForm.maintenance (ReportForm.expenses st)))
      /\ ExpenseBreakdown.toll (DailyReport.expenses r) =
           whole (amount (ReportForm.toll (ReportForm.expenses st)))
      /\ ExpenseBreakdown.other (DailyReport.expenses r) =
           whole (amount (ReportForm.other (ReportForm.expenses st))))
  /\ Forall (fun s => 0 <= amount s < 2 ^ 50) (moneyFields st).
Proof.
  destruct x as [[[driver uuid] now] st]; cbn [snd].
  unfold moneyFields; cbn [List.forallb]; intros H.
  repeat (apply andb_prop in H; destruct H as [?H H]).
  repeat match goal with
         | W : wholeAmount _ = true |- _ =>
             apply wholeAmount_spec in W; destruct W as [?E ?B]
         end.
  cbv zeta; unfold submit, ReportForm.handleSubmit, ReportForm.netProfit,
    ReportForm.totalIncome, ReportForm.totalExpenses, ReportForm.driverSalary,
    incomeOf, tripExpensesOf, salaryOf.
  cbn [DailyReport.totalIncome DailyReport.totalExpenses
       DailyReport.driverSalary DailyReport.netProfit DailyReport.expenses
       ExpenseBreakdown.fuel ExpenseBreakdown.maintenance
       ExpenseBreakdown.toll ExpenseBreakdown.other].
  repeat match goal with
         | E : ReportForm.getVal _ = _ |- _ => rewrite E; clear E
         end.
  rewrite !add_whole by lia.
  rewrite sub_whole by lia.
  repeat split; try reflexivity; try (f_equal; lia).
  repeat constructor; lia.
Qed.

Lemma sumOver_nonneg {A : Type} (f : A -> Z) (l : list A) :
  Forall (fun x => 0 <= f x) l -> 0 <= sumOver f l.
Proof. induction 1; simpl; lia. Qed.

Lemma sumOver_le {A : Type} (f g : A -> Z) (l : list A) :
  Forall (fun x => f x <= g x) l -> sumOver f l <= sumOver g l.
Proof. induction 1; simpl; lia. Qed.

Lemma fold_add_whole (g : DailyReport.t -> number) (nz : Submission -> Z)
    (subs : list Submission) (acc : Z) :
  Forall (fun x => g (submit x) = whole (nz x) /\ 0 <= nz x) subs ->
  0 <= acc -> acc + sumOver nz subs < 2 ^ 53 ->
  fold_left (fun a r => add a (g r)) (map submit subs) (whole acc) =
    whole (acc + sumOver nz subs).
Proof.
  intros H; revert acc; induction H as [|x l [Hx Px] Hl IH]; intros acc Ha Hb.
  - simpl; now rewrite Z.add_0_r.
  - assert (0 <= sumOver nz l).
    { apply sumOver_nonneg. eapply Forall_impl; [|exact Hl]. now intros ? []. }
    cbn [map fold_left sumOver fold_right] in *.
    fold (sumOver nz l) in *.
    rewrite Hx, add_whole by lia.
    rewrite IH by lia. f_equal; lia.
Qed.

(** The total of one report: what the bounds of the sums are stated on. *)
Lemma report_parts_bounded (st : ReportForm.State) :
  Forall (fun s => 0 <= amount s < 2 ^ 50) (moneyFields st) ->
  0 <= incomeOf st /\ 0 <= tripExpensesOf st /\ 0 <= salaryOf st
  /\ 0 <= amount (ReportForm.fuel (ReportForm.expenses st))
  /\ 0 <= amount (ReportForm.maintenance (ReportForm.expenses st))
  /\ 0 <= amount (ReportForm.toll (ReportForm.expenses st))
  /\ 0 <= amount (ReportForm.other (ReportForm.expenses st)).
Proof.
  unfold moneyFields, incomeOf, tripExpensesOf, salaryOf; intros H.
  repeat match goal with
         | F : Forall _ (_ :: _) |- _ => inversion F; clear F; subst
         end.
  lia.
Qed.

(** X17: when the amounts of the report form are typed as whole numbers
    (digits only, each below 2^50), the totals of the submitted report are
    exact: the total income is the sum of the three incomes, the total
    expenses the sum of the four expenses and the salary, the salary is
    the one typed, and the net profit is income less expenses less salary,
    which can be negative. *)
Theorem whole_amounts_exact (driver : Driver.t) (uuid : string)
    (now : number) (st : ReportForm.State) :
  List.forallb wholeAmount (moneyFields st) = true ->
  let r := ReportForm.handleSubmit driver uuid now st in
  DailyReport.totalIncome r = ofZ (incomeOf st)
  /\ DailyReport.totalExpenses r = ofZ (tripExpensesOf st + salaryOf st)
  /\ DailyReport.driverSalary r = ofZ (salaryOf st)
  /\ DailyReport.netProfit r =
       ofZ (incomeOf st - tripExpensesOf st - salaryOf st).
Proof.
  intros H.
  destruct (handleSubmit_whole (driver, uuid, now, st) H)
    as ((T1 & T2 & T3 & T4) & _ & B).
  destruct (report_parts_bounded st B) as (? & ? & ? & _).
  assert (incomeOf st < 2 ^ 52 /\ tripExpensesOf st < 2 ^ 52
          /\ salaryOf st < 2 ^ 50) as (? & ? & ?).
  { revert B; unfold moneyFields, incomeOf, tripExpensesOf, salaryOf; intros B.
    repeat match goal with
           | F : Forall _ (_ :: _) |- _ => inversion F; clear F; subst
           end.
    lia. }
  cbv zeta; cbn [snd] in *; unfold submit in *.
  rewrite !ofZ_whole by lia.
  repeat split; assumption.
Qed.

Lemma whole_amounts_exact_witness :
  let r :=
    ReportForm.handleSubmit
      (Driver.mk "1" "Ramesh Kumar" "TN 38 BR 1234" "1234" None) "id" posZero
      (ReportForm.mkState "2024-03-14" "120" "08:00" "18:00"
         (ReportForm.mkIncomeInput "1500" "" "250")
         (ReportForm.mkExpensesInput "900" "0" "60" "" "1000") "") in
  DailyReport.totalIncome r =
    ofZ (incomeOf
           (ReportForm.mkState "2024-03-14" "120" "08:00" "18:00"
              (ReportForm.mkIncomeInput "1500" "" "250")
              (ReportForm.mkExpensesInput "900" "0" "60" "" "1000") ""))
  /\ DailyReport.totalExpenses r =
       ofZ (tripExpensesOf
              (ReportForm.mkState "2024-03-14" "120" "08:00" "18:00"
                 (ReportForm.mkIncomeInput "1500" "" "250")
                 (ReportForm.mkExpensesInput "900" "0" "60" "" "1000") "")
            + salaryOf
                (ReportForm.mkState "2024-03-14" "120" "08:00" "18:00"
                   (ReportForm.mkIncomeInput "1500" "" "250")
                   (ReportForm.mkExpensesInput "900" "0" "60" "" "1000") ""))
  /\ DailyReport.driverSalary r =
       ofZ (salaryOf
              (ReportForm.mkState "2024-03-14" "120" "08:00" "18:00"
                 (ReportForm.mkIncomeInput "1500" "" "250")
                 (ReportForm.mkExpensesInput "900" "0" "60" "" "1000") ""))
  /\ DailyReport.netProfit r =
       ofZ (incomeOf
              (ReportForm.mkState "2024-03-14" "120" "08:00" "18:00"
                 (ReportForm.mkIncomeInput "1500" "" "250")
                 (ReportForm.mkExpensesInput "900" "0" "60" "" "1000") "")
            - tripExpensesOf
                (ReportForm.mkState "2024-03-14" "120" "08:00" "18:00"
                   (ReportForm.mkIncomeInput "1500" "" "250")
                   (ReportForm.mkExpensesInput "900" "0" "60" "" "1000") "")
            - salaryOf
                (ReportForm.mkState "2024-03-14" "120" "08:00" "18:00"
                   (ReportForm.mkIncomeInput "1500" "" "250")
                   (ReportForm.mkExpensesInput "900" "0" "60" "" "1000") "")).
Proof.
  apply (whole_amounts_exact
           (Driver.mk "1" "Ramesh Kumar" "TN 38 BR 1234" "1234" None) "id"
           posZero
           (ReportForm.mkState "2024-03-14" "120" "08:00" "18:00"
              (ReportForm.mkIncomeInput "1500" "" "250")
              (ReportForm.mkExpensesInput "900" "0" "60" "" "1000") "")).
  vm_compute; reflexivity.
Defined.

Lemma sumOver_add {A : Type} (f g : A -> Z) (l : list A) :
  sumOver (fun x => f x + g x) l = sumOver f l + sumOver g l.
Proof.
  induction l as [|x l IH]; [reflexivity|].
  cbn [sumOver fold_right]; fold (sumOver (fun x => f x + g x) l);
    fold (sumOver f l); fold (sumOver g l); lia.
Qed.

Lemma fold_from_zero (g : DailyReport.t -> number) (nz : Submission -> Z)
    (subs : list Submission) :
  Forall (fun x => g (submit x) = whole (nz x) /\ 0 <= nz x) subs ->
  sumOver nz subs < 2 ^ 53 ->
  fold_left (fun a r => add a (g r)) (map submit subs) posZero =
    whole (sumOver nz subs).
Proof.
  intros H B. apply (fold_add_whole g nz subs 0 H); lia.
Qed.

(** X18: for reports submitted from the form with whole amounts, whose
    amounts add up to less than 2^53 in all, the figures of the two
    dashboards are exact sums: income, expenses (with the salaries, as
    the reports store them), salaries, the trip expenses of the admin
    dashboard and its net profit, which is income less trip expenses less
    salaries. *)
Theorem dashboard_figures_exact (subs : list Submission) :
  Forall (fun x : Submission =>
            List.forallb wholeAmount (moneyFields (snd x)) = true)
         subs ->
  sumOver (fun x : Submission => incomeOf (snd x) + tripExpensesOf (snd x)
                    + salaryOf (snd x)) subs < 2 ^ 53 ->
  let shown := map submit subs in
  let income := sumOver (fun x : Submission => incomeOf (snd x)) subs in
  let trips := sumOver (fun x : Submission => tripExpensesOf (snd x)) subs in
  let salaries := sumOver (fun x : Submission => salaryOf (snd x)) subs in
  (AdminDashboard.totalIncome shown = ofZ income
   /\ AdminDashboard.totalTripExpenses shown = ofZ (trips + salaries)
   /\ AdminDashboard.totalSalary shown = ofZ salaries
   /\ AdminDashboard.calculatedTripExpensesOnly shown = ofZ trips
   /\ AdminDashboard.calculatedNetProfit shown =
        ofZ (income - trips - salaries))
  /\ (DriverDashboard.totalIncome shown = ofZ income
      /\ DriverDashboard.totalExpenses shown = ofZ (trips + salaries)
      /\ DriverDashboard.totalSalary shown = ofZ salaries).
Proof.
  intros W B shown income trips salaries.
  set (total := fun x : Submission =>
                  incomeOf (snd x) + tripExpensesOf (snd x) + salaryOf (snd x))
    in B.
  assert (P : Forall (fun x =>
                let r := submit x in
                let st := snd x in
                (DailyReport.totalIncome r = whole (incomeOf st)
                 /\ DailyReport.totalExpenses r =
                      whole (tripExpensesOf st + salaryOf st)
                 /\ orZero (DailyReport.driverSalary r) = whole (salaryOf st)
                 /\ ExpenseBreakdown.fuel (DailyReport.expenses r) =
                      whole (amount (ReportForm.fuel (ReportForm.expenses st)))
                 /\ ExpenseBreakdown.maintenance (DailyReport.expenses r) =
                      whole (amount (ReportForm.maintenance
                                       (ReportForm.expenses st)))
                 /\ ExpenseBreakdown.toll (DailyReport.expenses r) =
                      whole (amount (ReportForm.toll (ReportForm.expenses st)))
                 /\ ExpenseBreakdown.other (DailyReport.expenses r) =
                      whole (amount (ReportForm.other (ReportForm.expenses st))))
                /\ (0 <= incomeOf st /\ 0 <= tripExpensesOf st
                    /\ 0 <= salaryOf st
                    /\ 0 <= amount (ReportForm.fuel (ReportForm.expenses st))
                    /\ 0 <= amount (ReportForm.maintenance
                                      (ReportForm.expenses st))
                    /\ 0 <= amount (ReportForm.toll (ReportForm.expenses st))
                    /\ 0 <= amount (ReportForm.other (ReportForm.expenses st))))
             subs).
  { eapply Forall_impl; [|exact W]. intros x Hx.
    destruct (handleSubmit_whole x Hx)
      as ((T1 & T2 & T3 & _) & (F1 & F2 & F3 & F4) & Bd).
    cbv zeta in *. rewrite T3, whole_truthy.
    split; [repeat split; assumption | now apply report_parts_bounded]. }
  cbv zeta in P.
  (* every sum below is bounded by the sum of the totals *)
  assert (S : forall nz : Submission -> Z,
             Forall (fun x => 0 <= nz x <= total x) subs ->
             0 <= sumOver nz subs < 2 ^ 53).
  { intros nz H; split.
    - apply sumOver_nonneg. eapply Forall_impl; [|exact H]. intros; simpl in *; lia.
    - apply Z.le_lt_trans with (sumOver total subs); [|exact B].
      apply sumOver_le. eapply Forall_impl; [|exact H]. intros; simpl in *; lia. }
  assert (G : forall (g : DailyReport.t -> number) (nz : Submission -> Z),
             Forall (fun x => g (submit x) = whole (nz x)
                              /\ 0 <= nz x <= total x) subs ->
             fold_left (fun a r => add a (g r)) shown posZero =
               whole (sumOver nz subs)
             /\ 0 <= sumOver nz subs < 2 ^ 53).
  { intros g nz H.
    assert (Hb : 0 <= sumOver nz subs < 2 ^ 53).
    { apply S. eapply Forall_impl; [|exact H]. now intros ? []. }
    split; [|exact Hb].
    apply fold_from_zero; [|lia].
    eapply Forall_impl; [|exact H]. intros x [? ?]; split; [assumption | lia]. }
  destruct (G DailyReport.totalIncome (fun x => incomeOf (snd x)))
    as [GI BI].
  { eapply Forall_impl; [|exact P]. unfold total.
    intros x ((? & _) & ?). split; [assumption | lia]. }
  destruct (G DailyReport.totalExpenses
              (fun x => tripExpensesOf (snd x) + salaryOf (snd x)))
    as [GE BE].
  { eapply Forall_impl; [|exact P]. unfold total.
    intros x ((_ & ? & _) & ?). split; [assumption | lia]. }
  destruct (G (fun r => orZero (DailyReport.driverSalary r))
              (fun x => salaryOf (snd x)))
    as [GS BS].
  { eapply Forall_impl; [|exact P]. unfold total.
    intros x ((_ & _ & ? & _) & ?). split; [assumption | lia]. }
  destruct (G (fun r => ExpenseBreakdown.fuel (DailyReport.expenses r))
              (fun x => amount (ReportForm.fuel (ReportForm.expenses (snd x)))))
    as [GF BF].
  { eapply Forall_impl; [|exact P]. unfold total, tripExpensesOf.
    intros x ((_ & _ & _ & ? & _) & ?). split; [assumption | lia]. }
  destruct (G (fun r => ExpenseBreakdown.maintenance (DailyReport.expenses r))
              (fun x => amount (ReportForm.maintenance
                                  (ReportForm.expenses (snd x)))))
    as [GM BM].
  { eapply Forall_impl; [|exact P]. unfold total, tripExpensesOf.
    intros x ((_ & _ & _ & _ & ? & _) & ?). split; [assumption | lia]. }
  destruct (G (fun r => ExpenseBreakdown.toll (DailyReport.expenses r))
              (fun x => amount (ReportForm.toll (ReportForm.expenses (snd x)))))
    as [GT BT].
  { eapply Forall_impl; [|exact P]. unfold total, tripExpensesOf.
    intros x ((_ & _ & _ & _ & _ & ? & _) & ?). split; [assumption | lia]. }
  destruct (G (fun r => ExpenseBreakdown.other (DailyReport.expenses r))
              (fun x => amount (ReportForm.other (ReportForm.expenses (snd x)))))
    as [GO BO].
  { eapply Forall_impl; [|exact P]. unfold total, tripExpensesOf.
    intros x ((_ & _ & _ & _ & _ & _ & ?) & ?). split; [assumption | lia]. }
  (* the sums of the parts *)
  assert (Split2 : forall f g : Submission -> Z,
             sumOver (fun x : Submission => f x + g x) subs =
             sumOver f subs + sumOver g subs).
  { intros f g; apply sumOver_add. }
  assert (TE : sumOver (fun x : Submission => tripExpensesOf (snd x) + salaryOf (snd x)) subs
               = trips + salaries) by apply Split2.
  assert (TT : total = fun x => (incomeOf (snd x) + tripExpensesOf (snd x))
                                + salaryOf (snd x)) by reflexivity.
  assert (TB : sumOver total subs = income + trips + salaries).
  { rewrite TT, Split2, Split2; reflexivity. }
  assert (TR : trips =
               sumOver (fun x : Submission => amount (ReportForm.fuel
                                           (ReportForm.expenses (snd x)))) subs
               + sumOver (fun x : Submission => amount (ReportForm.maintenance
                                             (ReportForm.expenses (snd x)))) subs
               + sumOver (fun x : Submission => amount (ReportForm.toll
                                             (ReportForm.expenses (snd x)))) subs
               + sumOver (fun x : Submission => amount (ReportForm.other
                                             (ReportForm.expenses (snd x)))) subs).
  { unfold trips, tripExpensesOf. rewrite !Split2. reflexivity. }
  fold income in GI, BI. fold salaries in GS, BS. rewrite TE in GE, BE.
  unfold AdminDashboard.calculatedNetProfit,
    AdminDashboard.calculatedTripExpensesOnly, AdminDashboard.totalIncome,
    AdminDashboard.totalTripExpenses, AdminDashboard.totalSalary,
    AdminDashboard.rawFuel, AdminDashboard.rawMaint, AdminDashboard.rawToll,
    AdminDashboard.rawOther, DriverDashboard.totalIncome,
    DriverDashboard.totalExpenses, DriverDashboard.totalSalary.
  rewrite GI, GE, GS, GF, GM, GT, GO.
  rewrite !add_whole by lia. rewrite <- TR.
  rewrite !sub_whole by lia.
  rewrite !ofZ_whole by lia.
  repeat split; reflexivity.
Qed.

Lemma dashboard_figures_exact_witness :
  let shown :=
    map submit
      [ (Driver.mk "1" "Ramesh Kumar" "TN 38 BR 1234" "1234" None, "a",
         posZero,
         ReportForm.mkState "2024-03-14" "120" "08:00" "18:00"
           (ReportForm.mkIncomeInput "1500" "" "250")
           (ReportForm.mkExpensesInput "900" "0" "60" "" "1000") "");
        (Driver.mk "2" "Suresh Raj" "TN 38 CS 5678" "5678" None, "b",
         posZero,
         ReportForm.mkState "2024-03-15" "80" "09:00" "17:00"
           (ReportForm.mkIncomeInput "700" "300" "")
           (ReportForm.mkExpensesInput "1200" "150" "" "40" "800") "") ] in
  let income :=
    sumOver (fun x : Submission => incomeOf (snd x))
      [ (Driver.mk "1" "Ramesh Kumar" "TN 38 BR 1234" "1234" None, "a",
         posZero,
         ReportForm.mkState "2024-03-14" "120" "08:00" "18:00"
           (ReportForm.mkIncomeInput "1500" "" "250")
           (ReportForm.mkExpensesInput "900" "0" "60" "" "1000") "");
        (Driver.mk "2" "Suresh Raj" "TN 38 CS 5678" "5678" None, "b",
         posZero,
         ReportForm.mkState "2024-03-15" "80" "09:00" "17:00"
           (ReportForm.mkIncomeInput "700" "300" "")
           (ReportForm.mkExpensesInput "1200" "150" "" "40" "800") "") ] in
  let trips :=
    sumOver (fun x : Submission => tripExpensesOf (snd x))
      [ (Driver.mk "1" "Ramesh Kumar" "TN 38 BR 1234" "1234" None, "a",
         posZero,
         ReportForm.mkState "2024-03-14" "120" "08:00" "18:00"
           (ReportForm.mkIncomeInput "1500" "" "250")
           (ReportForm.mkExpensesInput "900" "0" "60" "" "1000") "");
        (Driver.mk "2" "Suresh Raj" "TN 38 CS 5678" "5678" None, "b",
         posZero,
         ReportForm.mkState "2024-03-15" "80" "09:00" "17:00"
           (ReportForm.mkIncomeInput "700" "300" "")
           (ReportForm.mkExpensesInput "1200" "150" "" "40" "800") "") ] in
  let salaries :=
    sumOver (fun x : Submission => salaryOf (snd x))
      [ (Driver.mk "1" "Ramesh Kumar" "TN 38 BR 1234" "1234" None, "a",
         posZero,
         ReportForm.mkState "2024-03-14" "120" "08:00" "18:00"
           (ReportForm.mkIncomeInput "1500" "" "250")
           (ReportForm.mkExpensesInput "900" "0" "60" "" "1000") "");
        (Driver.mk "2" "Suresh Raj" "TN 38 CS 5678" "5678" None, "b",
         posZero,
         ReportForm.mkState "2024-03-15" "80" "09:00" "17:00"
           (ReportForm.mkIncomeInput "700" "300" "")
           (ReportForm.mkExpensesInput "1200" "150" "" "40" "800") "") ] in
  (AdminDashboard.totalIncome shown = ofZ income
   /\ AdminDashboard.totalTripExpenses shown = ofZ (trips + salaries)
   /\ AdminDashboard.totalSalary shown = ofZ salaries
   /\ AdminDashboard.calculatedTripExpensesOnly shown = ofZ trips
   /\ AdminDashboard.calculatedNetProfit shown =
        ofZ (income - trips - salaries))
  /\ (DriverDashboard.totalIncome shown = ofZ income
      /\ DriverDashboard.totalExpenses shown = ofZ (trips + salaries)
      /\ DriverDashboard.totalSalary shown = ofZ salaries).
Proof.
  apply (dashboard_figures_exact
           [ (Driver.mk "1" "Ramesh Kumar" "TN 38 BR 1234" "1234" None, "a",
              posZero,
              ReportForm.mkState "2024-03-14" "120" "08:00" "18:00"
                (ReportForm.mkIncomeInput "1500" "" "250")
                (ReportForm.mkExpensesInput "900" "0" "60" "" "1000") "");
             (Driver.mk "2" "Suresh Raj" "TN 38 CS 5678" "5678" None, "b",
              posZero,
              ReportForm.mkState "2024-03-15" "80" "09:00" "17:00"
                (ReportForm.mkIncomeInput "700" "300" "")
                (ReportForm.mkExpensesInput "1200" "150" "" "40" "800") "") ]).
  - repeat constructor.
  - vm_compute; reflexivity.
Defined.

(** ** The summary statement of the PDF report *)

Lemma handleSubmit_lines (x : Submission) :
  List.forallb wholeAmount (moneyFields (snd x)) = true ->
  let r := submit x in
  let st := snd x in
  IncomeBreakdown.local (DailyReport.income r) =
    whole (amount (ReportForm.local (ReportForm.income st)))
  /\ IncomeBreakdown.outstation (DailyReport.income r) =
       whole (amount (ReportForm.outstation (ReportForm.income st)))
  /\ IncomeBreakdown.mixed (DailyReport.income r) =
       whole (amount (ReportForm.mixed (ReportForm.income st))).
Proof.
  destruct x as [[[driver uuid] now] st]; cbn [snd].
  unfold moneyFields; cbn [List.forallb]; intros H.
  repeat (apply andb_prop in H; destruct H as [?H H]).
  repeat match goal with
         | W : wholeAmount _ = true |- _ =>
             apply wholeAmount_spec in W; destruct W as [?E ?B]
         end.
  cbv zeta; unfold submit, ReportForm.handleSubmit.
  cbn [DailyReport.income IncomeBreakdown.local IncomeBreakdown.outstation
       IncomeBreakdown.mixed].
  repeat split; assumption.
Qed.

Lemma fold_add2_whole (g h : DailyReport.t -> number)
    (nz mz : Submission -> Z) (subs : list Submission) (acc : Z) :
  Forall (fun x => (g (submit x) = whole (nz x) /\ 0 <= nz x)
                   /\ (h (submit x) = whole (mz x) /\ 0 <= mz x)) subs ->
  0 <= acc -> acc + sumOver (fun x => nz x + mz x) subs < 2 ^ 53 ->
  fold_left (fun a r => add (add a (g r)) (h r)) (map submit subs) (whole acc) =
    whole (acc + sumOver (fun x => nz x + mz x) subs).
Proof.
  intros H; revert acc;
    induction H as [|x l [[Hg Pg] [Hh Ph]] Hl IH]; intros acc Ha Hb.
  - simpl; now rewrite Z.add_0_r.
  - assert (0 <= sumOver (fun x => nz x + mz x) l).
    { apply sumOver_nonneg. eapply Forall_impl; [|exact Hl].
      cbv beta; intros ? [[_ ?] [_ ?]]; lia. }
    cbn [map fold_left sumOver fold_right] in *.
    fold (sumOver (fun x => nz x + mz x) l) in *.
    rewrite Hg, Hh, !add_whole by lia.
    rewrite IH by lia. f_equal; lia.
Qed.

Section WholeReports.

Variable subs : list Submission.

Hypothesis whole_forms :
  Forall (fun x : Submission =>
            List.forallb wholeAmount (moneyFields (snd x)) = true) subs.
Hypothesis money_bounded :
  sumOver (fun x : Submission => moneyOf (snd x)) subs < 2 ^ 53.

Lemma aggregate_whole (g : DailyReport.t -> number)
    (nz : ReportForm.State -> Z) :
  (forall x : Submission,
     List.forallb wholeAmount (moneyFields (snd x)) = true ->
     g (submit x) = whole (nz (snd x))) ->
  (forall st,
     Forall (fun s => 0 <= amount s < 2 ^ 50) (moneyFields st) ->
     0 <= nz st <= moneyOf st) ->
  fold_left (fun a r => add a (g r)) (map submit subs) posZero =
    whole (sumOver (fun x : Submission => nz (snd x)) subs)
  /\ 0 <= sumOver (fun x : Submission => nz (snd x)) subs < 2 ^ 53.
Proof.
  intros Hg Hn.
  assert (F : Forall (fun x : Submission =>
                        g (submit x) = whole (nz (snd x))
                        /\ 0 <= nz (snd x) <= moneyOf (snd x)) subs).
  { eapply Forall_impl; [|exact whole_forms]. intros x Hx; split.
    - now apply Hg.
    - apply Hn. now destruct (handleSubmit_whole x Hx) as (_ & _ & B). }
  assert (B : 0 <= sumOver (fun x : Submission => nz (snd x)) subs < 2 ^ 53).
  { split.
    - apply sumOver_nonneg. eapply Forall_impl; [|exact F].
      cbv beta; intros ? [_ ?]; lia.
    - eapply Z.le_lt_trans; [|exact money_bounded].
      apply sumOver_le. eapply Forall_impl; [|exact F].
      cbv beta; intros ? [_ ?]; lia. }
  split; [|exact B].
  apply fold_from_zero; [|lia].
  eapply Forall_impl; [|exact F]. cbv beta; intros ? [? ?]; split; [assumption | lia].
Qed.

End WholeReports.

Lemma money_parts (st : ReportForm.State) :
  Forall (fun s => 0 <= amount s < 2 ^ 50) (moneyFields st) ->
  0 <= amount (ReportForm.local (ReportForm.income st))
  /\ 0 <= amount (ReportForm.outstation (ReportForm.income st))
  /\ 0 <= amount (ReportForm.mixed (ReportForm.income st))
  /\ 0 <= amount (ReportForm.fuel (ReportForm.expenses st))
  /\ 0 <= amount (ReportForm.maintenance (ReportForm.expenses st))
  /\ 0 <= amount (ReportForm.toll (ReportForm.expenses st))
  /\ 0 <= amount (ReportForm.other (ReportForm.expenses st))
  /\ 0 <= amount (ReportForm.salary (ReportForm.expenses st)).
Proof.
  unfold moneyFields; intros H.
  repeat match goal with
         | F : Forall _ (_ :: _) |- _ => inversion F; clear F; subst
         end.
  lia.
Qed.

(** X19: the summary statement of the PDF report adds up.  For reports
    submitted from the form with whole amounts, whose amounts add up to
    less than 2^53 in all, the three revenue lines add up to the total
    revenue, the total expenses are the sum of the stored total expenses
    of the reports, and the net profit is the total revenue less the
    total expenses. *)
Theorem pdf_statement_adds_up (subs : list Submission) :
  Forall (fun x : Submission =>
            List.forallb wholeAmount (moneyFields (snd x)) = true) subs ->
  sumOver (fun x : Submission => moneyOf (snd x)) subs < 2 ^ 53 ->
  let shown := map submit subs in
  add (add (AdminDashboard.incomeLocal shown)
           (AdminDashboard.incomeOutstation shown))
      (AdminDashboard.incomeOther shown) = AdminDashboard.totalIncome shown
  /\ AdminDashboard.totalOpsExpenses shown =
       AdminDashboard.totalTripExpenses shown
  /\ sub (AdminDashboard.totalIncome shown)
         (AdminDashboard.totalOpsExpenses shown) =
       AdminDashboard.calculatedNetProfit shown.
Proof.
  intros W B shown.
  pose proof (aggregate_whole subs W B) as G.
  destruct (G (fun r => IncomeBreakdown.local (DailyReport.income r))
              (fun st => amount (ReportForm.local (ReportForm.income st))))
    as [GL BL].
  { intros x Hx; now destruct (handleSubmit_lines x Hx) as (? & ? & ?). }
  { intros st H; destruct (money_parts st H) as (?&?&?&?&?&?&?&?).
    unfold moneyOf, incomeOf, tripExpensesOf, salaryOf; lia. }
  destruct (G (fun r => IncomeBreakdown.outstation (DailyReport.income r))
              (fun st => amount (ReportForm.outstation (ReportForm.income st))))
    as [GO BO].
  { intros x Hx; now destruct (handleSubmit_lines x Hx) as (? & ? & ?). }
  { intros st H; destruct (money_parts st H) as (?&?&?&?&?&?&?&?).
    unfold moneyOf, incomeOf, tripExpensesOf, salaryOf; lia. }
  destruct (G (fun r => IncomeBreakdown.mixed (DailyReport.income r))
              (fun st => amount (ReportForm.mixed (ReportForm.income st))))
    as [GM BM].
  { intros x Hx; now destruct (handleSubmit_lines x Hx) as (? & ? & ?). }
  { intros st H; destruct (money_parts st H) as (?&?&?&?&?&?&?&?).
    unfold moneyOf, incomeOf, tripExpensesOf, salaryOf; lia. }
  destruct (G DailyReport.totalIncome incomeOf) as [GI BI].
  { intros x Hx; now destruct (handleSubmit_whole x Hx) as ((? & _) & _). }
  { intros st H; destruct (money_parts st H) as (?&?&?&?&?&?&?&?).
    unfold moneyOf, incomeOf, tripExpensesOf, salaryOf; lia. }
  destruct (G DailyReport.totalExpenses
              (fun st => tripExpensesOf st + salaryOf st)) as [GE BE].
  { intros x Hx; now destruct (handleSubmit_whole x Hx) as ((_ & ? & _) & _). }
  { intros st H; destruct (money_parts st H) as (?&?&?&?&?&?&?&?).
    unfold moneyOf, incomeOf, tripExpensesOf, salaryOf; lia. }
  destruct (G (fun r => orZero (DailyReport.driverSalary r)) salaryOf)
    as [GS BS].
  { intros x Hx; destruct (handleSubmit_whole x Hx) as ((_ & _ & T & _) & _).
    cbv zeta in T; rewrite T; apply whole_truthy. }
  { intros st H; destruct (money_parts st H) as (?&?&?&?&?&?&?&?).
    unfold moneyOf, incomeOf, tripExpensesOf, salaryOf; lia. }
  destruct (G (fun r => ExpenseBreakdown.fuel (DailyReport.expenses r))
              (fun st => amount (ReportForm.fuel (ReportForm.expenses st))))
    as [GF BF].
  { intros x Hx;
      now destruct (handleSubmit_whole x Hx) as (_ & (? & ? & ? & ?) & _). }
  { intros st H; destruct (money_parts st H) as (?&?&?&?&?&?&?&?).
    unfold moneyOf, incomeOf, tripExpensesOf, salaryOf; lia. }
  destruct (G (fun r => ExpenseBreakdown.maintenance (DailyReport.expenses r))
              (fun st => amount (ReportForm.maintenance
                                   (ReportForm.expenses st))))
    as [GA BA].
  { intros x Hx;
      now destruct (handleSubmit_whole x Hx) as (_ & (? & ? & ? & ?) & _). }
  { intros st H; destruct (money_parts st H) as (?&?&?&?&?&?&?&?).
    unfold moneyOf, incomeOf, tripExpensesOf, salaryOf; lia. }
  destruct (G (fun r => ExpenseBreakdown.toll (DailyReport.expenses r))
              (fun st => amount (ReportForm.toll (ReportForm.expenses st))))
    as [GT BT].
  { intros x Hx;
      now destruct (handleSubmit_whole x Hx) as (_ & (? & ? & ? & ?) & _). }
  { intros st H; destruct (money_parts st H) as (?&?&?&?&?&?&?&?).
    unfold moneyOf, incomeOf, tripExpensesOf, salaryOf; lia. }
  destruct (G (fun r => ExpenseBreakdown.other (DailyReport.expenses r))
              (fun st => amount (ReportForm.other (ReportForm.expenses st))))
    as [GR BR].
  { intros x Hx;
      now destruct (handleSubmit_whole x Hx) as (_ & (? & ? & ? & ?) & _). }
  { intros st H; destruct (money_parts st H) as (?&?&?&?&?&?&?&?).
    unfold moneyOf, incomeOf, tripExpensesOf, salaryOf; lia. }
  (* tolls and other expenses, added report by report *)
  assert (ST : sumOver
                 (fun x : Submission =>
                    amount (ReportForm.toll (ReportForm.expenses (snd x)))
                    + amount (ReportForm.other (ReportForm.expenses (snd x))))
                 subs =
               sumOver (fun x : Submission =>
                          amount (ReportForm.toll (ReportForm.expenses (snd x))))
                       subs
               + sumOver (fun x : Submission =>
                            amount (ReportForm.other
                                      (ReportForm.expenses (snd x)))) subs)
    by apply sumOver_add.
  assert (GX : AdminDashboard.expOther shown =
               whole (sumOver
                        (fun x : Submission =>
                           amount (ReportForm.toll (ReportForm.expenses (snd x)))
                           + amount (ReportForm.other
                                       (ReportForm.expenses (snd x)))) subs)).
  { unfold AdminDashboard.expOther, shown.
    change posZero with (whole 0).
    rewrite (fold_add2_whole _ _
               (fun x => amount (ReportForm.toll (ReportForm.expenses (snd x))))
               (fun x => amount (ReportForm.other (ReportForm.expenses (snd x))))).
    - reflexivity.
    - eapply Forall_impl; [|exact W]. intros x Hx.
      destruct (handleSubmit_whole x Hx) as (_ & (_ & _ & ? & ?) & Bd).
      destruct (money_parts _ Bd) as (?&?&?&?&?&?&?&?).
      repeat split; assumption.
    - lia.
    - rewrite Z.add_0_l.
      eapply Z.le_lt_trans; [|exact B].
      apply sumOver_le. eapply Forall_impl; [|exact W]. intros x Hx.
      destruct (handleSubmit_whole x Hx) as (_ & _ & Bd).
      destruct (money_parts _ Bd) as (?&?&?&?&?&?&?&?).
      unfold moneyOf, incomeOf, tripExpensesOf, salaryOf; lia. }
  (* the sums of the lines *)
  assert (SI : sumOver (fun x : Submission => incomeOf (snd x)) subs =
               sumOver (fun x : Submission =>
                          amount (ReportForm.local (ReportForm.income (snd x))))
                       subs
               + sumOver (fun x : Submission =>
                            amount (ReportForm.outstation
                                      (ReportForm.income (snd x)))) subs
               + sumOver (fun x : Submission =>
                            amount (ReportForm.mixed
                                      (ReportForm.income (snd x)))) subs).
  { unfold incomeOf. rewrite !sumOver_add. reflexivity. }
  assert (SE : sumOver (fun x : Submission =>
                          tripExpensesOf (snd x) + salaryOf (snd x)) subs =
               sumOver (fun x : Submission =>
                          amount (ReportForm.fuel (ReportForm.expenses (snd x))))
                       subs
               + sumOver (fun x : Submission =>
                            amount (ReportForm.maintenance
                                      (ReportForm.expenses (snd x)))) subs
               + sumOver (fun x : Submission =>
                            amount (ReportForm.toll
                                      (ReportForm.expenses (snd x)))) subs
               + sumOver (fun x : Submission =>
                            amount (ReportForm.other
                                      (ReportForm.expenses (snd x)))) subs
               + sumOver (fun x : Submission => salaryOf (snd x)) subs).
  { unfold tripExpensesOf. rewrite !sumOver_add. reflexivity. }
  assert (SM : sumOver (fun x : Submission => moneyOf (snd x)) subs =
               sumOver (fun x : Submission => incomeOf (snd x)) subs
               + sumOver (fun x : Submission =>
                            tripExpensesOf (snd x) + salaryOf (snd x)) subs).
  { unfold moneyOf. rewrite !sumOver_add. lia. }
  unfold AdminDashboard.totalOpsExpenses, AdminDashboard.calculatedNetProfit,
    AdminDashboard.calculatedTripExpensesOnly.
  rewrite GX.
  unfold AdminDashboard.incomeLocal, AdminDashboard.incomeOutstation,
    AdminDashboard.incomeOther, AdminDashboard.totalIncome,
    AdminDashboard.totalTripExpenses, AdminDashboard.totalSalary,
    AdminDashboard.expFuel, AdminDashboard.expMaint, AdminDashboard.expSalary,
    AdminDashboard.rawFuel, AdminDashboard.rawMaint, AdminDashboard.rawToll,
    AdminDashboard.rawOther.
  fold shown in GL, GO, GM, GI, GE, GS, GF, GA, GT, GR.
  rewrite GL, GO, GM, GI, GE, GS, GF, GA, GT, GR.
  rewrite !add_whole by lia.
  rewrite !sub_whole by lia.
  repeat split; f_equal; lia.
Qed.

Lemma pdf_statement_adds_up_witness :
  let shown :=
    map submit
      [ (Driver.mk "1" "Ramesh Kumar" "TN 38 BR 1234" "1234" None, "a",
         posZero,
         ReportForm.mkState "2024-03-14" "120" "08:00" "18:00"
           (ReportForm.mkIncomeInput "1500" "" "250")
           (ReportForm.mkExpensesInput "900" "0" "60" "" "1000") "");
        (Driver.mk "2" "Suresh Raj" "TN 38 CS 5678" "5678" None, "b",
         posZero,
         ReportForm.mkState "2024-03-15" "80" "09:00" "17:00"
           (ReportForm.mkIncomeInput "700" "300" "")
           (ReportForm.mkExpensesInput "1200" "150" "" "40" "800") "") ] in
  add (add (AdminDashboard.incomeLocal shown)
           (AdminDashboard.incomeOutstation shown))
      (AdminDashboard.incomeOther shown) = AdminDashboard.totalIncome shown
  /\ AdminDashboard.totalOpsExpenses shown =
       AdminDashboard.totalTripExpenses shown
  /\ sub (AdminDashboard.totalIncome shown)
         (AdminDashboard.totalOpsExpenses shown) =
       AdminDashboard.calculatedNetProfit shown.
Proof.
  apply (pdf_statement_adds_up
           [ (Driver.mk "1" "Ramesh Kumar" "TN 38 BR 1234" "1234" None, "a",
              posZero,
              ReportForm.mkState "2024-03-14" "120" "08:00" "18:00"
                (ReportForm.mkIncomeInput "1500" "" "250")
                (ReportForm.mkExpensesInput "900" "0" "60" "" "1000") "");
             (Driver.mk "2" "Suresh Raj" "TN 38 CS 5678" "5678" None, "b",
              posZero,
              ReportForm.mkState "2024-03-15" "80" "09:00" "17:00"
                (ReportForm.mkIncomeInput "700" "300" "")
                (ReportForm.mkExpensesInput "1200" "150" "" "40" "800") "") ]).
  - repeat constructor.
  - vm_compute; reflexivity.
Defined.
